(** * Dark Volume Dashboard (finra.py): shallow embedding and verification

    The program is a Streamlit script: one cached download function
    ([download_finra_data]), a price lookup ([fetch_closing_prices]) and
    seven tabs, each of which is a pandas pipeline over the daily FINRA
    short-volume files.  The embedding below follows the script:

    - [Num]     : the two numeric column types of the script, int64 and
                  float64;
    - [Binary64]: the rounding of float64 results to 53 bits, and the
                  Buy-Sell Ratio and DP Index of a row computed with it;
    - [Pandas]  : the pandas operations the script calls (rolling windows,
                  group-by/transform, group-by/agg, sort_values, head, map);
    - [Cache]   : [download_finra_data] over an explicit file system and an
                  explicit remote server;
    - one module per tab, in the order of the script.

    Modelling conventions.  A DataFrame is a list of row records, in row
    order; a column assignment [data['X'] = e] is the element-wise map that
    the vectorised expression [e] denotes.  int64 arithmetic wraps around.
    A float64 is either a special value (+inf, -inf, NaN) or a finite value
    kept as a rational.  The operations of [Num] return the exact result,
    with the special values and their comparison rules; the frames of the
    tabs are built from them.  [Binary64] rounds each result as the
    hardware does (nearest, ties to even, subnormals, overflow to
    infinity); the statements about the value of a ratio, of a DP Index
    or of a cumulative sum are made with it. *)

From Stdlib Require Import ZArith QArith Qround Qabs Qpower Bool List Lia Lqa.
From Stdlib Require Import String Ascii.
From Stdlib Require Import Permutation Sorted.
From stdpp Require Import gmap strings.
Import ListNotations.

Close Scope Q_scope.
Open Scope Z_scope.

(* ===================================================================== *)
(** ** Numbers *)
(* ===================================================================== *)

Module Num.

(** int64 column arithmetic: numpy wraps silently on overflow. *)
Definition int64_min : Z := - 2 ^ 63.
Definition int64_max : Z := 2 ^ 63 - 1.
Definition in_int64 (z : Z) : Prop := int64_min <= z <= int64_max.
Definition wrap64 (z : Z) : Z := (z + 2 ^ 63) mod 2 ^ 64 - 2 ^ 63.
Definition add64 (a b : Z) : Z := wrap64 (a + b).
Definition sub64 (a b : Z) : Z := wrap64 (a - b).

(** float64 values.  [Fin q] is a finite value (signed zeros are not
    distinguished: every zero the script divides by comes from an int64
    and is +0). *)
Inductive float64 : Type :=
| Fin (q : Q)
| PInf
| NInf
| NaN.

Definition of_int (z : Z) : float64 := Fin (inject_Z z).
Definition of_bool (b : bool) : float64 := if b then of_int 1 else of_int 0.

Definition isnan (x : float64) : bool :=
  match x with NaN => true | _ => false end.
Definition notna (x : float64) : bool := negb (isnan x).
Definition is_finite (x : float64) : bool :=
  match x with Fin _ => true | _ => false end.

Definition Qsign (q : Q) : comparison := (Qnum q ?= 0)%Z.

Definition fneg (x : float64) : float64 :=
  match x with
  | Fin q => Fin (Qred (- q))
  | PInf => NInf
  | NInf => PInf
  | NaN => NaN
  end.

(** IEEE 754 addition on the special values. *)
Definition fadd (x y : float64) : float64 :=
  match x, y with
  | NaN, _ | _, NaN => NaN
  | PInf, NInf | NInf, PInf => NaN
  | PInf, _ | _, PInf => PInf
  | NInf, _ | _, NInf => NInf
  | Fin a, Fin b => Fin (Qred (a + b))
  end.

(** IEEE 754 multiplication: inf * 0 is NaN, otherwise signs multiply. *)
Definition fmul (x y : float64) : float64 :=
  let inf_times (pos : bool) (q : Q) :=
    match Qsign q with
    | Eq => NaN
    | Gt => if pos then PInf else NInf
    | Lt => if pos then NInf else PInf
    end in
  match x, y with
  | NaN, _ | _, NaN => NaN
  | Fin a, Fin b => Fin (Qred (a * b))
  | PInf, Fin b => inf_times true b
  | NInf, Fin b => inf_times false b
  | Fin a, PInf => inf_times true a
  | Fin a, NInf => inf_times false a
  | PInf, PInf | NInf, NInf => PInf
  | PInf, NInf | NInf, PInf => NInf
  end.

(** IEEE 754 division: x/0 is +-inf for x <> 0 and NaN for 0/0; inf/inf is
    NaN; finite/inf is 0. *)
Definition fdiv (x y : float64) : float64 :=
  match x, y with
  | NaN, _ | _, NaN => NaN
  | Fin a, Fin b =>
      match Qsign b with
      | Eq => match Qsign a with
              | Eq => NaN
              | Gt => PInf
              | Lt => NInf
              end
      | _ => Fin (Qred (a / b))
      end
  | Fin _, PInf | Fin _, NInf => Fin 0%Q
  | PInf, Fin b => match Qsign b with Lt => NInf | _ => PInf end
  | NInf, Fin b => match Qsign b with Lt => PInf | _ => NInf end
  | _, _ => NaN
  end.

(** Ordered comparison; [None] is IEEE's "unordered" (a NaN operand). *)
Definition fcompare (x y : float64) : option comparison :=
  match x, y with
  | NaN, _ | _, NaN => None
  | Fin a, Fin b => Some (a ?= b)%Q
  | PInf, PInf | NInf, NInf => Some Eq
  | PInf, _ | _, NInf => Some Gt
  | NInf, _ | _, PInf => Some Lt
  end.

(** The four comparison operators; each is False on a NaN operand. *)
Definition fgt (x y : float64) : bool :=
  match fcompare x y with Some Gt => true | _ => false end.
Definition fge (x y : float64) : bool :=
  match fcompare x y with Some Gt | Some Eq => true | _ => false end.
Definition flt (x y : float64) : bool :=
  match fcompare x y with Some Lt => true | _ => false end.
Definition fle (x y : float64) : bool :=
  match fcompare x y with Some Lt | Some Eq => true | _ => false end.

(** Round to the nearest integer, ties to even (numpy's rint). *)
Definition rint (q : Q) : Z :=
  let n := Qfloor q in
  match (q - inject_Z n ?= 1 # 2)%Q with
  | Lt => n
  | Gt => n + 1
  | Eq => if Z.even n then n else n + 1
  end.

(** [Series.round(2)]: scale by 100, rint, scale back. *)
Definition round2 (x : float64) : float64 :=
  match x with
  | Fin q => Fin (Qred (inject_Z (rint (q * 100)) / 100))
  | _ => x
  end.

(** int64 / int64 is true division in float64. *)
Definition truediv (a b : Z) : float64 := fdiv (of_int a) (of_int b).

(** Sum of a float list, left to right. *)
Definition fsum (xs : list float64) : float64 :=
  fold_left fadd xs (Fin 0%Q).

(** Sum of an int64 list. *)
Definition isum (xs : list Z) : Z := fold_left add64 xs 0.

(** The exact sum of a list of integers (used to state facts about
    [fsum]; the script has no such operation). *)
Definition Zsum (xs : list Z) : Z := fold_right Z.add 0 xs.

End Num.
Export Num.

(* ===================================================================== *)
(** ** binary64 arithmetic, with its rounding *)
(* ===================================================================== *)

Module Binary64.

(** binary64 (IEEE 754 double precision): a finite value is a multiple of
    a power of two with a significand of at most 53 bits; every
    operation returns the exact result rounded to the nearest such
    value, ties to the even significand, and a result of magnitude
    2^1024 or more becomes an infinity. *)
Definition pow2 (e : Z) : Q := (2 ^ e)%Q.

(** floor (log2 |q|), for q <> 0. *)
Definition ilog2 (q : Q) : Z :=
  let k := Z.log2 (Z.abs (Qnum q)) - Z.log2 (Zpos (Qden q)) in
  if Qle_bool (pow2 k) (Qabs q) then k else k - 1.

(** The exponent of the unit in the last place of [q]: 53 significant
    bits, and no unit below 2^-1074 (subnormal values). *)
Definition ulp_exp (q : Q) : Z := Z.max (ilog2 q) (-1022) - 52.

Definition round (q : Q) : Q :=
  if Qeq_bool q 0 then 0%Q
  else (inject_Z (rint (q / pow2 (ulp_exp q))) * pow2 (ulp_exp q))%Q.

Definition fl (q : Q) : float64 :=
  let r := round q in
  if Qle_bool (pow2 1024) (Qabs r)
  then (if Qle_bool 0 r then PInf else NInf)
  else Fin (Qred r).

(** An operation of [Num] gives the exact result; binary64 rounds it. *)
Definition rnd (x : float64) : float64 :=
  match x with Fin q => fl q | _ => x end.

Definition of_int (z : Z) : float64 := rnd (Num.of_int z).
Definition fadd (x y : float64) : float64 := rnd (Num.fadd x y).
Definition fdiv (x y : float64) : float64 := rnd (Num.fdiv x y).
Definition fmul (x y : float64) : float64 := rnd (Num.fmul x y).

(** [numpy.round(x, 2)]: multiply by 100.0, round to the nearest integer,
    divide by 100.0, each step in binary64. *)
Definition round2 (x : float64) : float64 :=
  match fmul x (Fin 100) with
  | Fin p => fdiv (Fin (inject_Z (rint p))) (Fin 100)
  | y => y
  end.

(** [data['Bought'] / data['Sold']] on one row. *)
Definition buy_sell_ratio (bought sold : Z) : float64 :=
  fdiv (of_int bought) (of_int sold).

(** [(data['Bought'] / data[total] * 100).round(2)] on one row. *)
Definition dp_index (bought total : Z) : float64 :=
  round2 (fmul (fdiv (of_int bought) (of_int total)) (of_int 100)).

(** The DP Index as a function of the exact share [bought / total], for
    shares between 0 and 1: the quotient, the product with 100 and the
    three steps of [round2], each rounded. *)
Definition dp_of_share (share : Q) : Q :=
  round (inject_Z (rint (round (round (round share * 100) * 100))) / 100)%Q.

End Binary64.

(* ===================================================================== *)
(** ** Calendar dates *)
(* ===================================================================== *)

Module Dates.

(** A [datetime.date]. *)
Record date : Type := mkdate { year : nat; month : nat; day : nat }.

Definition digit (n : nat) : ascii := ascii_of_nat (48 + n mod 10).

Definition pad2 (n : nat) : string :=
  String (digit (n / 10)) (String (digit n) EmptyString).

Definition pad4 (n : nat) : string :=
  String (digit (n / 1000)) (String (digit (n / 100)) (pad2 n)).

(** [date.strftime('%Y%m%d')]. *)
Definition strftime_Ymd (d : date) : string :=
  (pad4 (year d) ++ pad2 (month d) ++ pad2 (day d))%string.

(** [date.strftime('%Y-%m-%d')]. *)
Definition strftime_iso (d : date) : string :=
  (pad4 (year d) ++ "-" ++ pad2 (month d) ++ "-" ++ pad2 (day d))%string.

(** Comparison of two [date] objects. *)
Definition date_compare (d1 d2 : date) : comparison :=
  match Nat.compare (year d1) (year d2) with
  | Eq => match Nat.compare (month d1) (month d2) with
          | Eq => Nat.compare (day d1) (day d2)
          | c => c
          end
  | c => c
  end.

Definition date_leb (d1 d2 : date) : bool :=
  match date_compare d1 d2 with Gt => false | _ => true end.

(** The dates a [datetime.date] can hold: years 1 to 9999, months 1 to 12,
    days 1 to 31. *)
Definition valid_date (d : date) : Prop :=
  (1 <= Z.of_nat (year d) <= 9999)%Z
  /\ (1 <= month d <= 12)%nat
  /\ (1 <= day d <= 31)%nat.

(** Python's [>] and [>=] on two [str] values. *)
Definition str_gt (a b : string) : bool := String.ltb b a.
Definition str_ge (a b : string) : bool := String.leb b a.

End Dates.
Export Dates.

(* ===================================================================== *)
(** ** The pandas operations used by the script *)
(* ===================================================================== *)

Module Pandas.

(** *** Element-wise helpers *)

(** [zip_with]-style column assignment: [data['X'] = col]. *)
Definition assign {A B C : Type} (f : A -> B -> C) (data : list A) (col : list B)
  : list C :=
  map (fun p => f (fst p) (snd p)) (combine data col).

(** Several columns at once: [zap (zap (map mk data) col1) col2]. *)
Definition zap {A B : Type} (fs : list (A -> B)) (col : list A) : list B :=
  assign (fun f x => f x) fs col.

(** [df.head(n)]. *)
Definition head {A : Type} (n : nat) (data : list A) : list A := firstn n data.

(** [Series.mean()] of an int64 column: the sum is accumulated in float64
    and divided by the row count; an empty column gives 0/0 = NaN. *)
Definition mean_int (xs : list Z) : float64 :=
  fdiv (fsum (map of_int xs)) (of_int (Z.of_nat (length xs))).

(** [Series.mean()] of a float64 column: NaN entries are skipped. *)
Definition mean_float (xs : list float64) : float64 :=
  let obs := List.filter notna xs in
  fdiv (fsum obs) (of_int (Z.of_nat (length obs))).

(** [Series.sum()] of an int64 column. *)
Definition sum_int (xs : list Z) : Z := isum xs.

(** *** Rolling windows

    [s.rolling(window=w, min_periods=m)] looks, at row [i], at the rows
    [i-w+1 .. i] that exist.  The aggregate is computed over the non-NaN
    observations of the window when there are at least [m] of them, and
    is NaN otherwise. *)
Definition window {A : Type} (w i : nat) (xs : list A) : list A :=
  skipn (S i - w) (firstn (S i) xs).

Definition rolling (w m : nat) (agg : list float64 -> float64)
           (xs : list float64) : list float64 :=
  map (fun i =>
         let obs := List.filter notna (window w i xs) in
         if (m <=? length obs)%nat then agg obs else NaN)
      (seq 0 (length xs)).

Definition rolling_sum (w m : nat) : list float64 -> list float64 :=
  rolling w m fsum.

(** [rolling(window=w).mean()]: [min_periods] defaults to the window. *)
Definition rolling_mean (w : nat) : list float64 -> list float64 :=
  rolling w w (fun obs => fdiv (fsum obs) (of_int (Z.of_nat (length obs)))).

(** A boolean column enters a rolling window as 1.0 / 0.0. *)
Definition bools (bs : list bool) : list float64 := map of_bool bs.

(** The integer a boolean counts for in a sum: True is 1, False is 0. *)
Definition b2z (b : bool) : Z := if b then 1 else 0.

(** [series >= c], [series > c] against a scalar. *)
Definition ge_scalar (c : Z) (xs : list float64) : list bool :=
  map (fun x => fge x (of_int c)) xs.

(** *** Group-by

    [df.groupby(key)[col].transform(f)]: [f] is applied to the sub-series
    of every group (rows in their original order) and row [i] receives
    the entry of its group's result at the row's rank inside the group. *)
Definition group_of {A : Type} (k : string) (kx : list (string * A)) : list A :=
  map snd (List.filter (fun p => String.eqb (fst p) k) kx).

(** Row by row: [seen] holds the rows above the current one, so the
    current row's rank in its group is the number of rows of the group
    in [seen]. *)
Fixpoint transform_rows {A B : Type} (groups : string -> list B) (d : B)
         (seen rest : list (string * A)) : list B :=
  match rest with
  | [] => []
  | (k, x) :: rest' =>
      nth (length (group_of k seen)) (groups k) d
      :: transform_rows groups d (seen ++ [(k, x)]) rest'
  end.

Definition groupby_transform {A B : Type} (kx : list (string * A))
           (f : list A -> list B) (d : B) : list B :=
  transform_rows (fun k => f (group_of k kx)) d [] kx.

(** [df.groupby(keys).agg(...).reset_index()]: one output row per
    distinct key, keys in ascending order. *)
Section GroupAgg.
Context {K A B : Type}.
Variable kcmp : K -> K -> comparison.

Fixpoint insert_key (k : K) (ks : list K) : list K :=
  match ks with
  | [] => [k]
  | k' :: ks' =>
      match kcmp k k' with
      | Lt => k :: ks
      | Eq => ks
      | Gt => k' :: insert_key k ks'
      end
  end.

Definition group_keys (ks : list K) : list K :=
  fold_left (fun acc k => insert_key k acc) ks [].

Definition groupby_agg (key : A -> K) (agg : K -> list A -> B)
           (rows : list A) : list B :=
  map (fun k =>
         agg k (List.filter
                  (fun r => match kcmp (key r) k with Eq => true | _ => false end)
                  rows))
      (group_keys (map key rows)).
End GroupAgg.

Definition pair_compare (k1 k2 : string * string) : comparison :=
  match String.compare (fst k1) (fst k2) with
  | Eq => String.compare (snd k1) (snd k2)
  | c => c
  end.

(** *** sort_values(by=[...], ascending=False)

    An order on rows answers [Lt] when the first row is placed before
    the second.  Descending column orders; NaN is placed last
    ([na_position='last']).  Several keys compare lexicographically.
    The sort is stable: rows that tie on every key keep their input
    order.  (pandas guarantees this for several keys; with one key its
    default quicksort leaves the order of ties open, and the model fixes
    it to input order as well.) *)
Definition order (A : Type) : Type := A -> A -> comparison.

Definition desc_float : order float64 := fun x y =>
  match x, y with
  | NaN, NaN => Eq
  | NaN, _ => Gt
  | _, NaN => Lt
  | _, _ => match fcompare y x with Some c => c | None => Eq end
  end.

Definition desc_int : order Z := fun x y => (y ?= x)%Z.

Definition desc_str : order string := fun x y => String.compare y x.

Definition desc_date : order date := fun x y => date_compare y x.

Definition by_col {A C : Type} (col : A -> C) (o : order C) : order A :=
  fun r1 r2 => o (col r1) (col r2).

Fixpoint lexi {A : Type} (os : list (order A)) : order A :=
  fun r1 r2 =>
    match os with
    | [] => Eq
    | o :: os' => match o r1 r2 with Eq => lexi os' r1 r2 | c => c end
    end.

Fixpoint insert_sorted {A : Type} (o : order A) (x : A) (l : list A) : list A :=
  match l with
  | [] => [x]
  | y :: l' =>
      match o x y with
      | Gt => y :: insert_sorted o x l'
      | _ => x :: l
      end
  end.

Definition sort_values {A : Type} (by_ : list (order A)) (data : list A) : list A :=
  fold_right (insert_sorted (lexi by_)) [] data.

(** The orders that [sort_values] is given are total preorders: the
    comparison is antisymmetric, "before" is transitive, and rows that tie
    compare alike with every third row. *)
Record total_order {A : Type} (o : order A) : Prop := mk_total_order {
  order_antisym : forall x y, o y x = CompOpp (o x y);
  order_lt_trans : forall x y z, o x y = Lt -> o y z = Lt -> o x z = Lt;
  order_eq_compat : forall x y z, o x y = Eq -> o x z = o y z
}.

(** [x] is placed before or ties with [y]. *)
Definition not_after {A : Type} (o : order A) (x y : A) : Prop := o x y <> Gt.

(** No two different rows of [data] tie on every sort key. *)
Definition distinct_keys {A : Type} (by_ : list (order A)) (data : list A) : Prop :=
  forall x y, In x data -> In y data -> lexi by_ x y = Eq -> x = y.

(** A check for it: no row ties with a row further down. *)
Fixpoint no_ties {A : Type} (o : order A) (data : list A) : bool :=
  match data with
  | [] => true
  | x :: rest =>
      forallb (fun y => match o x y with Eq => false | _ => true end) rest
      && no_ties o rest
  end.

(** *** Prices

    [Series.unique()]: distinct values in order of first appearance. *)
Fixpoint unique (l : list string) : list string :=
  match l with
  | [] => []
  | x :: l' => x :: List.filter (fun y => negb (String.eqb y x)) (unique l')
  end.

(** [Series.map(dict)]: a key missing from the dict maps to NaN. *)
Definition map_dict (d : gmap string float64) (keys : list string) : list float64 :=
  map (fun k => match d !! k with Some v => v | None => NaN end) keys.

End Pandas.

(* ===================================================================== *)
(** ** download_finra_data: the cached download *)
(* ===================================================================== *)

Module Cache.

(** The exceptions that can leave [download_finra_data]: those of
    [pd.read_csv].  ([requests] exceptions are caught inside.) *)
Inductive exn : Type :=
| EmptyDataError
| ParserError.

Inductive result (A : Type) : Type :=
| Ok (a : A)
| Raise (e : exn).
Arguments Ok {A} a.
Arguments Raise {A} e.

(** What [requests.get(url)] can do: raise a [RequestException]
    (connection error, timeout, ...) or return a response. *)
Inductive response : Type :=
| RequestException
| Response (status_code : Z) (text : string).

(** [response.raise_for_status()] raises [HTTPError], a
    [RequestException], on a 4xx or 5xx status. *)
Definition raise_for_status (status_code : Z) : bool :=
  (400 <=? status_code) && (status_code <? 600).

(** The state the function touches: the files under [DATA_DIR] and the
    remote server, of which we record the requests received so far. *)
Record world : Type := mkworld {
  files : gmap string string;
  requests : list string
}.

Definition DATA_DIR : string := "Data/Finra".
Definition base_url : string := "https://cdn.finra.org/equity/regsho/daily/".

Definition filename (d : date) : string :=
  ("CNMSshvol" ++ strftime_Ymd d ++ ".txt")%string.
Definition file_path (d : date) : string :=
  (DATA_DIR ++ "/" ++ filename d)%string.
Definition url (d : date) : string := (base_url ++ filename d)%string.

Section Download.
Context {DataFrame : Type}.
(** [pd.read_csv(..., sep='|')] on the text of a file or payload. *)
Variable read_csv : string -> result DataFrame.
(** The server's answer to the [n]-th request it receives. *)
Variable server : nat -> string -> response.

Definition download_finra_data (d : date) (w : world)
  : result (option DataFrame) * world :=
  match files w !! file_path d with
  | Some content =>
      (* os.path.exists(file_path): return pd.read_csv(file_path, sep='|') *)
      (match read_csv content with
       | Ok df => Ok (Some df)
       | Raise e => Raise e
       end, w)
  | None =>
      let w1 := mkworld (files w) (requests w ++ [url d]) in
      match server (length (requests w)) (url d) with
      | RequestException => (Ok None, w1)
      | Response status_code text =>
          if raise_for_status status_code then (Ok None, w1)
          else
            (* with open(file_path, 'w') as f: f.write(response.text) *)
            let w2 := mkworld (<[file_path d := text]> (files w1)) (requests w1) in
            match read_csv text with
            | Ok df => (Ok (Some df), w2)
            | Raise e => (Raise e, w2)
            end
      end
  end.

Definition get_data_for_date (d : date) (w : world)
  : result (option DataFrame) * world :=
  download_finra_data d w.
End Download.

(** A pipe-separated reader, enough to run the function on concrete
    payloads: the header line gives the columns, every further non-blank
    line a row of cells.  As [pd.read_csv] does, it raises
    [EmptyDataError] on an empty text ("No columns to parse from file"). *)
Fixpoint split_at (c : ascii) (s : string) : list string :=
  match s with
  | EmptyString => [EmptyString]
  | String a s' =>
      if Ascii.eqb a c then EmptyString :: split_at c s'
      else match split_at c s' with
           | [] => [String a EmptyString]
           | cell :: cells => String a cell :: cells
           end
  end.

Record frame : Type := mkframe {
  columns : list string;
  cells : list (list string)
}.

Definition newline : ascii := ascii_of_nat 10.
Definition pipe : ascii := ascii_of_nat 124.

Definition read_csv_pipe (text : string) : result frame :=
  match List.filter (fun l => negb (String.eqb l EmptyString)) (split_at newline text) with
  | [] => Raise EmptyDataError
  | header :: lines =>
      Ok (mkframe (split_at pipe header) (map (split_at pipe) lines))
  end.

End Cache.

(* ===================================================================== *)
(** ** Rows and the derivation shared by the tabs *)
(* ===================================================================== *)

(** One row of a daily file as [pd.read_csv] delivers it.  The file has a
    [Date] column of its own; every tab but Volume Buy/Sell overwrites it
    with the date of the loop ([daily_data['Date'] = date]). *)
Module Raw.
Record row : Type := mk {
  Date : date;
  Symbol : string;
  ShortVolume : Z;
  TotalVolume : Z
}.

Definition set_Date (d : date) (r : row) : row :=
  mk d (Symbol r) (ShortVolume r) (TotalVolume r).
End Raw.

(** A row after the "Process data" block of a tab.  Where a tab formats
    the date ([dt.strftime('%Y-%m-%d')]) the column is read through
    [Date_str]. *)
Record row : Type := mkrow {
  Date : date;
  Symbol : string;
  ShortVolume : Z;
  TotalVolume : Z;
  Bought : Z;
  Sold : Z;
  Total_Volume : Z;
  Buy_Sell_Ratio : float64;
  Pct_Avg : float64;
  DP_Index : float64
}.

Definition Date_str (r : row) : string := strftime_iso (Date r).

(** A frame with the [Closing Price] column added. *)
Record priced (A : Type) : Type := mkpriced {
  item : A;
  Closing_Price : float64
}.
Arguments mkpriced {A} item Closing_Price.
Arguments item {A} p.
Arguments Closing_Price {A} p.

Module Derive.
Import Pandas.

(** [data['Bought'] = data['ShortVolume']] *)
Definition bought_of (r : Raw.row) : Z := Raw.ShortVolume r.
(** [data['Sold'] = data['TotalVolume'] - data['ShortVolume']] *)
Definition sold_of (r : Raw.row) : Z := sub64 (Raw.TotalVolume r) (Raw.ShortVolume r).
(** [data['Total Volume'] = data['Bought'] + data['Sold']] *)
Definition total_of (r : Raw.row) : Z := add64 (bought_of r) (sold_of r).

(** The tabs differ in which total they divide by: the file's
    [TotalVolume] or the derived [Total Volume]. *)
Inductive total_col : Type := TotalVolume_col | Total_Volume_col.

Definition total (c : total_col) (r : Raw.row) : Z :=
  match c with
  | TotalVolume_col => Raw.TotalVolume r
  | Total_Volume_col => total_of r
  end.

(** The six assignments of a "Process data" block:
<<
    data['Bought'] = data['ShortVolume']
    data['Sold'] = data['TotalVolume'] - data['ShortVolume']
    data['Total Volume'] = data['Bought'] + data['Sold']
    data['Buy-Sell Ratio'] = data['Bought'] / data['Sold']
    data['% Avg'] = data[avg_col] / data[avg_col].mean() * 100
    data['DP Index'] = (data['Bought'] / data[dp_col] * 100).round(2)
>>  *)
Definition process (avg_col dp_col : total_col) (data : list Raw.row) : list row :=
  let mean := mean_int (map (total avg_col) data) in
  map (fun r =>
         mkrow (Raw.Date r) (Raw.Symbol r) (Raw.ShortVolume r) (Raw.TotalVolume r)
               (bought_of r) (sold_of r) (total_of r)
               (truediv (bought_of r) (sold_of r))
               (fmul (fdiv (of_int (total avg_col r)) mean) (of_int 100))
               (round2 (fmul (truediv (bought_of r) (total dp_col r)) (of_int 100))))
      data.

(** The loading loop of a tab:
<<
    for date in dates:
        daily_data = get_data_for_date(date)
        if daily_data is not None:
            daily_data = daily_data[keep]
            if not daily_data.empty:        # only where [skip_empty]
                daily_data['Date'] = date
                data_frames.append(daily_data)
>>  *)
Definition load (get_data_for_date : date -> option (list Raw.row))
           (keep : Raw.row -> bool) (skip_empty : bool) (dates : list date)
  : list (list Raw.row) :=
  flat_map
    (fun d =>
       match get_data_for_date d with
       | None => []
       | Some daily_data =>
           let daily_data := List.filter keep daily_data in
           match daily_data with
           | [] => if skip_empty then [] else [[]]
           | _ => [map (Raw.set_Date d) daily_data]
           end
       end)
    dates.

(** [(Bought >= min_volume) & (Sold >= min_volume)] *)
Definition volume_ok (min_volume : Z) (r : row) : bool :=
  (min_volume <=? Bought r) && (min_volume <=? Sold r).

(** [fetch_closing_prices(symbols)]: [history_close s] is the first close
    of [yf.Ticker(s).history(period="1d")], absent when the history is
    empty or the lookup raises. *)
Definition fetch_closing_prices (history_close : string -> option float64)
           (symbols : list string) : gmap string float64 :=
  fold_left
    (fun prices symbol =>
       match history_close symbol with
       | Some close => <[symbol := close]> prices
       | None => prices
       end)
    symbols ∅.

(** The price block of a tab:
<<
    unique_symbols = data['Symbol'].unique()
    closing_prices = fetch_closing_prices(unique_symbols)
    data['Closing Price'] = data['Symbol'].map(closing_prices)
    data = data[data['Closing Price'] > price_threshold]
>>  *)
Definition add_closing_price {A : Type} (history_close : string -> option float64)
           (symbol : A -> string) (data : list A) : list (priced A) :=
  let unique_symbols := unique (map symbol data) in
  let closing_prices := fetch_closing_prices history_close unique_symbols in
  assign mkpriced data (map_dict closing_prices (map symbol data)).

Definition price_ok {A : Type} (price_threshold : float64) (r : priced A) : bool :=
  fgt (Closing_Price r) price_threshold.

Definition price_block {A : Type} (history_close : string -> option float64)
           (symbol : A -> string) (price_threshold : float64) (data : list A)
  : list (priced A) :=
  List.filter (price_ok price_threshold) (add_closing_price history_close symbol data).

(** The price a row receives: the oracle's quote for the row's own symbol,
    NaN when there is none. *)
Definition quote_of (hc : string -> option float64) (s : string) : float64 :=
  match hc s with Some close => close | None => NaN end.

(** The float literals of the script. *)
Definition f1_25 : float64 := Fin (5 # 4).
Definition f1_5 : float64 := Fin (3 # 2).
Definition f0_5 : float64 := Fin (1 # 2).

End Derive.

(* ===================================================================== *)
(** ** tabs[0]: Ticker Analysis *)
(* ===================================================================== *)

Module TickerAnalysis.
Import Pandas Derive.

Record trow : Type := mk {
  base : row;
  Accumulation : bool;
  Rolling_Accumulation : bool;
  Cumulative_Buying : float64;
  Cumulative_Selling : float64
}.

(**
<<
    data['Accumulation'] = data['Buy-Sell Ratio'] > 1.25
    data['Rolling Accumulation'] =
        data['Accumulation'].rolling(window=5, min_periods=5).sum() >= 5
    data['Cumulative Buying'] = data['Bought'].rolling(window=2, min_periods=1).sum()
    data['Cumulative Selling'] = data['Sold'].rolling(window=2, min_periods=1).sum()
>>  *)
Definition flag (data : list row) : list trow :=
  let accumulation := map (fun r => fgt (Buy_Sell_Ratio r) f1_25) data in
  let rolling_accumulation := ge_scalar 5 (rolling_sum 5 5 (bools accumulation)) in
  let cumulative_buying := rolling_sum 2 1 (map (fun r => of_int (Bought r)) data) in
  let cumulative_selling := rolling_sum 2 1 (map (fun r => of_int (Sold r)) data) in
  zap (zap (zap (zap (map mk data) accumulation) rolling_accumulation)
           cumulative_buying) cumulative_selling.

Definition dataset (get_data_for_date : date -> option (list Raw.row))
           (symbol : string) (dates : list date) : option (list trow) :=
  match load get_data_for_date (fun r => String.eqb (Raw.Symbol r) symbol) true dates with
  | [] => None
  | data_frames =>
      Some (flag (process Total_Volume_col Total_Volume_col (concat data_frames)))
  end.

(** [data.sort_values(by='Date', ascending=False).head(30)]; by then the
    plotting helper has turned the column into datetimes. *)
Definition table (data : list trow) : list trow :=
  head 30 (sort_values [by_col (fun r => Date (base r)) desc_date] data).

Definition run (get_data_for_date : date -> option (list Raw.row))
           (symbol : string) (dates : list date) : option (list trow) :=
  option_map table (dataset get_data_for_date symbol dates).
End TickerAnalysis.

(* ===================================================================== *)
(** ** tabs[1]: Top Dark Pools *)
(* ===================================================================== *)

Module TopDarkPools.
Import Pandas Derive.

(** The per-day block: Bought and Sold are derived and the volume filter
    is applied before the day's frame joins [data_frames]:
<<
    daily_data['Bought'] = daily_data['ShortVolume']
    daily_data['Sold'] = daily_data['TotalVolume'] - daily_data['ShortVolume']
    daily_data = daily_data[(daily_data['Bought'] >= min_volume)
                            & (daily_data['Sold'] >= min_volume)]
    daily_data['Date'] = date
    data_frames.append(daily_data)
>>  *)
Definition daily_ok (min_volume : Z) (r : Raw.row) : bool :=
  (min_volume <=? bought_of r) && (min_volume <=? sold_of r).

(** [combined_data] after its "Process data" block: the rows on which the
    Buy-Sell Ratio is computed. *)
Definition combined (get_data_for_date : date -> option (list Raw.row))
           (min_volume : Z) (dates : list date) : option (list row) :=
  match load get_data_for_date (daily_ok min_volume) false dates with
  | [] => None
  | data_frames =>
      Some (process TotalVolume_col TotalVolume_col (concat data_frames))
  end.

(** The frame [accumulation]: one row per (Symbol, Date). *)
Record arow : Type := mka {
  a_Symbol : string;
  a_Date : string;
  a_Buy_Sell_Ratio : float64;
  a_Bought : Z;
  a_Sold : Z
}.

Definition accumulation (combined_data : list row) : list arow :=
  groupby_agg pair_compare (fun r => (Symbol r, Date_str r))
    (fun k g => mka (fst k) (snd k)
                    (mean_float (map Buy_Sell_Ratio g))
                    (sum_int (map Bought g))
                    (sum_int (map Sold g)))
    combined_data.

(**
<<
    accumulation.groupby('Symbol')['Buy-Sell Ratio'].transform(
        lambda x: (x > 1.25).rolling(window=5, min_periods=5).sum() >= 5)
>>  *)
Definition consistent_accumulation (acc : list arow) : list bool :=
  groupby_transform (combine (map a_Symbol acc) (map a_Buy_Sell_Ratio acc))
    (fun x => ge_scalar 5 (rolling_sum 5 5 (bools (map (fun v => fgt v f1_25) x))))
    false.

(** The frame [top_dark_pools]: one row per Symbol. *)
Record prow : Type := mkp {
  p_Symbol : string;
  p_Bought : Z;
  p_Sold : Z;
  p_Buy_Sell_Ratio : float64
}.

Definition top_dark_pools (acc : list arow) : list prow :=
  let consistent :=
    map fst (List.filter snd (combine acc (consistent_accumulation acc))) in
  groupby_agg String.compare a_Symbol
    (fun k g => mkp k (sum_int (map a_Bought g)) (sum_int (map a_Sold g))
                    (mean_float (map a_Buy_Sell_Ratio g)))
    consistent.

(**
<<
    top_dark_pools = top_dark_pools.sort_values(by=['Buy-Sell Ratio'],
                                                ascending=False).head(100)
    ... price block ...
    top_dark_pools['Date'] = analysis_end_date
>>  *)
Definition table (history_close : string -> option float64)
           (price_threshold : float64) (analysis_end_date : date)
           (pools : list prow) : list (date * priced prow) :=
  let pools := head 100 (sort_values [by_col p_Buy_Sell_Ratio desc_float] pools) in
  let pools := price_block history_close p_Symbol price_threshold pools in
  map (fun r => (analysis_end_date, r)) pools.

Definition run (get_data_for_date : date -> option (list Raw.row))
           (history_close : string -> option float64)
           (min_volume : Z) (price_threshold : float64)
           (analysis_end_date : date) (dates : list date)
  : option (list (date * priced prow)) :=
  option_map
    (fun combined_data =>
       table history_close price_threshold analysis_end_date
             (top_dark_pools (accumulation combined_data)))
    (combined get_data_for_date min_volume dates).
End TopDarkPools.

(* ===================================================================== *)
(** ** tabs[2]: Volume Buy/Sell Analysis *)
(* ===================================================================== *)

Module VolumeAnalysis.
Import Pandas Derive.

Record vrow : Type := mk {
  base : row;
  BTD_Tag : bool
}.

(** "Process data" of both buttons: [% Avg] and [DP Index] divide by the
    file's [TotalVolume]. *)
Definition dataset (get_data_for_date : date -> option (list Raw.row))
           (analysis_date : date) : option (list row) :=
  option_map (process TotalVolume_col TotalVolume_col)
             (get_data_for_date analysis_date).

(** "Buy Volume Analysis":
<<
    daily_data = daily_data[(daily_data['Bought'] >= min_volume)
                            & (daily_data['Sold'] >= min_volume)]
    daily_data = daily_data[daily_data['Buy-Sell Ratio'] > 1.5]
    daily_data['BTD Tag'] = (daily_data['Buy-Sell Ratio'] > 1.5)
                            & (daily_data['DP Index'] > 50)
    top_volume_stocks = daily_data.sort_values(
        by=['Buy-Sell Ratio', 'DP Index', 'Bought'], ascending=False).head(100)
    ... price block ...
>>  *)
Definition buy_ratio_ok (r : row) : bool := fgt (Buy_Sell_Ratio r) f1_5.

Definition buy_tag (r : row) : vrow :=
  mk r (fgt (Buy_Sell_Ratio r) f1_5 && fgt (DP_Index r) (of_int 50)).

Definition buy_keys : list (order vrow) :=
  [by_col (fun r => Buy_Sell_Ratio (base r)) desc_float;
   by_col (fun r => DP_Index (base r)) desc_float;
   by_col (fun r => Bought (base r)) desc_int].

Definition buy_pipeline (history_close : string -> option float64)
           (min_volume : Z) (price_threshold : float64)
           (daily_data : list row) : list (priced vrow) :=
  let daily_data := List.filter (volume_ok min_volume) daily_data in
  let daily_data := List.filter buy_ratio_ok daily_data in
  let daily_data := map buy_tag daily_data in
  let top_volume_stocks := head 100 (sort_values buy_keys daily_data) in
  price_block history_close (fun r => Symbol (base r)) price_threshold
              top_volume_stocks.

Definition volume_buy (get_data_for_date : date -> option (list Raw.row))
           (history_close : string -> option float64)
           (analysis_date : date) (min_volume : Z) (price_threshold : float64)
  : option (list (priced vrow)) :=
  option_map (buy_pipeline history_close min_volume price_threshold)
             (dataset get_data_for_date analysis_date).

(** "Sell Volume Analysis": ratio below 0.5, tag on [DP Index < 47], last
    sort key [Sold]. *)
Definition sell_ratio_ok (r : row) : bool := flt (Buy_Sell_Ratio r) f0_5.

Definition sell_tag (r : row) : vrow :=
  mk r (flt (Buy_Sell_Ratio r) f0_5 && flt (DP_Index r) (of_int 47)).

Definition sell_keys : list (order vrow) :=
  [by_col (fun r => Buy_Sell_Ratio (base r)) desc_float;
   by_col (fun r => DP_Index (base r)) desc_float;
   by_col (fun r => Sold (base r)) desc_int].

Definition sell_pipeline (history_close : string -> option float64)
           (min_volume : Z) (price_threshold : float64)
           (daily_data : list row) : list (priced vrow) :=
  let daily_data := List.filter (volume_ok min_volume) daily_data in
  let daily_data := List.filter sell_ratio_ok daily_data in
  let daily_data := map sell_tag daily_data in
  let top_volume_stocks1 := head 100 (sort_values sell_keys daily_data) in
  price_block history_close (fun r => Symbol (base r)) price_threshold
              top_volume_stocks1.

Definition volume_sell (get_data_for_date : date -> option (list Raw.row))
           (history_close : string -> option float64)
           (analysis_date : date) (min_volume : Z) (price_threshold : float64)
  : option (list (priced vrow)) :=
  option_map (sell_pipeline history_close min_volume price_threshold)
             (dataset get_data_for_date analysis_date).
End VolumeAnalysis.

(* ===================================================================== *)
(** ** tabs[3]: Buy Signal Analysis *)
(* ===================================================================== *)

Module BuySignal.
Import Pandas Derive.

Record srow : Type := mk {
  base : row;
  DP_Index_5D : float64;
  DP_Index_2W : float64;
  DP_Index_1M : float64
}.

(**
<<
    combined_data['DP Index 5D'] = combined_data.groupby('Symbol')['DP Index']
        .transform(lambda x: x.rolling(window=5).mean())      # 10, 20 likewise
>>  *)
Definition averages (data : list row) : list srow :=
  let kx := combine (map Symbol data) (map DP_Index data) in
  zap (zap (zap (map mk data)
                (groupby_transform kx (rolling_mean 5) NaN))
           (groupby_transform kx (rolling_mean 10) NaN))
      (groupby_transform kx (rolling_mean 20) NaN).

(** [% Avg] divides by the file's [TotalVolume], [DP Index] by the
    derived [Total Volume]. *)
Definition dataset (get_data_for_date : date -> option (list Raw.row))
           (dates : list date) : option (list srow) :=
  match load get_data_for_date (fun _ => true) false dates with
  | [] => None
  | data_frames =>
      Some (averages (process TotalVolume_col Total_Volume_col (concat data_frames)))
  end.

Definition signal_ok (r : srow) : bool :=
  fgt (DP_Index (base r)) (of_int 50)
  && fgt (DP_Index_5D r) (of_int 50)
  && fgt (DP_Index_2W r) (of_int 50)
  && fgt (DP_Index_1M r) (of_int 50)
  && fgt (Buy_Sell_Ratio (base r)) f1_25
  && fgt (Pct_Avg (base r)) (of_int 100).

(** [(Date >= signal_start_date) & (Date <= analysis_end_date)], on
    [date] objects. *)
Definition date_ok (signal_start_date analysis_end_date : date) (r : srow) : bool :=
  date_leb signal_start_date (Date (base r))
  && date_leb (Date (base r)) analysis_end_date.

Definition keys : list (order (priced srow)) :=
  [by_col (fun r => Bought (base (item r))) desc_int;
   by_col (fun r => Buy_Sell_Ratio (base (item r))) desc_float;
   by_col (fun r => DP_Index (base (item r))) desc_float].

Definition pipeline (history_close : string -> option float64)
           (min_volume : Z) (price_threshold : float64)
           (signal_start_date analysis_end_date : date)
           (combined_data : list srow) : list (priced srow) :=
  let combined_data :=
    List.filter (fun r => volume_ok min_volume (base r)) combined_data in
  let buy_signals := List.filter signal_ok combined_data in
  let buy_signals :=
    List.filter (date_ok signal_start_date analysis_end_date) buy_signals in
  let buy_signals :=
    price_block history_close (fun r => Symbol (base r)) price_threshold buy_signals in
  head 50 (sort_values keys buy_signals).

Definition run (get_data_for_date : date -> option (list Raw.row))
           (history_close : string -> option float64)
           (min_volume : Z) (price_threshold : float64)
           (signal_start_date analysis_end_date : date) (dates : list date)
  : option (list (priced srow)) :=
  option_map (pipeline history_close min_volume price_threshold
                       signal_start_date analysis_end_date)
             (dataset get_data_for_date dates).
End BuySignal.

(* ===================================================================== *)
(** ** tabs[4]: Accumulation *)
(* ===================================================================== *)

Module Accumulation.
Import Pandas Derive.

Record arow : Type := mk {
  base : row;
  Accumulation : bool;
  Rolling_Accumulation : bool
}.

(** The frame holds every symbol of every loaded day, one day after the
    other, and the rolling window runs over its rows as they are:
<<
    data['Accumulation'] = (data['Buy-Sell Ratio'] > 1.25) & (data['DP Index'] > 47)
    data['Rolling Accumulation'] =
        data['Accumulation'].rolling(window=5, min_periods=5).sum() >= 3
>>  *)
Definition flag (data : list row) : list arow :=
  let accumulation :=
    map (fun r => fgt (Buy_Sell_Ratio r) f1_25 && fgt (DP_Index r) (of_int 47)) data in
  let rolling_accumulation := ge_scalar 3 (rolling_sum 5 5 (bools accumulation)) in
  zap (zap (map mk data) accumulation) rolling_accumulation.

Definition dataset (get_data_for_date : date -> option (list Raw.row))
           (dates : list date) : option (list arow) :=
  match load get_data_for_date (fun _ => true) true dates with
  | [] => None
  | data_frames =>
      Some (flag (process Total_Volume_col Total_Volume_col (concat data_frames)))
  end.

(** [data['Date'] > analysis_start_date.strftime('%Y-%m-%d')], on the
    formatted strings. *)
Definition date_ok (analysis_start_date : date) (r : arow) : bool :=
  str_gt (Date_str (base r)) (strftime_iso analysis_start_date).

Definition keys : list (order (priced arow)) :=
  [by_col (fun r => Date_str (base (item r))) desc_str;
   by_col (fun r => Buy_Sell_Ratio (base (item r))) desc_float;
   by_col (fun r => DP_Index (base (item r))) desc_float;
   by_col (fun r => Bought (base (item r))) desc_int].

(**
<<
    data = data[data['Accumulation']]
    data = data[data['Rolling Accumulation']]
    data = data[(data['Bought'] >= min_volume) & (data['Sold'] >= min_volume)]
    # Filter where Date is greater than or equal to the start_date
    data = data[data['Date'] > analysis_start_date.strftime('%Y-%m-%d')]
    ... price block ...
    data = data.sort_values(by=['Date', 'Buy-Sell Ratio', 'DP Index', 'Bought'],
                            ascending=False).head(50)
>>  *)
Definition pipeline (history_close : string -> option float64)
           (min_volume : Z) (price_threshold : float64)
           (analysis_start_date : date) (data : list arow) : list (priced arow) :=
  let data := List.filter Accumulation data in
  let data := List.filter Rolling_Accumulation data in
  let data := List.filter (fun r => volume_ok min_volume (base r)) data in
  let data := List.filter (date_ok analysis_start_date) data in
  let data :=
    price_block history_close (fun r => Symbol (base r)) price_threshold data in
  head 50 (sort_values keys data).

Definition run (get_data_for_date : date -> option (list Raw.row))
           (history_close : string -> option float64)
           (min_volume : Z) (price_threshold : float64)
           (analysis_start_date : date) (dates : list date)
  : option (list (priced arow)) :=
  option_map (pipeline history_close min_volume price_threshold analysis_start_date)
             (dataset get_data_for_date dates).
End Accumulation.

(* ===================================================================== *)
(** ** tabs[5]: Filter Analysis *)
(* ===================================================================== *)

Module FilterAnalysis.
Import Pandas Derive.

Inductive side : Type := Buy | Sell.

Record frow : Type := mk {
  base : row;
  Cumulative_Buying : float64;
  Cumulative_Selling : float64
}.

Definition cumulate (data : list row) : list frow :=
  let cumulative_buying := rolling_sum 2 1 (map (fun r => of_int (Bought r)) data) in
  let cumulative_selling := rolling_sum 2 1 (map (fun r => of_int (Sold r)) data) in
  zap (zap (map mk data) cumulative_buying) cumulative_selling.

(** [if symbol: daily_data = daily_data[daily_data['Symbol'] == symbol]] *)
Definition keep (symbol : string) (r : Raw.row) : bool :=
  match symbol with
  | EmptyString => true
  | _ => String.eqb (Raw.Symbol r) symbol
  end.

Definition dataset (get_data_for_date : date -> option (list Raw.row))
           (symbol : string) (dates : list date) : option (list frow) :=
  match load get_data_for_date (keep symbol) true dates with
  | [] => None
  | data_frames =>
      Some (cumulate (process Total_Volume_col Total_Volume_col (concat data_frames)))
  end.

(**
<<
    if (buy_or_sell == "Buy"):
        data = data[data['Buy-Sell Ratio'] >= buy_sell_ratio]
    else:
        data = data[data['Buy-Sell Ratio'] <= buy_sell_ratio]
>>  *)
Definition ratio_ok (buy_or_sell : side) (buy_sell_ratio : float64) (r : frow) : bool :=
  match buy_or_sell with
  | Buy => fge (Buy_Sell_Ratio (base r)) buy_sell_ratio
  | Sell => fle (Buy_Sell_Ratio (base r)) buy_sell_ratio
  end.

Definition dp_ok (buy_or_sell : side) (dp_index : Z) (r : frow) : bool :=
  match buy_or_sell with
  | Buy => fge (DP_Index (base r)) (of_int dp_index)
  | Sell => fle (DP_Index (base r)) (of_int dp_index)
  end.

(** [data['Date'] >= analysis_start_date.strftime('%Y-%m-%d')] *)
Definition date_ok (analysis_start_date : date) (r : frow) : bool :=
  str_ge (Date_str (base r)) (strftime_iso analysis_start_date).

Definition keys (buy_or_sell : side) : list (order (priced frow)) :=
  [by_col (fun r => Date_str (base (item r))) desc_str;
   by_col (fun r => Buy_Sell_Ratio (base (item r))) desc_float;
   by_col (fun r => DP_Index (base (item r))) desc_float;
   match buy_or_sell with
   | Buy => by_col (fun r => Bought (base (item r))) desc_int
   | Sell => by_col (fun r => Sold (base (item r))) desc_int
   end].

(** The sort is the last step: the table shows every row of it. *)
Definition pipeline (history_close : string -> option float64)
           (min_volume : Z) (price_threshold : float64)
           (buy_sell_ratio : float64) (dp_index : Z) (buy_or_sell : side)
           (analysis_start_date : date) (data : list frow) : list (priced frow) :=
  let data := List.filter (fun r => volume_ok min_volume (base r)) data in
  let data := List.filter (ratio_ok buy_or_sell buy_sell_ratio) data in
  let data := List.filter (dp_ok buy_or_sell dp_index) data in
  let data := List.filter (date_ok analysis_start_date) data in
  let data :=
    price_block history_close (fun r => Symbol (base r)) price_threshold data in
  sort_values (keys buy_or_sell) data.

Definition run (get_data_for_date : date -> option (list Raw.row))
           (history_close : string -> option float64)
           (symbol : string) (min_volume : Z) (price_threshold : float64)
           (buy_sell_ratio : float64) (dp_index : Z) (buy_or_sell : side)
           (analysis_start_date : date) (dates : list date)
  : option (list (priced frow)) :=
  option_map (pipeline history_close min_volume price_threshold buy_sell_ratio
                       dp_index buy_or_sell analysis_start_date)
             (dataset get_data_for_date symbol dates).
End FilterAnalysis.

(* ===================================================================== *)
(** ** tabs[6]: Accumulation Analysis *)
(* ===================================================================== *)

Module AccumulationAnalysis.
Import Pandas Derive.

Record arow : Type := mk {
  base : row;
  Accumulation : bool;
  Rolling_Accumulation : bool;
  Five_Accumulation : bool
}.

(**
<<
    data['Accumulation'] = (data['Buy-Sell Ratio'] > 1.25)
    data['Rolling Accumulation'] = data.groupby('Symbol')['Accumulation'].transform(
        lambda x: x.rolling(window=5, min_periods=5).sum() >= 5)
    data['Rolling Accumulation'] = data['Rolling Accumulation'].fillna(False)
    data['Five_Accumulation'] = data.groupby('Symbol')['Rolling Accumulation']
        .transform(lambda x: x.tail(5).any())
>>  *)
Definition rolling_flags (x : list bool) : list bool :=
  ge_scalar 5 (rolling_sum 5 5 (bools x)).

Definition tail_any (x : list bool) : list bool :=
  repeat (existsb (fun b => b) (skipn (length x - 5) x)) (length x).

Definition accumulating (r : row) : bool := fgt (Buy_Sell_Ratio r) f1_25.

Definition flag (data : list row) : list arow :=
  let accumulation := map accumulating data in
  let rolling_accumulation :=
    groupby_transform (combine (map Symbol data) accumulation) rolling_flags false in
  let five_accumulation :=
    groupby_transform (combine (map Symbol data) rolling_accumulation) tail_any false in
  zap (zap (zap (map mk data) accumulation) rolling_accumulation) five_accumulation.

Definition dataset (get_data_for_date : date -> option (list Raw.row))
           (dates : list date) : option (list arow) :=
  match load get_data_for_date (fun _ => true) true dates with
  | [] => None
  | data_frames =>
      Some (flag (process Total_Volume_col Total_Volume_col (concat data_frames)))
  end.

(** [data['Date'] >= analysis_end_date.strftime('%Y-%m-%d')] *)
Definition date_ok (analysis_end_date : date) (r : arow) : bool :=
  str_ge (Date_str (base r)) (strftime_iso analysis_end_date).

(** No sort and no [head]: the table is the filtered frame. *)
Definition pipeline (min_volume : Z) (analysis_end_date : date)
           (data : list arow) : list arow :=
  let data := List.filter Accumulation data in
  let data := List.filter Rolling_Accumulation data in
  let data := List.filter (date_ok analysis_end_date) data in
  List.filter (fun r => volume_ok min_volume (base r)) data.

Definition run (get_data_for_date : date -> option (list Raw.row))
           (min_volume : Z) (analysis_end_date : date) (dates : list date)
  : option (list arow) :=
  option_map (pipeline min_volume analysis_end_date)
             (dataset get_data_for_date dates).
End AccumulationAnalysis.

(* ===================================================================== *)
(** ** The AnalysisPipeline of the design document *)
(* ===================================================================== *)

(** This module follows the wording of the design document, section 4.4,
    not the script: "(1) volume filter, (2) ratio/DPIndex filter,
    (3) date-window filter, (4) price enrichment via PriceOracle,
    (5) price filter, (6) sort, (7) truncate to cap".  It is what the tabs
    are compared with. *)
Module AnalysisPipeline.
Import Pandas Derive.

Record config (A : Type) : Type := mkconfig {
  symbol_of : A -> string;
  volume_filter : A -> bool;
  ratio_filter : A -> bool;
  date_filter : A -> bool;
  price_threshold : float64;
  sort_keys : list (order A);
  cap : nat
}.
Arguments mkconfig {A}.
Arguments symbol_of {A} c.
Arguments volume_filter {A} c.
Arguments ratio_filter {A} c.
Arguments date_filter {A} c.
Arguments price_threshold {A} c.
Arguments sort_keys {A} c.
Arguments cap {A} c.

Definition on_item {A : Type} (os : list (order A)) : list (order (priced A)) :=
  map (fun o => by_col item o) os.

Definition run {A : Type} (cfg : config A)
           (price_oracle : string -> option float64) (dataset : list A)
  : list (priced A) :=
  let step1 := List.filter (volume_filter cfg) dataset in
  let step2 := List.filter (ratio_filter cfg) step1 in
  let step3 := List.filter (date_filter cfg) step2 in
  let step4 := add_closing_price price_oracle (symbol_of cfg) step3 in
  let step5 := List.filter (price_ok (price_threshold cfg)) step4 in
  let step6 := sort_values (on_item (sort_keys cfg)) step5 in
  head (cap cfg) step6.

(** The order the Volume Buy/Sell and Top Dark Pools tabs have instead:
    sort and truncation come before the price block. *)
Definition run_cap_first {A : Type} (cfg : config A)
           (price_oracle : string -> option float64) (dataset : list A)
  : list (priced A) :=
  let step1 := List.filter (volume_filter cfg) dataset in
  let step2 := List.filter (ratio_filter cfg) step1 in
  let step3 := List.filter (date_filter cfg) step2 in
  let sorted := sort_values (sort_keys cfg) step3 in
  let capped := head (cap cfg) sorted in
  let enriched := add_closing_price price_oracle (symbol_of cfg) capped in
  List.filter (price_ok (price_threshold cfg)) enriched.
End AnalysisPipeline.

(* ===================================================================== *)
(** ** The tabs as configurations of the AnalysisPipeline *)
(* ===================================================================== *)

Module Configs.
Import Pandas Derive AnalysisPipeline.

Definition buy_signal (min_volume : Z) (price_threshold : float64)
           (signal_start_date analysis_end_date : date) : config BuySignal.srow :=
  mkconfig (fun r => Symbol (BuySignal.base r))
           (fun r => volume_ok min_volume (BuySignal.base r))
           BuySignal.signal_ok
           (BuySignal.date_ok signal_start_date analysis_end_date)
           price_threshold
           [by_col (fun r => Bought (BuySignal.base r)) desc_int;
            by_col (fun r => Buy_Sell_Ratio (BuySignal.base r)) desc_float;
            by_col (fun r => DP_Index (BuySignal.base r)) desc_float]
           50.

Definition accumulation (min_volume : Z) (price_threshold : float64)
           (analysis_start_date : date) : config Accumulation.arow :=
  mkconfig (fun r => Symbol (Accumulation.base r))
           (fun r => volume_ok min_volume (Accumulation.base r))
           (fun r => Accumulation.Accumulation r && Accumulation.Rolling_Accumulation r)
           (Accumulation.date_ok analysis_start_date)
           price_threshold
           [by_col (fun r => Date_str (Accumulation.base r)) desc_str;
            by_col (fun r => Buy_Sell_Ratio (Accumulation.base r)) desc_float;
            by_col (fun r => DP_Index (Accumulation.base r)) desc_float;
            by_col (fun r => Bought (Accumulation.base r)) desc_int]
           50.

(** Volume Buy/Sell have no date window. *)
Definition volume_buy (min_volume : Z) (price_threshold : float64)
  : config VolumeAnalysis.vrow :=
  mkconfig (fun r => Symbol (VolumeAnalysis.base r))
           (fun r => volume_ok min_volume (VolumeAnalysis.base r))
           (fun r => VolumeAnalysis.buy_ratio_ok (VolumeAnalysis.base r))
           (fun _ => true)
           price_threshold
           VolumeAnalysis.buy_keys
           100.

Definition volume_sell (min_volume : Z) (price_threshold : float64)
  : config VolumeAnalysis.vrow :=
  mkconfig (fun r => Symbol (VolumeAnalysis.base r))
           (fun r => volume_ok min_volume (VolumeAnalysis.base r))
           (fun r => VolumeAnalysis.sell_ratio_ok (VolumeAnalysis.base r))
           (fun _ => true)
           price_threshold
           VolumeAnalysis.sell_keys
           100.

(** Top Dark Pools filters before it aggregates; its table step has the
    sort, the cap and the price block only. *)
Definition top_dark_pools (price_threshold : float64) : config TopDarkPools.prow :=
  mkconfig TopDarkPools.p_Symbol
           (fun _ => true) (fun _ => true) (fun _ => true)
           price_threshold
           [by_col TopDarkPools.p_Buy_Sell_Ratio desc_float]
           100.

(** The rows of a day that Volume Buy (Volume Sell) ranks. *)
Definition buy_survivors (min_volume : Z) (daily_data : list row)
  : list VolumeAnalysis.vrow :=
  map VolumeAnalysis.buy_tag
      (List.filter VolumeAnalysis.buy_ratio_ok
                   (List.filter (volume_ok min_volume) daily_data)).

Definition sell_survivors (min_volume : Z) (daily_data : list row)
  : list VolumeAnalysis.vrow :=
  map VolumeAnalysis.sell_tag
      (List.filter VolumeAnalysis.sell_ratio_ok
                   (List.filter (volume_ok min_volume) daily_data)).

(** The rows that Buy Signal, Accumulation and Filter Analysis rank: the
    frame after the row filters and the price block. *)
Definition buy_signal_survivors (history_close : string -> option float64)
           (min_volume : Z) (price_threshold : float64)
           (signal_start_date analysis_end_date : date)
           (combined_data : list BuySignal.srow) : list (priced BuySignal.srow) :=
  price_block history_close (fun r => Symbol (BuySignal.base r)) price_threshold
    (List.filter (BuySignal.date_ok signal_start_date analysis_end_date)
       (List.filter BuySignal.signal_ok
          (List.filter (fun r => volume_ok min_volume (BuySignal.base r)) combined_data))).

Definition accumulation_survivors (history_close : string -> option float64)
           (min_volume : Z) (price_threshold : float64) (analysis_start_date : date)
           (data : list Accumulation.arow) : list (priced Accumulation.arow) :=
  price_block history_close (fun r => Symbol (Accumulation.base r)) price_threshold
    (List.filter (Accumulation.date_ok analysis_start_date)
       (List.filter (fun r => volume_ok min_volume (Accumulation.base r))
          (List.filter Accumulation.Rolling_Accumulation
             (List.filter Accumulation.Accumulation data)))).

Definition filter_survivors (history_close : string -> option float64)
           (min_volume : Z) (price_threshold : float64)
           (buy_sell_ratio : float64) (dp_index : Z) (buy_or_sell : FilterAnalysis.side)
           (analysis_start_date : date)
           (data : list FilterAnalysis.frow) : list (priced FilterAnalysis.frow) :=
  price_block history_close (fun r => Symbol (FilterAnalysis.base r)) price_threshold
    (List.filter (FilterAnalysis.date_ok analysis_start_date)
       (List.filter (FilterAnalysis.dp_ok buy_or_sell dp_index)
          (List.filter (FilterAnalysis.ratio_ok buy_or_sell buy_sell_ratio)
             (List.filter (fun r => volume_ok min_volume (FilterAnalysis.base r)) data)))).
(** The four row filters of Accumulation Analysis in one predicate. *)
Definition accumulation_analysis_ok (min_volume : Z) (analysis_end_date : date)
           (r : AccumulationAnalysis.arow) : bool :=
  AccumulationAnalysis.Accumulation r
  && AccumulationAnalysis.Rolling_Accumulation r
  && AccumulationAnalysis.date_ok analysis_end_date r
  && volume_ok min_volume (AccumulationAnalysis.base r).
End Configs.

(* ===================================================================== *)
(** ** Concrete inputs *)
(* ===================================================================== *)

Module Inputs.
Import Pandas Derive.
Open Scope string_scope.

(** Trading days of the week of Monday 8 January 2024. *)
Definition jan (d : nat) : date := mkdate 2024 1 d.
Definition week : list date := [jan 8; jan 9; jan 10; jan 11; jan 12].

(** An accumulating row (ratio 3.0, DP Index 75.0) and a quiet one
    (ratio 1.0, DP Index 50.0), both above the default volume floor. *)
Definition hot (d : date) (s : string) : Raw.row := Raw.mk d s 3000000 4000000.
Definition quiet (d : date) (s : string) : Raw.row := Raw.mk d s 2000000 4000000.

(** Every symbol closes at 10.0. *)
Definition quote10 (s : string) : option float64 := Some (Fin 10).

(** The row [hd] falls back on when a frame is empty. *)
Definition blank_row : row := mkrow (jan 8) EmptyString 0 0 0 0 0 NaN NaN NaN.

Definition min_volume : Z := 1000000.
Definition price_threshold : float64 := Fin 5.

(** Two symbols, both accumulating on every day of the week. *)
Definition two_hot (d : date) : option (list Raw.row) :=
  if existsb (fun d' => match date_compare d d' with Eq => true | _ => false end) week
  then Some [hot d "AAA"; hot d "BBB"] else None.

(** Three days, two symbols.  AAA accumulates on the first two days and
    not on the third; the two variants differ in the rows of BBB only. *)
Definition aaa_with_hot_bbb (d : date) : option (list Raw.row) :=
  match day d with
  | 8 | 9 => Some [hot d "AAA"; hot d "BBB"]
  | 10 => Some [quiet d "AAA"; quiet d "BBB"]
  | _ => None
  end%nat.

Definition aaa_with_quiet_bbb (d : date) : option (list Raw.row) :=
  match day d with
  | 8 | 9 => Some [hot d "AAA"; quiet d "BBB"]
  | 10 => Some [quiet d "AAA"; quiet d "BBB"]
  | _ => None
  end%nat.

Definition is_aaa (r : Accumulation.arow) : bool :=
  String.eqb (Symbol (Accumulation.base r)) "AAA".

Definition raw_is_aaa (r : Raw.row) : bool := String.eqb (Raw.Symbol r) "AAA".

(** Date and the two flags of the AAA rows of an Accumulation frame. *)
Definition aaa_flags (data : list Accumulation.arow) : list (string * bool * bool) :=
  map (fun r => (Date_str (Accumulation.base r),
                 Accumulation.Accumulation r,
                 Accumulation.Rolling_Accumulation r))
      (List.filter is_aaa data).

(** Three days on which both symbols accumulate. *)
Definition three_hot_days (d : date) : option (list Raw.row) :=
  match day d with
  | 8 | 9 | 10 => Some [hot d "AAA"; hot d "BBB"]
  | _ => None
  end%nat.

(** [n] symbols S0000, S0001, ...; symbol [i] has Bought = 2,000,000 +
    1000 i and Sold = 1,000,000, so the ratios are pairwise distinct. *)
Definition sym (i : nat) : string := "S" ++ pad4 i.

Definition ladder (n : nat) (d : date) : list Raw.row :=
  map (fun i => Raw.mk d (sym i)
                       (2000000 + 1000 * Z.of_nat i)
                       (3000000 + 1000 * Z.of_nat i))
      (seq 0 n).

Definition ladder_day (n : nat) (d : date) : option (list Raw.row) :=
  match date_compare d (jan 12) with Eq => Some (ladder n d) | _ => None end.

(** The same with Bought = 1,000,000 + 1000 i and Sold = 3,000,000: the
    ratios are below 0.5 and pairwise distinct. *)
Definition sell_ladder_day (n : nat) (d : date) : option (list Raw.row) :=
  match date_compare d (jan 12) with
  | Eq => Some (map (fun i => Raw.mk d (sym i)
                                     (1000000 + 1000 * Z.of_nat i)
                                     (4000000 + 1000 * Z.of_nat i))
                    (seq 0 n))
  | _ => None
  end.

(** Every symbol closes at 10.0 but S0100, which closes at 1.0. *)
Definition quote_but_top (s : string) : option float64 :=
  if String.eqb s (sym 100) then Some (Fin 1) else Some (Fin 10).

(** [n] symbols accumulating on each day of the week. *)
Definition many_hot (n : nat) (d : date) : option (list Raw.row) :=
  if existsb (fun d' => match date_compare d d' with Eq => true | _ => false end) week
  then Some (map (fun i => hot d (sym i)) (seq 0 n)) else None.

(** Two symbols with the same volumes on one day, in both row orders. *)
Definition tied (d : date) : option (list Raw.row) :=
  match date_compare d (jan 12) with
  | Eq => Some [hot d "AAA"; hot d "BBB"]
  | _ => None
  end.

Definition reversed (get_data_for_date : date -> option (list Raw.row))
           (d : date) : option (list Raw.row) :=
  option_map (@rev Raw.row) (get_data_for_date d).

(** Symbol and Cumulative Buying of the rows of a Filter Analysis table. *)
Definition filter_cumulative (table : list (priced FilterAnalysis.frow))
  : list (string * float64) :=
  map (fun r => (Symbol (FilterAnalysis.base (item r)),
                 FilterAnalysis.Cumulative_Buying (item r)))
      table.

(** The symbols of a Volume Buy/Sell table, in row order. *)
Definition volume_symbols (table : list (priced VolumeAnalysis.vrow)) : list string :=
  map (fun r => Symbol (VolumeAnalysis.base (item r))) table.

(** The server: the first request is answered 404, every later one 200
    with a one-row file. *)
Definition payload : string :=
  "Date|Symbol|ShortVolume|ShortExemptVolume|TotalVolume|Market" ++
  String Cache.newline "20240112|AAA|3000000|0|4000000|Q".

Definition server_404_then_200 (n : nat) (u : string) : Cache.response :=
  match n with
  | O => Cache.Response 404 "Not Found"
  | _ => Cache.Response 200 payload
  end.

(** The server answers 200 with an empty body. *)
Definition server_empty_200 (n : nat) (u : string) : Cache.response :=
  Cache.Response 200 EmptyString.

Definition world0 : Cache.world := Cache.mkworld ∅ [].

(** Symbol and formatted date of an output row of the Accumulation tab. *)
Definition acc_key (r : priced Accumulation.arow) : string * string :=
  (Symbol (Accumulation.base (item r)), Date_str (Accumulation.base (item r))).

(** The rows of an Accumulation frame that pass every filter of the tab
    but the date filter, and whose price passes the price filter. *)
Definition acc_passes_but_date (r : Accumulation.arow) : bool :=
  Accumulation.Accumulation r
  && Accumulation.Rolling_Accumulation r
  && volume_ok min_volume (Accumulation.base r)
  && match quote10 (Symbol (Accumulation.base r)) with
     | Some close => fgt close price_threshold
     | None => false
     end.
End Inputs.

(* ===================================================================== *)
(** * Verification *)
(* ===================================================================== *)

(** ** Lists *)

Section ListFacts.
Context {A B : Type}.

Lemma filter_filter (p q : A -> bool) (l : list A) :
  List.filter p (List.filter q l) = List.filter (fun x => q x && p x) l.
Proof.
  induction l as [|x l IH]; simpl; [reflexivity|].
  destruct (q x); simpl; [destruct (p x)|]; rewrite IH; reflexivity.
Qed.

Lemma filter_map_swap (f : A -> B) (p : B -> bool) (l : list A) :
  List.filter p (map f l) = map f (List.filter (fun x => p (f x)) l).
Proof.
  induction l as [|x l IH]; simpl; [reflexivity|].
  destruct (p (f x)); simpl; rewrite IH; reflexivity.
Qed.

Lemma filter_true (l : list A) : List.filter (fun _ => true) l = l.
Proof. induction l as [|x l IH]; simpl; [|rewrite IH]; reflexivity. Qed.

End ListFacts.

(** ** Rolling windows *)

Section PandasFacts.
Import Pandas.

Lemma rolling_length w m agg xs : length (rolling w m agg xs) = length xs.
Proof. unfold rolling. rewrite length_map, length_seq. reflexivity. Qed.

Lemma ge_scalar_length c xs : length (ge_scalar c xs) = length xs.
Proof. apply length_map. Qed.

Lemma bools_length bs : length (bools bs) = length bs.
Proof. apply length_map. Qed.

Lemma window_length {A : Type} w i (xs : list A) :
  (length (window w i xs) <= S i)%nat.
Proof.
  unfold window. rewrite length_skipn, length_firstn. lia.
Qed.

Lemma filter_length_le {A : Type} (p : A -> bool) (l : list A) :
  (length (List.filter p l) <= length l)%nat.
Proof.
  induction l as [|x l IH]; simpl; [lia|]. destruct (p x); simpl; lia.
Qed.

(** A rolling aggregate is NaN on every row that has fewer than
    [min_periods] rows up to and including itself. *)
Lemma rolling_short w m agg xs i :
  (S i < m)%nat -> nth i (rolling w m agg xs) NaN = NaN.
Proof.
  intros Hi. destruct (Nat.lt_ge_cases i (length xs)) as [Hlt|Hge].
  - unfold rolling.
    rewrite (nth_indep _ NaN ((fun j => if (m <=? length (List.filter notna (window w j xs)))%nat
                                  then agg (List.filter notna (window w j xs)) else NaN) 0%nat)).
    2:{ rewrite length_map, length_seq. exact Hlt. }
    rewrite (map_nth (fun j => if (m <=? length (List.filter notna (window w j xs)))%nat
                                  then agg (List.filter notna (window w j xs)) else NaN)).
    rewrite seq_nth by exact Hlt. simpl.
    pose proof (filter_length_le notna (window w i xs)).
    pose proof (window_length w i xs).
    destruct (Nat.leb_spec m (length (List.filter notna (window w i xs)))); [lia|reflexivity].
  - apply nth_overflow. rewrite rolling_length. exact Hge.
Qed.

Lemma ge_scalar_nth c xs i :
  nth i (ge_scalar c xs) false = fge (nth i xs NaN) (of_int c).
Proof.
  unfold ge_scalar.
  change false with ((fun x => fge x (of_int c)) NaN) at 1.
  apply map_nth.
Qed.

(** The flag [rolling(window=w, min_periods=m).sum() >= c] is False on
    every row with fewer than [m] rows up to and including itself. *)
Lemma rolling_flag_short w m c bs i :
  (S i < m)%nat -> nth i (ge_scalar c (rolling_sum w m (bools bs))) false = false.
Proof.
  intros Hi. rewrite ge_scalar_nth. unfold rolling_sum.
  rewrite rolling_short by exact Hi. reflexivity.
Qed.

End PandasFacts.

(** ** Numbers *)

Section NumFacts.

Lemma wrap64_id z : in_int64 z -> wrap64 z = z.
Proof.
  unfold in_int64, int64_min, int64_max, wrap64. intros Hz.
  rewrite Z.mod_small; lia.
Qed.

Lemma Qsign_inject_Z z : Qsign (inject_Z z) = (z ?= 0).
Proof. reflexivity. Qed.

(** Dividing a positive int64 by zero gives +inf. *)
Lemma truediv_pos_zero b : 0 < b -> truediv b 0 = PInf.
Proof.
  intros Hb. unfold truediv, of_int, fdiv. rewrite !Qsign_inject_Z.
  simpl. destruct (Z.compare_spec b 0); try lia. reflexivity.
Qed.

(** Dividing by a non-zero int64 gives a finite value. *)
Lemma truediv_finite b s : s <> 0 -> is_finite (truediv b s) = true.
Proof.
  intros Hs. unfold truediv, of_int, fdiv. rewrite Qsign_inject_Z.
  destruct (Z.compare_spec s 0); try lia; reflexivity.
Qed.

(** +inf against a finite threshold. *)
Lemma fge_PInf_Fin t : fge PInf (Fin t) = true.
Proof. reflexivity. Qed.
Lemma fgt_PInf_Fin t : fgt PInf (Fin t) = true.
Proof. reflexivity. Qed.
Lemma fle_PInf_Fin t : fle PInf (Fin t) = false.
Proof. reflexivity. Qed.
Lemma flt_PInf_Fin t : flt PInf (Fin t) = false.
Proof. reflexivity. Qed.

(** Every comparison with NaN is False. *)
Lemma fge_NaN_l y : fge NaN y = false.
Proof. reflexivity. Qed.
Lemma fgt_NaN_l y : fgt NaN y = false.
Proof. reflexivity. Qed.

End NumFacts.

(** ** The derivation *)

Section DeriveFacts.
Import Derive.

Lemma in_process avg_col dp_col data r :
  In r (process avg_col dp_col data) ->
  exists raw, In raw data
    /\ Date r = Raw.Date raw
    /\ Symbol r = Raw.Symbol raw
    /\ ShortVolume r = Raw.ShortVolume raw
    /\ TotalVolume r = Raw.TotalVolume raw
    /\ Bought r = bought_of raw
    /\ Sold r = sold_of raw
    /\ Total_Volume r = total_of raw
    /\ Buy_Sell_Ratio r = truediv (bought_of raw) (sold_of raw).
Proof.
  unfold process. intros Hin. apply in_map_iff in Hin as [raw [Hr Hraw]].
  exists raw. subst r. simpl. repeat split; auto.
Qed.

(** Rows of a processed frame carry the ratio of their own columns. *)
Lemma process_ratio avg_col dp_col data r :
  In r (process avg_col dp_col data) ->
  Buy_Sell_Ratio r = truediv (Bought r) (Sold r).
Proof.
  intros Hin. apply in_process in Hin as (raw & _ & _ & _ & _ & _ & Hb & Hs & _ & Hq).
  rewrite Hb, Hs. exact Hq.
Qed.

(** What the loading loop lets through. *)
Lemma in_load get_data_for_date keep skip_empty dates raw :
  In raw (concat (load get_data_for_date keep skip_empty dates)) ->
  exists d raw0 daily_data,
    In d dates /\ get_data_for_date d = Some daily_data /\ In raw0 daily_data
    /\ keep raw0 = true /\ raw = Raw.set_Date d raw0.
Proof.
  unfold load. intros Hin. apply in_concat in Hin as [frame [Hframe Hraw]].
  apply in_flat_map in Hframe as [d [Hd Hframe]].
  destruct (get_data_for_date d) as [daily_data|] eqn:Hget; [|contradiction].
  destruct (List.filter keep daily_data) as [|r0 rs] eqn:Hf.
  - destruct skip_empty; simpl in Hframe; [contradiction|].
    destruct Hframe as [<-|[]]. contradiction.
  - destruct Hframe as [<-|[]].
    apply in_map_iff in Hraw as [raw0 [<- Hraw0]].
    rewrite <- Hf in Hraw0. apply filter_In in Hraw0 as [Hin0 Hkeep].
    exists d, raw0, daily_data. auto.
Qed.

End DeriveFacts.

(** C7.  The derivation turns the raw records into derived records one
    for one, in order.  For every raw record whose ShortVolume and
    TotalVolume are non-negative int64 values, the derived record at the
    same position keeps its Date, Symbol, ShortVolume and TotalVolume and
    has Bought = ShortVolume of the raw record, Sold = TotalVolume -
    ShortVolume of the raw record, and Bought + Sold = Total Volume =
    TotalVolume of the raw record (no wrap-around occurs). *)
Theorem derived_totals avg_col dp_col data i raw :
  nth_error data i = Some raw ->
  0 <= Raw.ShortVolume raw <= int64_max ->
  0 <= Raw.TotalVolume raw <= int64_max ->
  length (Derive.process avg_col dp_col data) = length data
  /\ exists r,
       nth_error (Derive.process avg_col dp_col data) i = Some r
       /\ Date r = Raw.Date raw
       /\ Symbol r = Raw.Symbol raw
       /\ ShortVolume r = Raw.ShortVolume raw
       /\ TotalVolume r = Raw.TotalVolume raw
       /\ Bought r = Raw.ShortVolume raw
       /\ Sold r = Raw.TotalVolume raw - Raw.ShortVolume raw
       /\ Bought r + Sold r = Total_Volume r
       /\ Total_Volume r = Raw.TotalVolume raw.
Proof.
  intros Hi Hs Ht. unfold Derive.process. rewrite length_map.
  split; [reflexivity|].
  eexists. split; [rewrite nth_error_map, Hi; reflexivity|].
  cbn [Date Symbol ShortVolume TotalVolume Bought Sold Total_Volume].
  unfold Derive.total_of, Derive.bought_of, Derive.sold_of, add64, sub64.
  unfold int64_max in *.
  assert (Hsub : wrap64 (Raw.TotalVolume raw - Raw.ShortVolume raw)
                 = Raw.TotalVolume raw - Raw.ShortVolume raw).
  { apply wrap64_id. unfold in_int64, int64_min, int64_max. lia. }
  rewrite Hsub.
  replace (Raw.ShortVolume raw + (Raw.TotalVolume raw - Raw.ShortVolume raw))
    with (Raw.TotalVolume raw) by lia.
  assert (Htv : wrap64 (Raw.TotalVolume raw) = Raw.TotalVolume raw).
  { apply wrap64_id. unfold in_int64, int64_min, int64_max. lia. }
  rewrite Htv. repeat split; lia.
Qed.

Lemma derived_totals_witness :
  let raw := Inputs.hot (Inputs.jan 8) "AAA" in
  let frame := Derive.process Derive.Total_Volume_col Derive.Total_Volume_col
                 [raw; Inputs.quiet (Inputs.jan 8) "BBB"] in
  length frame = 2%nat
  /\ exists r,
       nth_error frame 0 = Some r
       /\ Date r = Raw.Date raw
       /\ Symbol r = Raw.Symbol raw
       /\ ShortVolume r = Raw.ShortVolume raw
       /\ TotalVolume r = Raw.TotalVolume raw
       /\ Bought r = Raw.ShortVolume raw
       /\ Sold r = Raw.TotalVolume raw - Raw.ShortVolume raw
       /\ Bought r + Sold r = Total_Volume r
       /\ Total_Volume r = Raw.TotalVolume raw.
Proof.
  apply (derived_totals Derive.Total_Volume_col Derive.Total_Volume_col
                        [Inputs.hot (Inputs.jan 8) "AAA";
                         Inputs.quiet (Inputs.jan 8) "BBB"]
                        0 (Inputs.hot (Inputs.jan 8) "AAA")).
  - reflexivity.
  - vm_compute. split; discriminate.
  - vm_compute. split; discriminate.
Defined.

(** C6.  A processed row with Sold = 0 and Bought > 0 has Buy-Sell Ratio
    +inf; against any finite threshold the buy-side ratio filters (>= in
    Filter Analysis, > 1.5 in Volume Buy) accept it and the sell-side
    filters (<= in Filter Analysis, < 0.5 in Volume Sell) reject it. *)
Theorem degenerate_ratio avg_col dp_col data r (t_buy t_sell : Q)
        (fr : FilterAnalysis.frow) :
  In r (Derive.process avg_col dp_col data) ->
  Sold r = 0 ->
  0 < Bought r ->
  FilterAnalysis.base fr = r ->
  Buy_Sell_Ratio r = PInf
  /\ FilterAnalysis.ratio_ok FilterAnalysis.Buy (Fin t_buy) fr = true
  /\ FilterAnalysis.ratio_ok FilterAnalysis.Sell (Fin t_sell) fr = false
  /\ VolumeAnalysis.buy_ratio_ok r = true
  /\ VolumeAnalysis.sell_ratio_ok r = false.
Proof.
  intros Hin Hsold Hbought Hfr.
  assert (Hq : Buy_Sell_Ratio r = PInf).
  { rewrite (process_ratio _ _ _ _ Hin), Hsold. apply truediv_pos_zero, Hbought. }
  unfold FilterAnalysis.ratio_ok, VolumeAnalysis.buy_ratio_ok,
    VolumeAnalysis.sell_ratio_ok.
  rewrite Hfr, Hq. repeat split; reflexivity.
Qed.

Lemma degenerate_ratio_witness :
  let data := [Raw.mk (Inputs.jan 8) "XYZ" 500000 500000] in
  let r := hd Inputs.blank_row
              (Derive.process Derive.Total_Volume_col Derive.Total_Volume_col data) in
  let fr := FilterAnalysis.mk r NaN NaN in
  (Bought r = 500000 /\ Sold r = 0)
  /\ (Buy_Sell_Ratio r = PInf
      /\ FilterAnalysis.ratio_ok FilterAnalysis.Buy (Fin (3 # 2)) fr = true
      /\ FilterAnalysis.ratio_ok FilterAnalysis.Sell (Fin (1 # 2)) fr = false
      /\ VolumeAnalysis.buy_ratio_ok r = true
      /\ VolumeAnalysis.sell_ratio_ok r = false).
Proof.
  split; [split; reflexivity|].
  apply (degenerate_ratio Derive.Total_Volume_col Derive.Total_Volume_col
                          [Raw.mk (Inputs.jan 8) "XYZ" 500000 500000]).
  - left. reflexivity.
  - reflexivity.
  - reflexivity.
  - reflexivity.
Defined.

(** C10.  In Top Dark Pools the per-day volume filter runs before the
    ratio is computed: for min_volume > 0 every row of [combined_data]
    has Bought > 0 and Sold > 0, and its Buy-Sell Ratio is the finite
    quotient of the two (neither infinite nor NaN). *)
Theorem top_dark_pools_ratio_finite
        get_data_for_date min_volume dates combined_data r :
  0 < min_volume ->
  TopDarkPools.combined get_data_for_date min_volume dates = Some combined_data ->
  In r combined_data ->
  0 < Sold r
  /\ 0 < Bought r
  /\ Buy_Sell_Ratio r = truediv (Bought r) (Sold r)
  /\ is_finite (Buy_Sell_Ratio r) = true.
Proof.
  intros Hmin Hcomb Hin. unfold TopDarkPools.combined in Hcomb.
  destruct (Derive.load get_data_for_date (TopDarkPools.daily_ok min_volume) false dates)
    as [|f fs] eqn:Hload; [discriminate|].
  injection Hcomb as <-.
  change (f ++ concat fs) with (concat (f :: fs)) in Hin. rewrite <- Hload in Hin.
  pose proof (process_ratio _ _ _ _ Hin) as Hq.
  apply in_process in Hin as (raw & Hraw & _ & _ & _ & _ & Hb & Hs & _ & _).
  apply in_load in Hraw as (d & raw0 & daily & _ & _ & _ & Hkeep & ->).
  unfold TopDarkPools.daily_ok in Hkeep.
  apply andb_true_iff in Hkeep as [Hkb Hks].
  apply Z.leb_le in Hkb, Hks.
  assert (Hsold : 0 < Sold r).
  { rewrite Hs. unfold Derive.sold_of in *. simpl in *. lia. }
  assert (Hbought : 0 < Bought r).
  { rewrite Hb. unfold Derive.bought_of in *. simpl in *. lia. }
  repeat split; auto.
  rewrite Hq. apply truediv_finite. lia.
Qed.

Lemma top_dark_pools_ratio_finite_witness :
  let combined_data :=
    Derive.process Derive.TotalVolume_col Derive.TotalVolume_col
      (concat (Derive.load Inputs.two_hot (TopDarkPools.daily_ok Inputs.min_volume)
                           false Inputs.week)) in
  let r := hd Inputs.blank_row combined_data in
  0 < Sold r
  /\ 0 < Bought r
  /\ Buy_Sell_Ratio r = truediv (Bought r) (Sold r)
  /\ is_finite (Buy_Sell_Ratio r) = true.
Proof.
  apply (top_dark_pools_ratio_finite Inputs.two_hot Inputs.min_volume Inputs.week
           (Derive.process Derive.TotalVolume_col Derive.TotalVolume_col
              (concat (Derive.load Inputs.two_hot
                                   (TopDarkPools.daily_ok Inputs.min_volume)
                                   false Inputs.week)))).
  - reflexivity.
  - reflexivity.
  - left. reflexivity.
Defined.

(** ** The cached download *)

Section CacheFacts.
Import Cache.
Context {DataFrame : Type}.
Variable read_csv : string -> result DataFrame.
Variable server : nat -> string -> response.

(** A cache hit makes no request and leaves the world as it is. *)
Lemma download_hit d w content :
  files w !! file_path d = Some content ->
  snd (download_finra_data read_csv server d w) = w.
Proof. intros H. unfold download_finra_data. rewrite H. reflexivity. Qed.

(** A cache miss makes exactly one request. *)
Lemma download_miss_requests d w :
  files w !! file_path d = None ->
  requests (snd (download_finra_data read_csv server d w)) = requests w ++ [url d].
Proof.
  intros H. unfold download_finra_data. rewrite H.
  destruct (server _ _) as [|code text]; [reflexivity|].
  destruct (raise_for_status code); [reflexivity|].
  destruct (read_csv text); reflexivity.
Qed.

End CacheFacts.

(** C3 (as amended).  On a cache miss the function makes exactly one
    request.  When the request raises or the status is 4xx/5xx the result
    is None, nothing is raised, the files are untouched and the next call
    for the same date makes a request again.  Otherwise the payload is
    written to the cache first and parsed second: the result is what the
    parser gives, an exception of the parser included. *)
Theorem download_on_cache_miss {DataFrame : Type}
        (read_csv : string -> Cache.result DataFrame)
        (server : nat -> string -> Cache.response) d w :
  Cache.files w !! Cache.file_path d = None ->
  let out := Cache.download_finra_data read_csv server d w in
  Cache.requests (snd out) = Cache.requests w ++ [Cache.url d]
  /\ match server (length (Cache.requests w)) (Cache.url d) with
     | Cache.RequestException =>
         fst out = Cache.Ok None /\ Cache.files (snd out) = Cache.files w
     | Cache.Response status_code text =>
         if Cache.raise_for_status status_code
         then fst out = Cache.Ok None /\ Cache.files (snd out) = Cache.files w
         else Cache.files (snd out) = <[Cache.file_path d := text]> (Cache.files w)
              /\ fst out = match read_csv text with
                           | Cache.Ok df => Cache.Ok (Some df)
                           | Cache.Raise e => Cache.Raise e
                           end
     end
  /\ (Cache.files (snd out) = Cache.files w ->
      Cache.requests (snd (Cache.download_finra_data read_csv server d (snd out)))
      = Cache.requests w ++ [Cache.url d; Cache.url d]).
Proof.
  intros Hmiss out. split; [|split].
  - apply download_miss_requests, Hmiss.
  - subst out. unfold Cache.download_finra_data. rewrite Hmiss.
    destruct (server _ _) as [|code text]; [split; reflexivity|].
    destruct (Cache.raise_for_status code); [split; reflexivity|].
    destruct (read_csv text); split; reflexivity.
  - intros Hfiles. rewrite download_miss_requests.
    + subst out. rewrite download_miss_requests by exact Hmiss.
      rewrite <- app_assoc. reflexivity.
    + rewrite Hfiles. exact Hmiss.
Qed.

Lemma download_on_cache_miss_witness :
  let out := Cache.download_finra_data Cache.read_csv_pipe Inputs.server_404_then_200
                                       (Inputs.jan 12) Inputs.world0 in
  Cache.requests (snd out) = [Cache.url (Inputs.jan 12)]
  /\ (fst out = Cache.Ok None /\ Cache.files (snd out) = ∅)
  /\ (Cache.files (snd out) = ∅ ->
      Cache.requests
        (snd (Cache.download_finra_data Cache.read_csv_pipe Inputs.server_404_then_200
                                        (Inputs.jan 12) (snd out)))
      = [Cache.url (Inputs.jan 12); Cache.url (Inputs.jan 12)]).
Proof.
  apply (download_on_cache_miss Cache.read_csv_pipe Inputs.server_404_then_200
                                (Inputs.jan 12) Inputs.world0).
  reflexivity.
Defined.

(** C3 (as stated) fails on a payload that does not parse: the server
    answers 200 with an empty body, the cache has no entry for the date;
    the call raises EmptyDataError instead of returning None, the empty
    file is in the cache afterwards, and the next call for the date finds
    it there, makes no request and raises again. *)
Lemma download_unparsable_payload :
  let d := Inputs.jan 12 in
  let out := Cache.download_finra_data Cache.read_csv_pipe Inputs.server_empty_200
                                       d Inputs.world0 in
  let again := Cache.download_finra_data Cache.read_csv_pipe Inputs.server_empty_200
                                         d (snd out) in
  Cache.files Inputs.world0 !! Cache.file_path d = None
  /\ Inputs.server_empty_200 0 (Cache.url d) = Cache.Response 200 EmptyString
  /\ Cache.read_csv_pipe EmptyString = Cache.Raise Cache.EmptyDataError
  /\ fst out = Cache.Raise Cache.EmptyDataError
  /\ fst out <> Cache.Ok None
  /\ Cache.files (snd out) !! Cache.file_path d = Some EmptyString
  /\ fst again = Cache.Raise Cache.EmptyDataError
  /\ Cache.requests (snd again) = [Cache.url d].
Proof.
  cbv zeta. unfold Cache.download_finra_data at 3 4 5.
  unfold Inputs.world0, Inputs.server_empty_200. simpl Cache.files.
  rewrite lookup_empty. simpl.
  unfold Cache.download_finra_data. simpl Cache.files.
  rewrite lookup_insert_eq. simpl.
  repeat split; try reflexivity; try discriminate.
Qed.

(** ** Date windows *)

Section DateFacts.

Lemma string_compare_refl s : String.compare s s = Eq.
Proof.
  pose proof (String.compare_antisym s s) as H.
  destruct (String.compare s s); simpl in H; congruence.
Qed.

Lemma str_gt_irrefl s : str_gt s s = false.
Proof. unfold str_gt, String.ltb. rewrite string_compare_refl. reflexivity. Qed.

Lemma str_ge_refl s : str_ge s s = true.
Proof. unfold str_ge, String.leb. rewrite string_compare_refl. reflexivity. Qed.

(** Filter Analysis and Accumulation Analysis keep a row dated exactly the
    start date. *)
Lemma filter_analysis_keeps_start_date start r :
  Date (FilterAnalysis.base r) = start -> FilterAnalysis.date_ok start r = true.
Proof.
  intros <-. unfold FilterAnalysis.date_ok, Date_str. apply str_ge_refl.
Qed.

Lemma accumulation_analysis_keeps_start_date start r :
  Date (AccumulationAnalysis.base r) = start ->
  AccumulationAnalysis.date_ok start r = true.
Proof.
  intros <-. unfold AccumulationAnalysis.date_ok, Date_str. apply str_ge_refl.
Qed.

(** Buy Signal keeps the rows dated exactly either end of its window. *)
Lemma date_leb_refl d : date_leb d d = true.
Proof.
  unfold date_leb, date_compare. rewrite !Nat.compare_refl. reflexivity.
Qed.

(** The Accumulation tab drops every row dated exactly the start date. *)
Lemma accumulation_drops_start_date start r :
  Date (Accumulation.base r) = start -> Accumulation.date_ok start r = false.
Proof.
  intros <-. unfold Accumulation.date_ok, Date_str. apply str_gt_irrefl.
Qed.

End DateFacts.

(** C8 (the code departs from it).  Accumulation tab, week of 8 January
    2024, two symbols accumulating every day, analysis_start_date =
    10 January.  The rows of 10 January pass every other filter of the
    tab, yet the table holds the rows of 11 and 12 January only: the
    comparison at line 614 is [>] where the comment above it says
    "greater than or equal". *)
Theorem accumulation_table_excludes_start_date :
  option_map
    (fun data =>
       map (fun r => (Symbol (Accumulation.base r), Date_str (Accumulation.base r)))
           (List.filter
              (fun r => Inputs.acc_passes_but_date r
                        && match date_compare (Date (Accumulation.base r)) (Inputs.jan 10)
                           with Eq => true | _ => false end)
              data))
    (Accumulation.dataset Inputs.two_hot Inputs.week)
  = Some [("AAA", "2024-01-10"); ("BBB", "2024-01-10")]
  /\ option_map (map Inputs.acc_key)
       (Accumulation.run Inputs.two_hot Inputs.quote10 Inputs.min_volume
                         Inputs.price_threshold (Inputs.jan 10) Inputs.week)
     = Some [("AAA", "2024-01-12"); ("BBB", "2024-01-12");
             ("AAA", "2024-01-11"); ("BBB", "2024-01-11")].
Proof. split; vm_compute; reflexivity. Qed.

(** ** Rolling accumulation *)

(** C1 (the code departs from it).  Accumulation tab, two inputs whose
    AAA rows are the same on every date and which differ in the rows of
    BBB only.  The Rolling Accumulation flag of the AAA row of 10 January
    is True in one and False in the other: the window of line 589 runs
    over the rows of all symbols (the grouped form is the one of
    line 815). *)
Theorem accumulation_rolling_crosses_symbols :
  (forall d,
      option_map (List.filter Inputs.raw_is_aaa) (Inputs.aaa_with_hot_bbb d)
      = option_map (List.filter Inputs.raw_is_aaa) (Inputs.aaa_with_quiet_bbb d))
  /\ option_map Inputs.aaa_flags
       (Accumulation.dataset Inputs.aaa_with_hot_bbb Inputs.week)
     = Some [("2024-01-08", true, false); ("2024-01-09", true, false);
             ("2024-01-10", false, true)]
  /\ option_map Inputs.aaa_flags
       (Accumulation.dataset Inputs.aaa_with_quiet_bbb Inputs.week)
     = Some [("2024-01-08", true, false); ("2024-01-09", true, false);
             ("2024-01-10", false, false)].
Proof.
  split; [|split; vm_compute; reflexivity].
  intros [y m d]. unfold Inputs.aaa_with_hot_bbb, Inputs.aaa_with_quiet_bbb.
  simpl day. do 11 (destruct d as [|d]; [reflexivity|]). reflexivity.
Qed.

(** C5 (the code departs from it).  Accumulation tab, three trading days,
    two symbols accumulating on each.  AAA has three observations, all
    with Accumulation True, and its third row has Rolling Accumulation
    True: the five rows of the window are rows of AAA and BBB (the window
    of line 589 is not grouped by symbol). *)
Theorem accumulation_rolling_true_on_short_history :
  option_map Inputs.aaa_flags
    (Accumulation.dataset Inputs.three_hot_days Inputs.week)
  = Some [("2024-01-08", true, false); ("2024-01-09", true, false);
          ("2024-01-10", true, true)].
Proof. vm_compute. reflexivity. Qed.

(** ** The order of the pipeline steps *)

(** C2 (as amended).  Buy Signal and Accumulation run their steps in the
    order of the design: row filters, price enrichment, price filter, sort,
    truncation to 50 last.  Volume Buy, Volume Sell and Top Dark Pools sort
    and truncate to 100 first and run the price enrichment and the price
    filter on the truncated frame, last. *)
Theorem pipeline_orders :
  (forall get_data_for_date history_close min_volume price_threshold
          signal_start_date analysis_end_date dates,
      BuySignal.run get_data_for_date history_close min_volume price_threshold
                    signal_start_date analysis_end_date dates
      = option_map
          (AnalysisPipeline.run
             (Configs.buy_signal min_volume price_threshold
                                 signal_start_date analysis_end_date)
             history_close)
          (BuySignal.dataset get_data_for_date dates))
  /\ (forall get_data_for_date history_close min_volume price_threshold
             analysis_start_date dates,
         Accumulation.run get_data_for_date history_close min_volume price_threshold
                          analysis_start_date dates
         = option_map
             (AnalysisPipeline.run
                (Configs.accumulation min_volume price_threshold analysis_start_date)
                history_close)
             (Accumulation.dataset get_data_for_date dates))
  /\ (forall get_data_for_date history_close analysis_date min_volume price_threshold,
         VolumeAnalysis.volume_buy get_data_for_date history_close analysis_date
                                   min_volume price_threshold
         = option_map
             (fun daily_data =>
                AnalysisPipeline.run_cap_first
                  (Configs.volume_buy min_volume price_threshold) history_close
                  (map VolumeAnalysis.buy_tag daily_data))
             (VolumeAnalysis.dataset get_data_for_date analysis_date))
  /\ (forall get_data_for_date history_close analysis_date min_volume price_threshold,
         VolumeAnalysis.volume_sell get_data_for_date history_close analysis_date
                                    min_volume price_threshold
         = option_map
             (fun daily_data =>
                AnalysisPipeline.run_cap_first
                  (Configs.volume_sell min_volume price_threshold) history_close
                  (map VolumeAnalysis.sell_tag daily_data))
             (VolumeAnalysis.dataset get_data_for_date analysis_date))
  /\ (forall history_close price_threshold analysis_end_date pools,
         TopDarkPools.table history_close price_threshold analysis_end_date pools
         = map (fun r => (analysis_end_date, r))
               (AnalysisPipeline.run_cap_first
                  (Configs.top_dark_pools price_threshold) history_close pools)).
Proof.
  split; [|split; [|split; [|split]]]; intros.
  - reflexivity.
  - unfold Accumulation.run. destruct (Accumulation.dataset _ _) as [data|]; [|reflexivity].
    unfold option_map. f_equal. unfold Accumulation.pipeline.
    assert (H : List.filter (Accumulation.date_ok analysis_start_date)
                  (List.filter (fun r => Derive.volume_ok min_volume (Accumulation.base r))
                     (List.filter Accumulation.Rolling_Accumulation
                        (List.filter Accumulation.Accumulation data)))
                = List.filter (Accumulation.date_ok analysis_start_date)
                    (List.filter
                       (fun r => Accumulation.Accumulation r
                                 && Accumulation.Rolling_Accumulation r)
                       (List.filter
                          (fun r => Derive.volume_ok min_volume (Accumulation.base r))
                          data))).
    { rewrite !filter_filter. apply filter_ext. intros r.
      destruct (Accumulation.Accumulation r), (Accumulation.Rolling_Accumulation r),
        (Derive.volume_ok min_volume (Accumulation.base r)); reflexivity. }
    rewrite H. reflexivity.
  - unfold VolumeAnalysis.volume_buy.
    destruct (VolumeAnalysis.dataset _ _) as [data|]; [|reflexivity].
    unfold option_map. f_equal.
    unfold VolumeAnalysis.buy_pipeline, AnalysisPipeline.run_cap_first.
    unfold Configs.volume_buy, AnalysisPipeline.date_filter,
      AnalysisPipeline.ratio_filter, AnalysisPipeline.volume_filter.
    rewrite filter_true, !filter_map_swap. reflexivity.
  - unfold VolumeAnalysis.volume_sell.
    destruct (VolumeAnalysis.dataset _ _) as [data|]; [|reflexivity].
    unfold option_map. f_equal.
    unfold VolumeAnalysis.sell_pipeline, AnalysisPipeline.run_cap_first.
    unfold Configs.volume_sell, AnalysisPipeline.date_filter,
      AnalysisPipeline.ratio_filter, AnalysisPipeline.volume_filter.
    rewrite filter_true, !filter_map_swap. reflexivity.
  - unfold TopDarkPools.table, AnalysisPipeline.run_cap_first.
    unfold Configs.top_dark_pools, AnalysisPipeline.date_filter,
      AnalysisPipeline.ratio_filter, AnalysisPipeline.volume_filter.
    rewrite !filter_true. reflexivity.
Qed.


(** C2 (as stated) fails for Volume Buy.  101 symbols pass the volume
    and ratio filters; the symbol with the highest ratio closes below the
    price threshold.  The tab keeps the first 100 rows of the sort and
    then drops that symbol: 99 rows.  With the price filter before the
    sort and the cap, as the claim has it, 100 rows result. *)
Lemma volume_buy_caps_before_price_filter :
  let tab :=
    VolumeAnalysis.volume_buy (Inputs.ladder_day 101) Inputs.quote_but_top
                              (Inputs.jan 12) Inputs.min_volume Inputs.price_threshold in
  let design :=
    option_map
      (fun daily_data =>
         AnalysisPipeline.run
           (Configs.volume_buy Inputs.min_volume Inputs.price_threshold)
           Inputs.quote_but_top (map VolumeAnalysis.buy_tag daily_data))
      (VolumeAnalysis.dataset (Inputs.ladder_day 101) (Inputs.jan 12)) in
  option_map (@length _) tab = Some 99%nat
  /\ option_map (@length _) design = Some 100%nat
  /\ tab <> design.
Proof.
  cbv zeta.
  assert (Htab : option_map (@length _)
                   (VolumeAnalysis.volume_buy (Inputs.ladder_day 101) Inputs.quote_but_top
                      (Inputs.jan 12) Inputs.min_volume Inputs.price_threshold)
                 = Some 99%nat) by (vm_compute; reflexivity).
  assert (Hdesign : option_map (@length _)
                      (option_map
                         (fun daily_data =>
                            AnalysisPipeline.run
                              (Configs.volume_buy Inputs.min_volume Inputs.price_threshold)
                              Inputs.quote_but_top
                              (map VolumeAnalysis.buy_tag daily_data))
                         (VolumeAnalysis.dataset (Inputs.ladder_day 101) (Inputs.jan 12)))
                    = Some 100%nat) by (vm_compute; reflexivity).
  split; [exact Htab|]. split; [exact Hdesign|].
  intros Heq. apply (f_equal (option_map (@length _))) in Heq.
  rewrite Htab, Hdesign in Heq. discriminate Heq.
Qed.

(** ** Result caps *)

Section CapFacts.
Import Pandas Derive.

Lemma head_length {A : Type} n (data : list A) : (length (head n data) <= n)%nat.
Proof. unfold head. apply firstn_le_length. Qed.

Lemma assign_length_le {A B C : Type} (f : A -> B -> C) data col :
  (length (assign f data col) <= length data)%nat.
Proof. unfold assign. rewrite length_map, length_combine. lia. Qed.

Lemma price_block_length {A : Type} history_close (symbol : A -> string)
      price_threshold data :
  (length (price_block history_close symbol price_threshold data) <= length data)%nat.
Proof.
  unfold price_block, add_closing_price.
  etransitivity; [apply filter_length_le|]. apply assign_length_le.
Qed.

End CapFacts.

(** C4 (as amended).  The tabs that call [head] hand over at most 30 rows
    (Ticker Analysis), 100 rows (Top Dark Pools, Volume Buy, Volume Sell)
    and 50 rows (Buy Signal, Accumulation).  Accumulation Analysis does
    not truncate: its table is every row of the frame that passes its four
    filters. *)
Theorem result_caps :
  (forall get_data_for_date symbol dates,
      match TickerAnalysis.run get_data_for_date symbol dates with
      | Some table => (length table <= 30)%nat
      | None => True
      end)
  /\ (forall get_data_for_date history_close min_volume price_threshold
             analysis_end_date dates,
         match TopDarkPools.run get_data_for_date history_close min_volume
                                price_threshold analysis_end_date dates with
         | Some table => (length table <= 100)%nat
         | None => True
         end)
  /\ (forall get_data_for_date history_close analysis_date min_volume price_threshold,
         match VolumeAnalysis.volume_buy get_data_for_date history_close analysis_date
                                         min_volume price_threshold with
         | Some table => (length table <= 100)%nat
         | None => True
         end)
  /\ (forall get_data_for_date history_close analysis_date min_volume price_threshold,
         match VolumeAnalysis.volume_sell get_data_for_date history_close analysis_date
                                          min_volume price_threshold with
         | Some table => (length table <= 100)%nat
         | None => True
         end)
  /\ (forall get_data_for_date history_close min_volume price_threshold
             signal_start_date analysis_end_date dates,
         match BuySignal.run get_data_for_date history_close min_volume price_threshold
                             signal_start_date analysis_end_date dates with
         | Some table => (length table <= 50)%nat
         | None => True
         end)
  /\ (forall get_data_for_date history_close min_volume price_threshold
             analysis_start_date dates,
         match Accumulation.run get_data_for_date history_close min_volume
                                price_threshold analysis_start_date dates with
         | Some table => (length table <= 50)%nat
         | None => True
         end)
  /\ (forall get_data_for_date min_volume analysis_end_date dates,
         AccumulationAnalysis.run get_data_for_date min_volume analysis_end_date dates
         = option_map
             (List.filter (Configs.accumulation_analysis_ok min_volume analysis_end_date))
             (AccumulationAnalysis.dataset get_data_for_date dates)).
Proof.
  split; [|split; [|split; [|split; [|split; [|split]]]]]; intros.
  - unfold TickerAnalysis.run.
    destruct (TickerAnalysis.dataset _ _ _); [|exact I].
    apply head_length.
  - unfold TopDarkPools.run.
    destruct (TopDarkPools.combined _ _ _); [|exact I].
    unfold option_map, TopDarkPools.table. rewrite length_map.
    etransitivity; [apply price_block_length|]. apply head_length.
  - unfold VolumeAnalysis.volume_buy.
    destruct (VolumeAnalysis.dataset _ _); [|exact I].
    unfold option_map, VolumeAnalysis.buy_pipeline.
    etransitivity; [apply price_block_length|]. apply head_length.
  - unfold VolumeAnalysis.volume_sell.
    destruct (VolumeAnalysis.dataset _ _); [|exact I].
    unfold option_map, VolumeAnalysis.sell_pipeline.
    etransitivity; [apply price_block_length|]. apply head_length.
  - unfold BuySignal.run.
    destruct (BuySignal.dataset _ _); [|exact I].
    apply head_length.
  - unfold Accumulation.run.
    destruct (Accumulation.dataset _ _); [|exact I].
    apply head_length.
  - unfold AccumulationAnalysis.run.
    destruct (AccumulationAnalysis.dataset _ _) as [data|]; [|reflexivity].
    unfold option_map, AccumulationAnalysis.pipeline. f_equal.
    rewrite !filter_filter. apply filter_ext. intros r.
    unfold Configs.accumulation_analysis_ok. rewrite !andb_assoc. reflexivity.
Qed.

(** C4 (as stated) fails for Accumulation Analysis.  101 symbols
    accumulate on each of the five days of the week; the table holds the
    101 rows of the last day. *)
Lemma accumulation_analysis_table_exceeds_100 :
  option_map (@length _)
    (AccumulationAnalysis.run (Inputs.many_hot 101) Inputs.min_volume
                              (Inputs.jan 12) Inputs.week)
  = Some 101%nat.
Proof. vm_compute. reflexivity. Qed.

(** ** Sorting *)

Section OrderFacts.
Import Pandas.

Lemma total_order_refl {A : Type} (o : order A) :
  total_order o -> forall x, o x x = Eq.
Proof.
  intros Ho x. pose proof (order_antisym o Ho x x) as H.
  destruct (o x x); simpl in H; congruence.
Qed.

Lemma not_after_trans {A : Type} (o : order A) :
  total_order o -> forall x y z, not_after o x y -> not_after o y z -> not_after o x z.
Proof.
  intros Ho x y z Hxy Hyz. unfold not_after in *.
  destruct (o x y) eqn:Exy; [| |congruence].
  - rewrite (order_eq_compat o Ho x y z Exy). exact Hyz.
  - destruct (o y z) eqn:Eyz; [| |congruence].
    + pose proof (order_antisym o Ho y z) as Hzy. rewrite Eyz in Hzy. simpl in Hzy.
      pose proof (order_eq_compat o Ho z y x Hzy) as Hzx.
      pose proof (order_antisym o Ho x y) as Hyx. rewrite Exy in Hyx. simpl in Hyx.
      pose proof (order_antisym o Ho z x) as Hxz. rewrite Hzx, Hyx in Hxz.
      rewrite Hxz. simpl. discriminate.
    + rewrite (order_lt_trans o Ho x y z Exy Eyz). discriminate.
Qed.

Lemma not_after_total {A : Type} (o : order A) :
  total_order o -> forall x y, o x y = Gt -> not_after o y x.
Proof.
  intros Ho x y Hxy. unfold not_after.
  rewrite (order_antisym o Ho x y), Hxy. discriminate.
Qed.

Lemma tie_of_not_after {A : Type} (o : order A) :
  total_order o -> forall x y, not_after o x y -> not_after o y x -> o x y = Eq.
Proof.
  intros Ho x y Hxy Hyx. unfold not_after in *.
  rewrite (order_antisym o Ho x y) in Hyx.
  destruct (o x y); simpl in Hyx; congruence.
Qed.

Lemma total_order_desc_int : total_order desc_int.
Proof.
  split; unfold desc_int.
  - intros x y. apply Z.compare_antisym.
  - intros x y z Hxy Hyz. rewrite Z.compare_lt_iff in *. lia.
  - intros x y z Hxy. apply Z.compare_eq in Hxy. subst. reflexivity.
Qed.

Lemma total_order_desc_float : total_order desc_float.
Proof.
  split.
  - intros [a| | |] [b| | |]; try reflexivity.
    unfold desc_float, fcompare. symmetry. apply Qcompare_antisym.
  - intros [a| | |] [b| | |] [c| | |]; simpl; try congruence.
    intros H1 H2. apply Qlt_alt in H1, H2. apply Qlt_alt.
    eapply Qlt_trans; eassumption.
  - intros [a| | |] [b| | |] [c| | |]; simpl; try congruence.
    intros H. apply Qeq_alt in H. rewrite H. reflexivity.
Qed.

Lemma total_order_by_col {A C : Type} (col : A -> C) (o : order C) :
  total_order o -> total_order (by_col col o).
Proof.
  intros Ho. split; unfold by_col; intros.
  - apply (order_antisym o Ho).
  - eapply (order_lt_trans o Ho); eassumption.
  - apply (order_eq_compat o Ho). assumption.
Qed.

Lemma lexi_eq {A : Type} (o : order A) os x y :
  lexi (o :: os) x y = Eq -> o x y = Eq /\ lexi os x y = Eq.
Proof. simpl. destruct (o x y); intros H; try discriminate. auto. Qed.

Lemma total_order_lexi {A : Type} (os : list (order A)) :
  Forall total_order os -> total_order (lexi os).
Proof.
  induction 1 as [|o os Ho Hos IH].
  - split; simpl; intros; congruence.
  - split.
    + intros x y. simpl. rewrite (order_antisym o Ho x y).
      destruct (o x y); simpl; try reflexivity. apply (order_antisym _ IH).
    + intros x y z. simpl. intros Hxy Hyz.
      destruct (o x y) eqn:Exy; try discriminate.
      * rewrite (order_eq_compat o Ho x y z Exy).
        destruct (o y z); try discriminate; [|reflexivity].
        eapply (order_lt_trans _ IH); eassumption.
      * destruct (o y z) eqn:Eyz; try discriminate.
        -- assert (Hxz : not_after o x z).
           { apply (not_after_trans o Ho x y z); unfold not_after; congruence. }
           destruct (o x z) eqn:Exz; [|reflexivity|unfold not_after in Hxz; congruence].
           (* o x z = Eq and o y z = Eq would give o x y = Eq *)
           pose proof (order_antisym o Ho y z) as Hzy. rewrite Eyz in Hzy. simpl in Hzy.
           pose proof (order_eq_compat o Ho x z y Exz) as H1.
           rewrite Exy, Hzy in H1. discriminate.
        -- rewrite (order_lt_trans o Ho x y z Exy Eyz). reflexivity.
    + intros x y z Hxy. apply lexi_eq in Hxy as [H1 H2]. simpl.
      rewrite (order_eq_compat o Ho x y z H1).
      destruct (o y z); try reflexivity. apply (order_eq_compat _ IH). exact H2.
Qed.

End OrderFacts.

Section SortFacts.
Import Pandas.
Context {A : Type}.
Variable o : order A.
Hypothesis Ho : total_order o.

Lemma insert_sorted_perm x l : Permutation (insert_sorted o x l) (x :: l).
Proof.
  induction l as [|y l IH]; simpl; [reflexivity|].
  destruct (o x y); try reflexivity.
  rewrite IH. apply perm_swap.
Qed.

Lemma insert_sorted_sorted x l :
  StronglySorted (not_after o) l -> StronglySorted (not_after o) (insert_sorted o x l).
Proof.
  induction 1 as [|y l Hl IH Hy]; simpl.
  - repeat constructor.
  - destruct (o x y) eqn:Exy.
    + constructor; [constructor; assumption|].
      constructor; [unfold not_after; congruence|].
      eapply List.Forall_impl; [|exact Hy]. intros z Hz.
      apply (not_after_trans o Ho x y z); [unfold not_after; congruence|exact Hz].
    + constructor; [constructor; assumption|].
      constructor; [unfold not_after; congruence|].
      eapply List.Forall_impl; [|exact Hy]. intros z Hz.
      apply (not_after_trans o Ho x y z); [unfold not_after; congruence|exact Hz].
    + constructor; [exact IH|].
      apply (Permutation_Forall (x := x :: l)).
      * symmetry. apply insert_sorted_perm.
      * constructor; [apply (not_after_total o Ho), Exy|exact Hy].
Qed.

(** Two sorted arrangements of the same rows are the same list when no two
    different rows tie. *)
Lemma sorted_perm_unique l1 :
  forall l2,
    StronglySorted (not_after o) l1 -> StronglySorted (not_after o) l2 ->
    Permutation l1 l2 ->
    (forall x y, In x l1 -> In y l1 -> o x y = Eq -> x = y) ->
    l1 = l2.
Proof.
  induction l1 as [|x t1 IH]; intros l2 H1 H2 Hp Hd.
  - apply Permutation_nil in Hp. congruence.
  - destruct l2 as [|y t2].
    { symmetry in Hp. apply Permutation_nil in Hp. discriminate. }
    assert (Hxy : x = y).
    { inversion H1 as [|? ? Ht1 Hx]; subst. inversion H2 as [|? ? Ht2 Hy]; subst.
      assert (Hiny : In y (x :: t1)).
      { apply (Permutation_in (l := y :: t2)); [symmetry; exact Hp|left; reflexivity]. }
      assert (Hinx : In x (y :: t2)).
      { apply (Permutation_in (l := x :: t1)); [exact Hp|left; reflexivity]. }
      destruct Hiny as [->|Hiny]; [reflexivity|].
      destruct Hinx as [->|Hinx]; [reflexivity|].
      apply Hd; [left; reflexivity|right; exact Hiny|].
      apply (tie_of_not_after o Ho).
      - rewrite List.Forall_forall in Hx. apply Hx, Hiny.
      - rewrite List.Forall_forall in Hy. apply Hy, Hinx. }
    subst y. f_equal. apply IH.
    + inversion H1; assumption.
    + inversion H2; assumption.
    + eapply Permutation_cons_inv; exact Hp.
    + intros a b Ha Hb. apply Hd; right; assumption.
Qed.

End SortFacts.

Section SortValuesFacts.
Import Pandas.
Context {A : Type}.
Variable by_ : list (order A).
Hypothesis Hby : Forall total_order by_.

Lemma sort_values_perm (data : list A) : Permutation (sort_values by_ data) data.
Proof.
  unfold sort_values. induction data as [|x l IH]; simpl; [reflexivity|].
  rewrite insert_sorted_perm. constructor. exact IH.
Qed.

Lemma sort_values_sorted (data : list A) :
  StronglySorted (not_after (lexi by_)) (sort_values by_ data).
Proof.
  unfold sort_values. induction data as [|x l IH]; simpl; [constructor|].
  apply insert_sorted_sorted; [apply total_order_lexi, Hby|exact IH].
Qed.

(** With no ties among different rows the sorted frame does not depend on
    the order of the input rows. *)
Lemma sort_values_rev (data : list A) :
  distinct_keys by_ data -> sort_values by_ (rev data) = sort_values by_ data.
Proof.
  intros Hd. apply (sorted_perm_unique (lexi by_) (total_order_lexi by_ Hby)).
  - apply sort_values_sorted.
  - apply sort_values_sorted.
  - rewrite !sort_values_perm. symmetry. apply Permutation_rev.
  - intros x y Hx Hy. apply Hd.
    + apply in_rev. eapply Permutation_in; [apply sort_values_perm|exact Hx].
    + apply in_rev. eapply Permutation_in; [apply sort_values_perm|exact Hy].
Qed.

Lemma no_ties_distinct (data : list A) :
  no_ties (lexi by_) data = true -> distinct_keys by_ data.
Proof.
  pose proof (total_order_lexi by_ Hby) as Ho.
  unfold distinct_keys. induction data as [|a l IH]; intros Hn x y Hx Hy Hxy.
  - destruct Hx.
  - simpl in Hn. apply andb_true_iff in Hn as [Ha Hl].
    rewrite forallb_forall in Ha.
    destruct Hx as [<-|Hx], Hy as [<-|Hy].
    + reflexivity.
    + specialize (Ha y Hy). rewrite Hxy in Ha. discriminate.
    + specialize (Ha x Hx).
      rewrite (order_antisym _ Ho x a), Hxy in Ha. discriminate.
    + apply IH; assumption.
Qed.

End SortValuesFacts.

(** ** Sums of integer columns *)

Section MeanFacts.
Import Pandas.

(** The float sum of an int column, in the model's exact arithmetic, is
    the sum of its entries.  binary64 gives the same value as long as
    every partial sum is exactly representable (at most 2^53 in absolute
    value); the lemma is used on 0/1 columns and on bounded volumes. *)
Lemma fold_fadd_ints xs : forall q,
  fold_left fadd (map of_int xs) (Fin q)
  = match xs with
    | [] => Fin q
    | _ => Fin (Qred (q + inject_Z (Zsum xs)))
    end.
Proof.
  induction xs as [|a xs IH]; intros q; [reflexivity|].
  change (fold_left fadd (map of_int (a :: xs)) (Fin q))
    with (fold_left fadd (map of_int xs) (Fin (Qred (q + inject_Z a)))).
  rewrite IH.
  destruct xs as [|b xs].
  - f_equal. apply Qred_complete. simpl. rewrite Z.add_0_r. reflexivity.
  - f_equal. apply Qred_complete. rewrite Qred_correct.
    change (Zsum (a :: b :: xs)) with (a + Zsum (b :: xs)).
    rewrite inject_Z_plus. ring.
Qed.

End MeanFacts.

Section ReversalFacts.
Import Pandas Derive.

Lemma total_order_buy_keys : Forall total_order VolumeAnalysis.buy_keys.
Proof.
  repeat constructor; apply total_order_by_col;
    first [apply total_order_desc_float | apply total_order_desc_int].
Qed.

Lemma total_order_sell_keys : Forall total_order VolumeAnalysis.sell_keys.
Proof.
  repeat constructor; apply total_order_by_col;
    first [apply total_order_desc_float | apply total_order_desc_int].
Qed.

Lemma buy_survivors_rev min_volume data :
  Configs.buy_survivors min_volume (rev data) = rev (Configs.buy_survivors min_volume data).
Proof. unfold Configs.buy_survivors. rewrite !filter_rev, map_rev. reflexivity. Qed.

Lemma sell_survivors_rev min_volume data :
  Configs.sell_survivors min_volume (rev data) = rev (Configs.sell_survivors min_volume data).
Proof. unfold Configs.sell_survivors. rewrite !filter_rev, map_rev. reflexivity. Qed.

End ReversalFacts.

(** C9 (as stated) fails for Volume Buy.  Two symbols with the same
    volumes tie on Buy-Sell Ratio, DP Index and Bought; the sort keeps
    them in input order, so the table of the reversed input lists them the
    other way round. *)
Lemma volume_buy_depends_on_row_order :
  let table :=
    VolumeAnalysis.volume_buy Inputs.tied Inputs.quote10 (Inputs.jan 12)
                              Inputs.min_volume Inputs.price_threshold in
  let table_of_reversed :=
    VolumeAnalysis.volume_buy (Inputs.reversed Inputs.tied) Inputs.quote10 (Inputs.jan 12)
                              Inputs.min_volume Inputs.price_threshold in
  option_map Inputs.volume_symbols table = Some ["AAA"; "BBB"]
  /\ option_map Inputs.volume_symbols table_of_reversed = Some ["BBB"; "AAA"]
  /\ table_of_reversed <> table.
Proof.
  cbv zeta.
  assert (H1 : option_map Inputs.volume_symbols
                 (VolumeAnalysis.volume_buy Inputs.tied Inputs.quote10 (Inputs.jan 12)
                    Inputs.min_volume Inputs.price_threshold)
               = Some ["AAA"; "BBB"]) by (vm_compute; reflexivity).
  assert (H2 : option_map Inputs.volume_symbols
                 (VolumeAnalysis.volume_buy (Inputs.reversed Inputs.tied) Inputs.quote10
                    (Inputs.jan 12) Inputs.min_volume Inputs.price_threshold)
               = Some ["BBB"; "AAA"]) by (vm_compute; reflexivity).
  split; [exact H1|]. split; [exact H2|].
  intros Heq. apply (f_equal (option_map Inputs.volume_symbols)) in Heq.
  rewrite H1, H2 in Heq. discriminate Heq.
Qed.

(** ** Group-by *)

Section GroupFacts.
Import Pandas.
Context {A B : Type}.

Lemma group_of_app k (l1 l2 : list (string * A)) :
  group_of k (l1 ++ l2) = group_of k l1 ++ group_of k l2.
Proof. unfold group_of. rewrite List.filter_app, List.map_app. reflexivity. Qed.

Lemma transform_rows_length (groups : string -> list B) d (rest : list (string * A)) :
  forall seen, length (transform_rows groups d seen rest) = length rest.
Proof.
  induction rest as [|[k x] rest IH]; intros seen; simpl; [reflexivity|].
  rewrite IH. reflexivity.
Qed.

Lemma groupby_transform_length (kx : list (string * A)) (f : list A -> list B) d :
  length (groupby_transform kx f d) = length kx.
Proof. apply transform_rows_length. Qed.

(** Row [i] receives the entry of its group's result at the row's rank in
    the group. *)
Lemma transform_rows_nth (groups : string -> list B) d (rest : list (string * A)) :
  forall seen i k x,
    nth_error rest i = Some (k, x) ->
    nth i (transform_rows groups d seen rest) d
    = nth (length (group_of k (seen ++ firstn i rest))) (groups k) d.
Proof.
  induction rest as [|[k' x'] rest IH]; intros seen i k x Hi.
  - destruct i; discriminate.
  - destruct i as [|i]; simpl in Hi.
    + injection Hi as -> ->. simpl. rewrite app_nil_r. reflexivity.
    + simpl. rewrite (IH _ _ _ _ Hi). rewrite <- app_assoc. reflexivity.
Qed.

Lemma groupby_transform_nth (kx : list (string * A)) (f : list A -> list B) d i k x :
  nth_error kx i = Some (k, x) ->
  nth i (groupby_transform kx f d) d
  = nth (length (group_of k (firstn i kx))) (f (group_of k kx)) d.
Proof.
  intros Hi. unfold groupby_transform.
  rewrite (transform_rows_nth _ _ _ [] _ _ _ Hi). reflexivity.
Qed.

Lemma group_of_cons {C : Type} k k' (v : C) l :
  group_of k ((k', v) :: l)
  = if String.eqb k' k then v :: group_of k l else group_of k l.
Proof. unfold group_of. simpl. destruct (String.eqb k' k); reflexivity. Qed.

Lemma nth_cons_skipn {C : Type} (d : C) n : forall l,
  (n < length l)%nat -> nth n l d :: skipn (S n) l = skipn n l.
Proof.
  induction n as [|n IH]; intros [|c l] Hl; simpl in *; try lia.
  - reflexivity.
  - apply IH. lia.
Qed.

(** The entries that the rows of group [k] receive, in row order, are the
    result of [f] on the sub-series of group [k]: no other row matters. *)
Lemma transform_rows_group (groups : string -> list B) d k (rest : list (string * A)) :
  forall seen,
    length (groups k) = length (group_of k (seen ++ rest)) ->
    group_of k (combine (map fst rest) (transform_rows groups d seen rest))
    = skipn (length (group_of k seen)) (groups k).
Proof.
  induction rest as [|[k' x'] rest IH]; intros seen Hlen.
  - simpl. rewrite app_nil_r in Hlen. rewrite skipn_all2; [reflexivity|lia].
  - cbn [map fst transform_rows combine]. rewrite group_of_cons.
    assert (Hlen' : length (groups k) = length (group_of k ((seen ++ [(k', x')]) ++ rest))).
    { rewrite <- app_assoc. exact Hlen. }
    rewrite (IH _ Hlen'). rewrite group_of_app, group_of_cons.
    rewrite group_of_app, group_of_cons, length_app in Hlen.
    destruct (String.eqb_spec k' k) as [->|Hne].
    + rewrite length_app. simpl length in *. rewrite Nat.add_1_r.
      apply nth_cons_skipn. lia.
    + simpl. rewrite app_nil_r. reflexivity.
Qed.

Lemma groupby_transform_group (kx : list (string * A)) (f : list A -> list B) d k :
  length (f (group_of k kx)) = length (group_of k kx) ->
  group_of k (combine (map fst kx) (groupby_transform kx f d)) = f (group_of k kx).
Proof.
  intros Hlen. unfold groupby_transform.
  rewrite (transform_rows_group (fun k => f (group_of k kx)) d k kx []); [reflexivity|].
  exact Hlen.
Qed.

(** A flag that is False on the first rows of every series is False on the
    first rows of every group. *)
Lemma groupby_transform_short (kx : list (string * A)) (f : list A -> list B) d m i k x :
  (forall xs j, (S j < m)%nat -> nth j (f xs) d = d) ->
  nth_error kx i = Some (k, x) ->
  (S (length (group_of k (firstn i kx))) < m)%nat ->
  nth i (groupby_transform kx f d) d = d.
Proof.
  intros Hf Hi Hrank. rewrite (groupby_transform_nth _ _ _ _ _ _ Hi).
  apply Hf. exact Hrank.
Qed.

End GroupFacts.

Section ColumnFacts.
Import Pandas.

Lemma zap_nth_error {A B : Type} (fs : list (A -> B)) : forall col i,
  nth_error (zap fs col) i
  = match nth_error fs i, nth_error col i with
    | Some f, Some x => Some (f x)
    | _, _ => None
    end.
Proof.
  unfold zap, assign.
  induction fs as [|f fs IH]; intros [|x col] [|i]; simpl; try reflexivity.
  - destruct (nth_error fs i); reflexivity.
  - apply IH.
Qed.

Lemma zap_length {A B : Type} (fs : list (A -> B)) col :
  length col = length fs -> length (zap fs col) = length fs.
Proof. intros H. unfold zap, assign. rewrite length_map, length_combine. lia. Qed.

Lemma nth_error_some_nth {A : Type} (l : list A) i d :
  (i < length l)%nat -> nth_error l i = Some (nth i l d).
Proof. intros H. apply nth_error_nth'. exact H. Qed.

(** The rows of a key-value frame with key [k], through any column. *)
Lemma group_of_columns {A C : Type} (key : A -> string) (col : A -> C) k (l : list A) :
  group_of k (combine (map key l) (map col l))
  = map col (List.filter (fun r => String.eqb (key r) k) l).
Proof.
  induction l as [|r l IH]; [reflexivity|].
  cbn [map combine List.filter]. rewrite group_of_cons, IH.
  destruct (String.eqb (key r) k); reflexivity.
Qed.

End ColumnFacts.

Section ZapFacts.
Import Pandas.

Lemma zap_map {A B C : Type} (g : A -> B -> C) (xs : list A) (ys : list B) :
  zap (map g xs) ys = map (fun p => g (fst p) (snd p)) (combine xs ys).
Proof.
  unfold zap, assign. revert ys.
  induction xs as [|x xs IH]; intros [|y ys]; simpl; try reflexivity.
  rewrite IH. reflexivity.
Qed.

Lemma map_fst_combine {A B : Type} (xs : list A) : forall (ys : list B),
  length ys = length xs -> map fst (combine xs ys) = xs.
Proof.
  induction xs as [|x xs IH]; intros [|y ys] H; simpl in *; try lia; try reflexivity.
  rewrite IH by lia. reflexivity.
Qed.

Lemma map_snd_combine {A B : Type} (xs : list A) : forall (ys : list B),
  length ys = length xs -> map snd (combine xs ys) = ys.
Proof.
  induction xs as [|x xs IH]; intros [|y ys] H; simpl in *; try lia; try reflexivity.
  rewrite IH by lia. reflexivity.
Qed.

Lemma firstn_combine_map {A K C : Type} (key : A -> K) (col : A -> C) (l : list A) i :
  firstn i (combine (map key l) (map col l))
  = combine (map key (firstn i l)) (map col (firstn i l)).
Proof. rewrite combine_firstn, !firstn_map. reflexivity. Qed.

Lemma nth_error_combine_map {A K C : Type} (key : A -> K) (col : A -> C) (l : list A) :
  forall i r, nth_error l i = Some r ->
              nth_error (combine (map key l) (map col l)) i = Some (key r, col r).
Proof.
  induction l as [|a l IH]; intros [|i] r H; simpl in *; try discriminate.
  - injection H as ->. reflexivity.
  - apply IH, H.
Qed.

End ZapFacts.

(** ** Rolling accumulation in the tabs that look at one symbol at a time *)

Section TickerFacts.
Import Pandas Derive TickerAnalysis.

(** Ticker Analysis loads the rows of one symbol, so row [i] of its frame
    is the symbol's observation number [i + 1]: the flag is False on the
    first four. *)
Lemma ticker_rolling_false_on_short_history data i r :
  nth_error (flag data) i = Some r ->
  (S i < 5)%nat ->
  Rolling_Accumulation r = false.
Proof.
  unfold flag. intros Hr Hi. rewrite !zap_nth_error, nth_error_map in Hr.
  destruct (nth_error data i) as [b|]; [|discriminate]. simpl in Hr.
  destruct (nth_error (map _ data) i) as [a|]; [|discriminate].
  destruct (nth_error (ge_scalar 5 _) i) as [ro|] eqn:Ero; [|discriminate].
  destruct (nth_error (rolling_sum 2 1 (map (fun r => of_int (Bought r)) data)) i);
    [|discriminate].
  destruct (nth_error (rolling_sum 2 1 (map (fun r => of_int (Sold r)) data)) i);
    [|discriminate].
  injection Hr as <-. simpl.
  apply (nth_error_nth _ _ false) in Ero. rewrite <- Ero.
  apply rolling_flag_short. exact Hi.
Qed.

Lemma ticker_rows_of_one_symbol get_data_for_date symbol dates data r :
  dataset get_data_for_date symbol dates = Some data ->
  In r data -> Symbol (base r) = symbol.
Proof.
  unfold dataset. intros Hd Hr.
  destruct (load _ _ _ _) as [|f fs] eqn:Hload; [discriminate|].
  injection Hd as <-. change (f ++ concat fs) with (concat (f :: fs)) in Hr.
  rewrite <- Hload in Hr. clear Hload.
  apply In_nth_error in Hr as [i Hi].
  unfold flag in Hi. rewrite !zap_nth_error, nth_error_map in Hi.
  destruct (nth_error (process _ _ _) i) as [b|] eqn:Hb; [|discriminate]. simpl in Hi.
  destruct (nth_error (map _ _) i); [|discriminate].
  destruct (nth_error (ge_scalar 5 _) i); [|discriminate].
  destruct (nth_error (rolling_sum 2 1 (map (fun r => of_int (Bought r)) _)) i);
    [|discriminate].
  destruct (nth_error (rolling_sum 2 1 (map (fun r => of_int (Sold r)) _)) i);
    [|discriminate].
  injection Hi as <-. simpl.
  apply nth_error_In in Hb.
  apply in_process in Hb as (raw & Hraw & _ & Hsym & _).
  apply in_load in Hraw as (d & raw0 & daily & _ & _ & _ & Hkeep & ->).
  rewrite Hsym. simpl. apply String.eqb_eq. exact Hkeep.
Qed.

End TickerFacts.

Section GroupedFacts.
Import Pandas Derive.

Lemma rolling_flags_short xs j :
  (S j < 5)%nat -> nth j (AccumulationAnalysis.rolling_flags xs) false = false.
Proof. intros H. unfold AccumulationAnalysis.rolling_flags. apply rolling_flag_short, H. Qed.

Lemma rolling_flags_length xs :
  length (AccumulationAnalysis.rolling_flags xs) = length xs.
Proof.
  unfold AccumulationAnalysis.rolling_flags, rolling_sum.
  rewrite ge_scalar_length, rolling_length, bools_length. reflexivity.
Qed.

(** Wherever a frame is grouped by symbol, the flag is False on the rows
    that have fewer than five rows of their symbol up to and including
    themselves. *)
Lemma grouped_rolling_false_on_short_history (kx : list (string * bool)) i k x :
  nth_error kx i = Some (k, x) ->
  (S (length (group_of k (firstn i kx))) < 5)%nat ->
  nth i (groupby_transform kx AccumulationAnalysis.rolling_flags false) false = false.
Proof.
  intros Hi Hrank.
  apply (groupby_transform_short kx _ false 5 i k x); [|exact Hi|exact Hrank].
  intros xs j Hj. apply rolling_flags_short, Hj.
Qed.

(** Top Dark Pools: the same for Consistent Accumulation. *)
Lemma top_dark_pools_false_on_short_history acc i r :
  nth_error acc i = Some r ->
  (S (length (List.filter
                (fun r' => String.eqb (TopDarkPools.a_Symbol r') (TopDarkPools.a_Symbol r))
                (firstn i acc))) < 5)%nat ->
  nth i (TopDarkPools.consistent_accumulation acc) false = false.
Proof.
  intros Hi Hrank. unfold TopDarkPools.consistent_accumulation.
  apply (groupby_transform_short _ _ false 5 i (TopDarkPools.a_Symbol r)
                                 (TopDarkPools.a_Buy_Sell_Ratio r)).
  - intros xs j Hj. apply rolling_flag_short, Hj.
  - apply nth_error_combine_map, Hi.
  - rewrite firstn_combine_map, group_of_columns, length_map. exact Hrank.
Qed.

(** Top Dark Pools: the Consistent Accumulation flags of the rows of
    symbol [k] are computed from the ratios of the rows of symbol [k]. *)
Lemma top_dark_pools_consistent_is_per_symbol acc k :
  group_of k (combine (map TopDarkPools.a_Symbol acc)
                      (TopDarkPools.consistent_accumulation acc))
  = ge_scalar 5
      (rolling_sum 5 5
         (bools (map (fun v => fgt v f1_25)
                     (map TopDarkPools.a_Buy_Sell_Ratio
                          (List.filter
                             (fun r => String.eqb (TopDarkPools.a_Symbol r) k) acc))))).
Proof.
  unfold TopDarkPools.consistent_accumulation.
  set (kx := combine (map TopDarkPools.a_Symbol acc)
                     (map TopDarkPools.a_Buy_Sell_Ratio acc)).
  assert (Hk : map fst kx = map TopDarkPools.a_Symbol acc).
  { unfold kx. apply map_fst_combine. rewrite !length_map. reflexivity. }
  rewrite <- Hk. rewrite groupby_transform_group.
  - unfold kx. rewrite group_of_columns. reflexivity.
  - unfold rolling_sum.
    rewrite ge_scalar_length, rolling_length, bools_length, length_map. reflexivity.
Qed.

End GroupedFacts.

Section AccumulationAnalysisFacts.
Import Pandas Derive AccumulationAnalysis.

Lemma flag_columns data :
  map (fun r => Symbol (base r)) (flag data) = map Symbol data
  /\ map Accumulation (flag data) = map accumulating data
  /\ map Rolling_Accumulation (flag data)
     = groupby_transform (combine (map Symbol data) (map accumulating data)) rolling_flags false.
Proof.
  unfold flag.
  set (acc := map accumulating data).
  set (roll := groupby_transform (combine (map Symbol data) acc) rolling_flags false).
  set (five := groupby_transform (combine (map Symbol data) roll) tail_any false).
  assert (Hacc : length acc = length data) by apply length_map.
  assert (Hroll : length roll = length data).
  { unfold roll. rewrite groupby_transform_length, length_combine, length_map. lia. }
  assert (Hfive : length five = length data).
  { unfold five. rewrite groupby_transform_length, length_combine, length_map. lia. }
  rewrite zap_map, zap_map, zap_map.
  assert (H1 : length (combine data acc) = length data)
    by (rewrite length_combine; lia).
  assert (H2 : length (combine (combine data acc) roll) = length data)
    by (rewrite length_combine; lia).
  split; [|split].
  - rewrite map_map. simpl.
    rewrite <- (map_map (fun p => fst (fst (fst p))) Symbol).
    rewrite <- (map_map fst (fun p => fst (fst p))).
    rewrite map_fst_combine by lia.
    rewrite <- (map_map fst fst). rewrite map_fst_combine by lia.
    rewrite map_fst_combine by lia. reflexivity.
  - rewrite map_map. simpl.
    rewrite <- (map_map fst (fun p => snd (fst p))).
    rewrite map_fst_combine by lia.
    rewrite <- (map_map fst snd). rewrite map_fst_combine by lia.
    rewrite map_snd_combine by lia. reflexivity.
  - rewrite map_map. simpl.
    rewrite <- (map_map fst snd). rewrite map_fst_combine by lia.
    rewrite map_snd_combine by lia. reflexivity.
Qed.

(** The flags of the rows of symbol [k] are the rolling flags of the
    Accumulation column of the rows of symbol [k]. *)
Lemma accumulation_analysis_rolling_is_per_symbol data k :
  map Rolling_Accumulation
      (List.filter (fun r => String.eqb (Symbol (base r)) k) (flag data))
  = rolling_flags
      (map accumulating (List.filter (fun r => String.eqb (Symbol r) k) data)).
Proof.
  destruct (flag_columns data) as (Hs & _ & Hr).
  rewrite <- (group_of_columns (fun r => Symbol (base r)) Rolling_Accumulation k (flag data)).
  rewrite Hs, Hr.
  set (kx := combine (map Symbol data) (map accumulating data)).
  assert (Hk : map fst kx = map Symbol data).
  { unfold kx. apply map_fst_combine. rewrite !length_map. reflexivity. }
  rewrite <- Hk.
  rewrite groupby_transform_group by apply rolling_flags_length.
  unfold kx. rewrite group_of_columns. reflexivity.
Qed.

(** Two frames with the same rows of symbol [k] give the rows of [k] the
    same flags, whatever their other rows are. *)
Lemma accumulation_analysis_rolling_ignores_other_symbols data1 data2 k :
  List.filter (fun r => String.eqb (Symbol r) k) data1
  = List.filter (fun r => String.eqb (Symbol r) k) data2 ->
  map Rolling_Accumulation
      (List.filter (fun r => String.eqb (Symbol (base r)) k) (flag data1))
  = map Rolling_Accumulation
      (List.filter (fun r => String.eqb (Symbol (base r)) k) (flag data2)).
Proof.
  intros H. rewrite !accumulation_analysis_rolling_is_per_symbol, H. reflexivity.
Qed.

(** The flag is False on a row with fewer than five rows of its symbol up
    to and including itself. *)
Lemma accumulation_analysis_rolling_false_on_short_history data i r :
  nth_error (flag data) i = Some r ->
  (S (length (List.filter (fun r' => String.eqb (Symbol r') (Symbol (base r)))
                          (firstn i data))) < 5)%nat ->
  Rolling_Accumulation r = false.
Proof.
  intros Hi Hrank. destruct (flag_columns data) as (Hs & _ & Hr).
  assert (Hro : nth_error (map Rolling_Accumulation (flag data)) i
                = Some (Rolling_Accumulation r)).
  { rewrite nth_error_map, Hi. reflexivity. }
  assert (Hsy : nth_error (map Symbol data) i = Some (Symbol (base r))).
  { rewrite <- Hs, nth_error_map, Hi. reflexivity. }
  rewrite nth_error_map in Hsy.
  destruct (nth_error data i) as [b|] eqn:Hb; [|discriminate].
  injection Hsy as Hsy.
  rewrite Hr in Hro. apply (nth_error_nth _ _ false) in Hro. rewrite <- Hro.
  apply (grouped_rolling_false_on_short_history _ i (Symbol b) (accumulating b)).
  - apply nth_error_combine_map, Hb.
  - rewrite firstn_combine_map, group_of_columns, length_map, Hsy. exact Hrank.
Qed.

End AccumulationAnalysisFacts.

(** ** Filter Analysis *)

(** Filter Analysis sorts and does not truncate: its table is a
    rearrangement of the rows that pass its filters. *)
Lemma filter_analysis_not_truncated history_close min_volume price_threshold
      buy_sell_ratio dp_index buy_or_sell analysis_start_date data :
  Permutation
    (FilterAnalysis.pipeline history_close min_volume price_threshold buy_sell_ratio
                             dp_index buy_or_sell analysis_start_date data)
    (Derive.price_block history_close (fun r => Symbol (FilterAnalysis.base r))
       price_threshold
       (List.filter (FilterAnalysis.date_ok analysis_start_date)
          (List.filter (FilterAnalysis.dp_ok buy_or_sell dp_index)
             (List.filter (FilterAnalysis.ratio_ok buy_or_sell buy_sell_ratio)
                (List.filter (fun r => Derive.volume_ok min_volume (FilterAnalysis.base r))
                   data))))).
Proof. unfold FilterAnalysis.pipeline. apply sort_values_perm. Qed.

(** Filter Analysis carries the column Cumulative Buying, the sum of the
    Bought of a row and of the row above it in the loaded frame: the same
    two rows, with different sort keys, give different tables in the two
    input orders. *)
Lemma filter_analysis_depends_on_row_order :
  option_map Inputs.filter_cumulative
    (FilterAnalysis.run (Inputs.ladder_day 2) Inputs.quote10 EmptyString
                        Inputs.min_volume Inputs.price_threshold Derive.f1_25 50
                        FilterAnalysis.Buy (Inputs.jan 12) [Inputs.jan 12])
  = Some [("S0001"%string, of_int 4001000); ("S0000"%string, of_int 2000000)]
  /\ option_map Inputs.filter_cumulative
       (FilterAnalysis.run (Inputs.reversed (Inputs.ladder_day 2)) Inputs.quote10
                           EmptyString Inputs.min_volume Inputs.price_threshold
                           Derive.f1_25 50 FilterAnalysis.Buy (Inputs.jan 12)
                           [Inputs.jan 12])
     = Some [("S0001"%string, of_int 2001000); ("S0000"%string, of_int 4001000)].
Proof. split; vm_compute; reflexivity. Qed.

(** ** The cache and its dates *)

Section DateFormat.

Lemma digit_inj a b : (a < 10)%nat -> (b < 10)%nat -> digit a = digit b -> a = b.
Proof.
  unfold digit. intros Ha Hb H.
  rewrite !Nat.mod_small in H by assumption.
  apply (f_equal nat_of_ascii) in H.
  rewrite !nat_ascii_embedding in H; lia.
Qed.

Lemma digit_mod a : digit a = digit (a mod 10).
Proof. unfold digit. rewrite Nat.Div0.mod_mod. reflexivity. Qed.

Lemma digit_eq_mod a b : digit a = digit b -> (a mod 10 = b mod 10)%nat.
Proof.
  rewrite (digit_mod a), (digit_mod b).
  apply digit_inj; apply Nat.mod_upper_bound; lia.
Qed.

Lemma pad2_inj a b : (a < 100)%nat -> (b < 100)%nat -> pad2 a = pad2 b -> a = b.
Proof.
  unfold pad2. intros Ha Hb H.
  assert (Hd : digit (a / 10) = digit (b / 10) /\ digit a = digit b).
  { revert H. generalize (digit (a / 10)) (digit (b / 10)) (digit a) (digit b).
    intros c1 c2 c3 c4 H. injection H as -> ->. auto. }
  destruct Hd as [H1 H2]. apply digit_eq_mod in H1, H2.
  apply (f_equal Z.of_nat) in H1, H2.
  rewrite !Nat2Z.inj_mod in H1, H2. rewrite !Nat2Z.inj_div in H1.
  apply Nat2Z.inj. apply Nat2Z.inj_lt in Ha, Hb.
  change (Z.of_nat 10) with 10 in *. change (Z.of_nat 100) with 100 in *.
  Z.to_euclidean_division_equations. lia.
Qed.

Lemma pad4_inj a b :
  (a < 100 * 100)%nat -> (b < 100 * 100)%nat -> pad4 a = pad4 b -> a = b.
Proof.
  unfold pad4, pad2. intros Ha Hb H.
  assert (Hd : (digit (a / 1000) = digit (b / 1000) /\ digit (a / 100) = digit (b / 100))
               /\ (digit (a / 10) = digit (b / 10) /\ digit a = digit b)).
  { revert H.
    generalize (digit (a / 1000)) (digit (b / 1000)) (digit (a / 100)) (digit (b / 100))
               (digit (a / 10)) (digit (b / 10)) (digit a) (digit b).
    intros c1 c2 c3 c4 c5 c6 c7 c8 H. injection H as -> -> -> ->. auto. }
  destruct Hd as [[H1 H2] [H3 H4]]. apply digit_eq_mod in H1, H2, H3, H4.
  apply (f_equal Z.of_nat) in H1, H2, H3, H4.
  rewrite !Nat2Z.inj_mod in H1, H2, H3, H4.
  rewrite !Nat2Z.inj_div in H1, H2, H3.
  apply Nat2Z.inj. apply Nat2Z.inj_lt in Ha, Hb.
  rewrite Nat2Z.inj_mul in Ha, Hb.
  change (Z.of_nat 10) with 10 in *. change (Z.of_nat 100) with 100 in *.
  replace (Z.of_nat 1000) with 1000 in * by reflexivity.
  Z.to_euclidean_division_equations. lia.
Qed.

Lemma append_inj_l (s1 s2 t1 t2 : string) :
  String.length s1 = String.length s2 ->
  (s1 ++ t1 = s2 ++ t2)%string -> s1 = s2 /\ t1 = t2.
Proof.
  revert s2. induction s1 as [|c s1 IH]; intros [|c2 s2] Hl H; simpl in *;
    try discriminate.
  - auto.
  - injection H as -> H. injection Hl as Hl.
    destruct (IH _ Hl H) as [-> ->]. auto.
Qed.

(** Two dates with the same [%Y%m%d] image are the same date, for years of
    at most four digits and months and days of at most two. *)
Lemma strftime_Ymd_inj d1 d2 :
  (year d1 < 100 * 100)%nat -> (month d1 < 100)%nat -> (day d1 < 100)%nat ->
  (year d2 < 100 * 100)%nat -> (month d2 < 100)%nat -> (day d2 < 100)%nat ->
  strftime_Ymd d1 = strftime_Ymd d2 -> d1 = d2.
Proof.
  destruct d1 as [y1 m1 dd1], d2 as [y2 m2 dd2]. unfold strftime_Ymd. simpl year.
  simpl month. simpl day. intros Hy1 Hm1 Hd1 Hy2 Hm2 Hd2 H.
  apply append_inj_l in H as [Hy H]; [|reflexivity].
  apply append_inj_l in H as [Hm Hd]; [|reflexivity].
  apply pad4_inj in Hy; try assumption.
  apply pad2_inj in Hm; try assumption.
  apply pad2_inj in Hd; try assumption.
  subst. reflexivity.
Qed.

End DateFormat.

Section DateOrder.

Lemma valid_date_bounds d :
  valid_date d ->
  (year d < 100 * 100)%nat /\ (month d < 100)%nat /\ (day d < 100)%nat.
Proof. unfold valid_date. intros (Hy & Hm & Hd). repeat split; lia. Qed.

Lemma digit_compare a b :
  (a < 10)%nat -> (b < 10)%nat -> Ascii.compare (digit a) (digit b) = Nat.compare a b.
Proof.
  intros Ha Hb. unfold Ascii.compare, digit.
  rewrite !Nat.mod_small by assumption.
  unfold ascii_of_nat. rewrite !N_ascii_embedding by lia.
  rewrite <- Nat2N.inj_compare.
  destruct (Nat.compare_spec (48 + a) (48 + b)), (Nat.compare_spec a b);
    try reflexivity; lia.
Qed.

Lemma compare_app (s1 s2 t1 t2 : string) :
  String.length s1 = String.length s2 ->
  String.compare (s1 ++ t1) (s2 ++ t2)
  = match String.compare s1 s2 with Eq => String.compare t1 t2 | c => c end.
Proof.
  revert s2. induction s1 as [|c s1 IH]; intros [|c2 s2] Hl; simpl in *;
    try discriminate; [reflexivity|].
  injection Hl as Hl. destruct (Ascii.compare c c2); try reflexivity. apply IH, Hl.
Qed.

Lemma pad2_compare a b :
  (a < 100)%nat -> (b < 100)%nat -> String.compare (pad2 a) (pad2 b) = Nat.compare a b.
Proof.
  intros Ha Hb. unfold pad2.
  rewrite (digit_mod a), (digit_mod b).
  assert (Hqa : (a / 10 < 10)%nat) by (apply Nat.Div0.div_lt_upper_bound; lia).
  assert (Hqb : (b / 10 < 10)%nat) by (apply Nat.Div0.div_lt_upper_bound; lia).
  pose proof (Nat.mod_upper_bound a 10 ltac:(lia)) as Hra.
  pose proof (Nat.mod_upper_bound b 10 ltac:(lia)) as Hrb.
  pose proof (Nat.div_mod_eq a 10) as Ea. pose proof (Nat.div_mod_eq b 10) as Eb.
  revert Ea Eb Hqa Hqb Hra Hrb.
  generalize (a / 10)%nat (b / 10)%nat (a mod 10)%nat (b mod 10)%nat.
  intros qa qb ra rb Ea Eb Hqa Hqb Hra Hrb.
  cbn [String.compare]. rewrite !digit_compare by assumption.
  destruct (Nat.compare_spec qa qb), (Nat.compare_spec ra rb), (Nat.compare_spec a b);
    try reflexivity; lia.
Qed.

Lemma pad4_split n : pad4 n = (pad2 (n / 100) ++ pad2 (n mod 100))%string.
Proof.
  unfold pad4, pad2. cbn [String.append].
  assert (H1 : digit (n / 1000) = digit (n / 100 / 10)).
  { rewrite Nat.Div0.div_div. reflexivity. }
  assert (H2 : digit (n / 10) = digit (n mod 100 / 10)).
  { rewrite (digit_mod (n / 10)), (digit_mod (n mod 100 / 10)). f_equal.
    apply Nat2Z.inj. rewrite !Nat2Z.inj_mod, !Nat2Z.inj_div, Nat2Z.inj_mod.
    change (Z.of_nat 10) with 10. change (Z.of_nat 100) with 100.
    Z.to_euclidean_division_equations. lia. }
  assert (H3 : digit n = digit (n mod 100)).
  { rewrite (digit_mod n), (digit_mod (n mod 100)). f_equal.
    apply Nat2Z.inj. rewrite !Nat2Z.inj_mod.
    change (Z.of_nat 10) with 10. change (Z.of_nat 100) with 100.
    Z.to_euclidean_division_equations. lia. }
  rewrite H1, H2, H3. reflexivity.
Qed.

Lemma pad4_compare a b :
  (a < 100 * 100)%nat -> (b < 100 * 100)%nat ->
  String.compare (pad4 a) (pad4 b) = Nat.compare a b.
Proof.
  intros Ha Hb. rewrite !pad4_split, compare_app by reflexivity.
  assert (Hqa : (a / 100 < 100)%nat) by (apply Nat.Div0.div_lt_upper_bound; lia).
  assert (Hqb : (b / 100 < 100)%nat) by (apply Nat.Div0.div_lt_upper_bound; lia).
  pose proof (Nat.mod_upper_bound a 100 ltac:(lia)) as Hra.
  pose proof (Nat.mod_upper_bound b 100 ltac:(lia)) as Hrb.
  rewrite !pad2_compare by assumption.
  pose proof (Nat.div_mod_eq a 100) as Ea. pose proof (Nat.div_mod_eq b 100) as Eb.
  destruct (Nat.compare_spec (a / 100) (b / 100)),
    (Nat.compare_spec (a mod 100) (b mod 100)), (Nat.compare_spec a b);
    try reflexivity; lia.
Qed.

(** On valid dates the formatted strings compare as the dates do. *)
Lemma strftime_iso_compare d1 d2 :
  valid_date d1 -> valid_date d2 ->
  String.compare (strftime_iso d1) (strftime_iso d2) = date_compare d1 d2.
Proof.
  intros H1 H2.
  apply valid_date_bounds in H1 as (Hy1 & Hm1 & Hd1).
  apply valid_date_bounds in H2 as (Hy2 & Hm2 & Hd2).
  unfold strftime_iso, date_compare.
  rewrite compare_app by reflexivity. rewrite pad4_compare by assumption.
  destruct (Nat.compare (year d1) (year d2)); try reflexivity.
  rewrite (compare_app "-" "-") by reflexivity. cbn [String.compare Ascii.compare].
  change (N_of_ascii "-" ?= N_of_ascii "-")%N with Eq. cbv iota.
  rewrite compare_app by reflexivity. rewrite pad2_compare by assumption.
  destruct (Nat.compare (month d1) (month d2)); try reflexivity.
  rewrite (compare_app "-" "-") by reflexivity. cbn [String.compare Ascii.compare].
  change (N_of_ascii "-" ?= N_of_ascii "-")%N with Eq. cbv iota.
  apply pad2_compare; assumption.
Qed.

Lemma date_compare_antisym d1 d2 :
  date_compare d2 d1 = CompOpp (date_compare d1 d2).
Proof.
  unfold date_compare.
  rewrite (Nat.compare_antisym (year d1) (year d2)),
    (Nat.compare_antisym (month d1) (month d2)),
    (Nat.compare_antisym (day d1) (day d2)).
  destruct (Nat.compare (year d1) (year d2)); try reflexivity.
  destruct (Nat.compare (month d1) (month d2)); reflexivity.
Qed.

End DateOrder.

Section CachePaths.
Import Cache.

Lemma append_inj_r (s t1 t2 : string) : (s ++ t1 = s ++ t2)%string -> t1 = t2.
Proof. induction s as [|c s IH]; simpl; intros H; [exact H|]. injection H as H. auto. Qed.

Lemma strftime_Ymd_length d : String.length (strftime_Ymd d) = 8%nat.
Proof. reflexivity. Qed.

(** Valid dates have different cache files. *)
Lemma file_path_inj d1 d2 :
  valid_date d1 -> valid_date d2 -> file_path d1 = file_path d2 -> d1 = d2.
Proof.
  intros H1 H2 H. unfold file_path, filename in H.
  apply append_inj_r in H. apply append_inj_r in H. apply append_inj_r in H.
  apply append_inj_l in H as [H _]; [|rewrite !strftime_Ymd_length; reflexivity].
  apply valid_date_bounds in H1 as (? & ? & ?).
  apply valid_date_bounds in H2 as (? & ? & ?).
  apply strftime_Ymd_inj; assumption.
Qed.

Lemma download_other_path {DataFrame : Type} (read_csv : string -> result DataFrame)
      server d w p :
  p <> file_path d ->
  files (snd (download_finra_data read_csv server d w)) !! p = files w !! p.
Proof.
  intros Hp. unfold download_finra_data.
  destruct (files w !! file_path d); [reflexivity|].
  destruct (server _ _) as [|code text]; [reflexivity|].
  destruct (raise_for_status code); [reflexivity|].
  destruct (read_csv text); simpl; apply lookup_insert_ne; congruence.
Qed.

End CachePaths.

(** X1.  Once a download has stored a payload, the next call for the same
    date gives the same result without a request, whatever the server
    would answer by then: the result of the second call, and the world
    after it, are those of the first. *)
Theorem download_twice {DataFrame : Type}
        (read_csv : string -> Cache.result DataFrame)
        (server server' : nat -> string -> Cache.response) d w status_code text :
  Cache.files w !! Cache.file_path d = None ->
  server (length (Cache.requests w)) (Cache.url d) = Cache.Response status_code text ->
  Cache.raise_for_status status_code = false ->
  let first := Cache.download_finra_data read_csv server d w in
  let second := Cache.download_finra_data read_csv server' d (snd first) in
  Cache.files (snd first) !! Cache.file_path d = Some text
  /\ fst second = fst first
  /\ snd second = snd first.
Proof.
  intros Hmiss Hans Hst. cbv zeta.
  assert (H1 : Cache.download_finra_data read_csv server d w
               = (match read_csv text with
                  | Cache.Ok df => Cache.Ok (Some df)
                  | Cache.Raise e => Cache.Raise e
                  end,
                  Cache.mkworld (<[Cache.file_path d := text]> (Cache.files w))
                                (Cache.requests w ++ [Cache.url d]))).
  { unfold Cache.download_finra_data. rewrite Hmiss, Hans, Hst.
    destruct (read_csv text); reflexivity. }
  rewrite H1. simpl fst. simpl snd.
  unfold Cache.download_finra_data. simpl Cache.files.
  rewrite lookup_insert_eq. repeat split; reflexivity.
Qed.

Lemma download_twice_witness :
  let first := Cache.download_finra_data Cache.read_csv_pipe
                 (fun _ _ => Cache.Response 200 Inputs.payload) (Inputs.jan 12)
                 Inputs.world0 in
  let second := Cache.download_finra_data Cache.read_csv_pipe
                  (fun _ _ => Cache.RequestException) (Inputs.jan 12) (snd first) in
  Cache.files (snd first) !! Cache.file_path (Inputs.jan 12) = Some Inputs.payload
  /\ fst second = fst first
  /\ snd second = snd first.
Proof.
  apply (download_twice Cache.read_csv_pipe
           (fun _ _ => Cache.Response 200 Inputs.payload)
           (fun _ _ => Cache.RequestException) (Inputs.jan 12) Inputs.world0
           200 Inputs.payload); reflexivity.
Defined.

(** X2.  A download for one date leaves the cache entry of every other
    valid date as it was, present or absent: distinct dates have distinct
    cache files and the function writes no file but its own. *)
Theorem download_keeps_other_dates {DataFrame : Type}
        (read_csv : string -> Cache.result DataFrame)
        (server : nat -> string -> Cache.response) d d' w :
  valid_date d -> valid_date d' -> d <> d' ->
  Cache.file_path d <> Cache.file_path d'
  /\ Cache.files (snd (Cache.download_finra_data read_csv server d w))
     !! Cache.file_path d'
     = Cache.files w !! Cache.file_path d'.
Proof.
  intros Hd Hd' Hne.
  assert (Hp : Cache.file_path d <> Cache.file_path d').
  { intros H. apply Hne. apply file_path_inj; assumption. }
  split; [exact Hp|]. apply download_other_path. congruence.
Qed.

Lemma download_keeps_other_dates_witness :
  Cache.file_path (Inputs.jan 12) <> Cache.file_path (Inputs.jan 11)
  /\ Cache.files
       (snd (Cache.download_finra_data Cache.read_csv_pipe
               (fun _ _ => Cache.Response 200 Inputs.payload) (Inputs.jan 12)
               Inputs.world0))
     !! Cache.file_path (Inputs.jan 11)
     = Cache.files Inputs.world0 !! Cache.file_path (Inputs.jan 11).
Proof.
  apply (download_keeps_other_dates Cache.read_csv_pipe
           (fun _ _ => Cache.Response 200 Inputs.payload)
           (Inputs.jan 12) (Inputs.jan 11) Inputs.world0).
  - unfold valid_date. simpl. lia.
  - unfold valid_date. simpl. lia.
  - discriminate.
Defined.

(** X3.  On valid dates the date filters, which compare formatted strings,
    follow the calendar: Filter Analysis and Accumulation Analysis keep a
    row exactly when its date is on or after the start date, the
    Accumulation tab exactly when its date is after the start date. *)
Theorem date_filters_follow_the_calendar start :
  valid_date start ->
  (forall r, valid_date (Date (FilterAnalysis.base r)) ->
             FilterAnalysis.date_ok start r
             = date_leb start (Date (FilterAnalysis.base r)))
  /\ (forall r, valid_date (Date (AccumulationAnalysis.base r)) ->
                AccumulationAnalysis.date_ok start r
                = date_leb start (Date (AccumulationAnalysis.base r)))
  /\ (forall r, valid_date (Date (Accumulation.base r)) ->
                Accumulation.date_ok start r
                = negb (date_leb (Date (Accumulation.base r)) start)).
Proof.
  intros Hs. split; [|split]; intros r Hr.
  - unfold FilterAnalysis.date_ok, Date_str, str_ge, String.leb, date_leb.
    rewrite strftime_iso_compare by assumption. reflexivity.
  - unfold AccumulationAnalysis.date_ok, Date_str, str_ge, String.leb, date_leb.
    rewrite strftime_iso_compare by assumption. reflexivity.
  - unfold Accumulation.date_ok, Date_str, str_gt, String.ltb, date_leb.
    rewrite strftime_iso_compare by assumption.
    pose proof (date_compare_antisym start (Date (Accumulation.base r))) as Ha.
    rewrite Ha. destruct (date_compare start _); reflexivity.
Qed.

Lemma date_filters_follow_the_calendar_witness :
  (forall r, valid_date (Date (FilterAnalysis.base r)) ->
             FilterAnalysis.date_ok (Inputs.jan 10) r
             = date_leb (Inputs.jan 10) (Date (FilterAnalysis.base r)))
  /\ (forall r, valid_date (Date (AccumulationAnalysis.base r)) ->
                AccumulationAnalysis.date_ok (Inputs.jan 10) r
                = date_leb (Inputs.jan 10) (Date (AccumulationAnalysis.base r)))
  /\ (forall r, valid_date (Date (Accumulation.base r)) ->
                Accumulation.date_ok (Inputs.jan 10) r
                = negb (date_leb (Date (Accumulation.base r)) (Inputs.jan 10))).
Proof.
  apply (date_filters_follow_the_calendar (Inputs.jan 10)).
  unfold valid_date. simpl. lia.
Defined.

(** ** Closing prices *)

Section PriceFacts.
Import Pandas Derive.

(** The accumulator version of the loop of [fetch_closing_prices]. *)
Lemma fetch_fold hc symbols : forall (prices : gmap string float64) s,
  fold_left (fun prices symbol =>
               match hc symbol with
               | Some close => <[symbol := close]> prices
               | None => prices
               end) symbols prices !! s
  = if existsb (String.eqb s) symbols
    then match hc s with Some close => Some close | None => prices !! s end
    else prices !! s.
Proof.
  induction symbols as [|x symbols IH]; intros prices s; [reflexivity|].
  cbn [fold_left existsb]. rewrite IH.
  destruct (String.eqb_spec s x) as [->|Hne]; cbn [orb].
  - destruct (hc x) as [close|] eqn:Hx.
    + destruct (existsb _ symbols); [reflexivity|]. apply lookup_insert_eq.
    + destruct (existsb _ symbols); reflexivity.
  - destruct (existsb _ symbols); [|destruct (hc x)]; try reflexivity.
    + destruct (hc s); [reflexivity|]. destruct (hc x); [|reflexivity].
      apply lookup_insert_ne. congruence.
    + apply lookup_insert_ne. congruence.
Qed.

Lemma fetch_lookup hc symbols s :
  fetch_closing_prices hc symbols !! s
  = if existsb (String.eqb s) symbols then hc s else None.
Proof.
  unfold fetch_closing_prices. rewrite fetch_fold, lookup_empty.
  destruct (existsb _ symbols); [|reflexivity]. destruct (hc s); reflexivity.
Qed.

Lemma unique_in l x : In x (unique l) <-> In x l.
Proof.
  induction l as [|a l IH]; [reflexivity|]. cbn [unique].
  split.
  - intros [->|H]; [left; reflexivity|].
    apply filter_In in H as [H _]. right. apply IH, H.
  - intros [->|H]; [left; reflexivity|].
    destruct (String.eqb_spec x a) as [->|Hne]; [left; reflexivity|].
    right. apply filter_In. split; [apply IH, H|].
    apply negb_true_iff, String.eqb_neq, Hne.
Qed.

Lemma unique_nodup l : List.NoDup (unique l).
Proof.
  induction l as [|a l IH]; cbn [unique]; constructor.
  - intros H. apply filter_In in H as [_ H].
    rewrite String.eqb_refl in H. discriminate.
  - apply List.NoDup_filter, IH.
Qed.

Lemma existsb_eqb_in s l : In s l -> existsb (String.eqb s) l = true.
Proof.
  intros H. apply existsb_exists. exists s. split; [exact H|apply String.eqb_refl].
Qed.

Lemma assign_map {A B C : Type} (f : A -> B -> C) (g : A -> B) data :
  assign f data (map g data) = map (fun x => f x (g x)) data.
Proof.
  unfold assign. induction data as [|x data IH]; simpl; [reflexivity|].
  rewrite IH. reflexivity.
Qed.

Lemma add_closing_price_map {A : Type} hc (symbol : A -> string) data :
  add_closing_price hc symbol data
  = map (fun x => mkpriced x (quote_of hc (symbol x))) data.
Proof.
  unfold add_closing_price, map_dict. rewrite map_map, assign_map.
  apply map_ext_in. intros x Hx. f_equal. unfold quote_of.
  rewrite fetch_lookup, existsb_eqb_in; [reflexivity|].
  apply unique_in. apply in_map. exact Hx.
Qed.

Lemma price_block_map {A : Type} hc (symbol : A -> string) thr data :
  price_block hc symbol thr data
  = map (fun x => mkpriced x (quote_of hc (symbol x)))
        (List.filter (fun x => fgt (quote_of hc (symbol x)) thr) data).
Proof.
  unfold price_block. rewrite add_closing_price_map, filter_map_swap. reflexivity.
Qed.

End PriceFacts.

(** ** Orders on strings and dates; group keys *)

Section StringOrder.

Lemma ascii_compare_lt_trans a b c :
  Ascii.compare a b = Lt -> Ascii.compare b c = Lt -> Ascii.compare a c = Lt.
Proof.
  unfold Ascii.compare. rewrite !N.compare_lt_iff. apply N.lt_trans.
Qed.

Lemma ascii_compare_eq a b : Ascii.compare a b = Eq -> a = b.
Proof.
  unfold Ascii.compare. intros H. apply N.compare_eq in H.
  rewrite <- (ascii_N_embedding a), <- (ascii_N_embedding b), H. reflexivity.
Qed.

Lemma string_compare_lt_trans x : forall y z,
  String.compare x y = Lt -> String.compare y z = Lt -> String.compare x z = Lt.
Proof.
  induction x as [|a x IH]; intros [|b y] [|c z]; simpl; try discriminate; auto.
  destruct (Ascii.compare a b) eqn:Eab; try discriminate.
  - apply ascii_compare_eq in Eab. subst b.
    destruct (Ascii.compare a c); try discriminate; auto. apply IH.
  - destruct (Ascii.compare b c) eqn:Ebc; try discriminate.
    + apply ascii_compare_eq in Ebc. subst c. rewrite Eab. auto.
    + rewrite (ascii_compare_lt_trans _ _ _ Eab Ebc). auto.
Qed.

End StringOrder.

Section MoreOrders.
Import Pandas.

Lemma total_order_desc_str : total_order desc_str.
Proof.
  split; unfold desc_str.
  - intros x y. apply String.compare_antisym.
  - intros x y z Hxy Hyz. eapply string_compare_lt_trans; eassumption.
  - intros x y z Hxy. apply String.compare_eq_iff in Hxy. subst. reflexivity.
Qed.

Lemma date_compare_eq d1 d2 : date_compare d1 d2 = Eq -> d1 = d2.
Proof.
  destruct d1 as [y1 m1 a1], d2 as [y2 m2 a2]. unfold date_compare. simpl.
  destruct (Nat.compare_spec y1 y2); try discriminate.
  destruct (Nat.compare_spec m1 m2); try discriminate.
  destruct (Nat.compare_spec a1 a2); try discriminate.
  intros _. subst. reflexivity.
Qed.

Lemma date_compare_lt_trans d1 d2 d3 :
  date_compare d1 d2 = Lt -> date_compare d2 d3 = Lt -> date_compare d1 d3 = Lt.
Proof.
  destruct d1 as [y1 m1 a1], d2 as [y2 m2 a2], d3 as [y3 m3 a3].
  unfold date_compare. simpl.
  destruct (Nat.compare_spec y1 y2), (Nat.compare_spec y2 y3), (Nat.compare_spec y1 y3);
    try discriminate; try lia; auto;
  destruct (Nat.compare_spec m1 m2), (Nat.compare_spec m2 m3), (Nat.compare_spec m1 m3);
    try discriminate; try lia; auto;
  destruct (Nat.compare_spec a1 a2), (Nat.compare_spec a2 a3), (Nat.compare_spec a1 a3);
    try discriminate; try lia; auto.
Qed.

Lemma total_order_desc_date : total_order desc_date.
Proof.
  split; unfold desc_date.
  - intros x y. apply date_compare_antisym.
  - intros x y z Hxy Hyz. eapply date_compare_lt_trans; eassumption.
  - intros x y z Hxy. apply date_compare_eq in Hxy. subst. reflexivity.
Qed.

End MoreOrders.

Lemma in_firstn {A : Type} n (l : list A) x : In x (firstn n l) -> In x l.
Proof.
  intros H. rewrite <- (firstn_skipn n l). apply in_or_app. left. exact H.
Qed.

Section SortedLists.
Context {A : Type} (R : A -> A -> Prop).

Lemma strongly_sorted_firstn n : forall l,
  StronglySorted R l -> StronglySorted R (firstn n l).
Proof.
  induction n as [|n IH]; intros l Hl; [constructor|].
  destruct l as [|x l]; [constructor|]. inversion Hl as [|? ? Hs Hx]; subst.
  cbn [firstn]. constructor; [apply IH, Hs|].
  rewrite List.Forall_forall in *. intros y Hy. apply Hx.
  apply in_firstn in Hy. exact Hy.
Qed.

Lemma strongly_sorted_filter (p : A -> bool) l :
  StronglySorted R l -> StronglySorted R (List.filter p l).
Proof.
  induction 1 as [|x l Hs IH Hx]; [constructor|]. cbn [List.filter].
  destruct (p x); [|exact IH]. constructor; [exact IH|].
  rewrite List.Forall_forall in *. intros y Hy. apply Hx.
  apply filter_In in Hy as [Hy _]. exact Hy.
Qed.

Lemma strongly_sorted_map {B : Type} (f : B -> A) l :
  StronglySorted (fun x y => R (f x) (f y)) l -> StronglySorted R (map f l).
Proof.
  induction 1 as [|x l Hs IH Hx]; [constructor|]. cbn [map].
  constructor; [exact IH|]. rewrite List.Forall_forall in *.
  intros y Hy. apply in_map_iff in Hy as [z [<- Hz]]. apply Hx, Hz.
Qed.

Lemma strongly_sorted_unmap {B : Type} (f : B -> A) l :
  StronglySorted R (map f l) -> StronglySorted (fun x y => R (f x) (f y)) l.
Proof.
  induction l as [|x l IH]; [constructor|]. cbn [map]. intros H.
  inversion H as [|? ? Hs Hx]; subst. constructor; [apply IH, Hs|].
  rewrite List.Forall_forall in *. intros y Hy. apply Hx, in_map, Hy.
Qed.

End SortedLists.

Section GroupKeys.
Import Pandas.

Lemma insert_key_in k ks x :
  In x (insert_key String.compare k ks) -> x = k \/ In x ks.
Proof.
  induction ks as [|k' ks IH]; simpl.
  - intros [<-|[]]. auto.
  - destruct (String.compare k k'); simpl.
    + auto.
    + intros [<-|H]; auto.
    + intros [<-|H]; auto. destruct (IH H); auto.
Qed.

Lemma insert_key_sorted k ks :
  StronglySorted (fun a b => String.compare a b = Lt) ks ->
  StronglySorted (fun a b => String.compare a b = Lt) (insert_key String.compare k ks).
Proof.
  induction 1 as [|k' ks Hs IH Hk]; simpl; [repeat constructor|].
  destruct (String.compare k k') eqn:E.
  - constructor; assumption.
  - constructor; [constructor; assumption|].
    constructor; [exact E|]. rewrite List.Forall_forall in *.
    intros x Hx. eapply string_compare_lt_trans; [exact E|apply Hk, Hx].
  - constructor; [exact IH|]. rewrite List.Forall_forall in *.
    intros x Hx. apply insert_key_in in Hx as [->|Hx]; [|apply Hk, Hx].
    rewrite String.compare_antisym, E. reflexivity.
Qed.

Lemma group_keys_sorted ks :
  StronglySorted (fun a b => String.compare a b = Lt) (group_keys String.compare ks).
Proof.
  unfold group_keys.
  assert (H : forall acc,
             StronglySorted (fun a b => String.compare a b = Lt) acc ->
             StronglySorted (fun a b => String.compare a b = Lt)
               (fold_left (fun acc k => insert_key String.compare k acc) ks acc)).
  { induction ks as [|k ks IH]; intros acc Hacc; simpl; [exact Hacc|].
    apply IH, insert_key_sorted, Hacc. }
  apply H. constructor.
Qed.

Lemma strictly_sorted_nodup l :
  StronglySorted (fun a b => String.compare a b = Lt) l -> List.NoDup l.
Proof.
  induction 1 as [|x l Hs IH Hx]; constructor; [|exact IH].
  intros Hin. rewrite List.Forall_forall in Hx. specialize (Hx x Hin).
  rewrite string_compare_refl in Hx. discriminate.
Qed.

Lemma group_keys_nodup ks : List.NoDup (group_keys String.compare ks).
Proof. apply strictly_sorted_nodup, group_keys_sorted. Qed.

(** The keys of the groups are the keys of the rows. *)
Lemma insert_key_in_iff k ks x :
  In x (insert_key String.compare k ks) <-> x = k \/ In x ks.
Proof.
  split; [apply insert_key_in|].
  induction ks as [|k' ks IH]; simpl.
  - intros [->|[]]. auto.
  - destruct (String.compare k k') eqn:E; simpl.
    + apply String.compare_eq_iff in E. subst k'. intros [->|[->|H]]; auto.
    + intros [->|[->|H]]; auto.
    + intros [->|[->|H]]; auto.
Qed.

Lemma group_keys_in ks x : In x (group_keys String.compare ks) <-> In x ks.
Proof.
  unfold group_keys.
  assert (H : forall acc,
             In x (fold_left (fun acc k => insert_key String.compare k acc) ks acc)
             <-> In x ks \/ In x acc).
  { induction ks as [|k ks IH]; intros acc; simpl; [tauto|].
    rewrite IH, insert_key_in_iff. split; intros; intuition (subst; auto). }
  rewrite H. simpl. tauto.
Qed.

End GroupKeys.

Section NoDupFacts.
Context {A B : Type} (f : A -> B).

Lemma nodup_firstn n (l : list B) : List.NoDup l -> List.NoDup (firstn n l).
Proof.
  revert l. induction n as [|n IH]; intros l Hl; [constructor|].
  destruct l as [|x l]; [constructor|]. inversion Hl; subst. cbn [firstn].
  constructor; [|apply IH; assumption].
  intros Hin. apply in_firstn in Hin. contradiction.
Qed.

Lemma nodup_map_filter (p : A -> bool) l :
  List.NoDup (map f l) -> List.NoDup (map f (List.filter p l)).
Proof.
  induction l as [|x l IH]; simpl; [auto|]. intros H. inversion H; subst.
  destruct (p x); simpl; [|auto]. constructor; [|auto].
  intros Hin. apply in_map_iff in Hin as [y [Hy Hin]].
  apply filter_In in Hin as [Hin _]. apply H2. rewrite <- Hy. apply in_map, Hin.
Qed.

End NoDupFacts.

(** ** The tables of the tabs *)

(** X4.  The dict that [fetch_closing_prices] returns holds, for every
    symbol it was given, the close that the price history gives for it,
    and nothing else: a symbol whose history is empty or whose lookup
    fails has no entry, and neither has a symbol that was not asked for. *)
Theorem closing_prices_dict history_close symbols s :
  (In s symbols ->
   Derive.fetch_closing_prices history_close symbols !! s = history_close s)
  /\ (~ In s symbols ->
      Derive.fetch_closing_prices history_close symbols !! s = None).
Proof.
  rewrite fetch_lookup. split; intros H.
  - rewrite existsb_eqb_in by exact H. reflexivity.
  - destruct (existsb (String.eqb s) symbols) eqn:E; [|reflexivity].
    apply existsb_exists in E as [x [Hx Hs]]. apply String.eqb_eq in Hs. subst x.
    contradiction.
Qed.

Lemma closing_prices_dict_witness :
  Derive.fetch_closing_prices Inputs.quote_but_top ["AAA"; "BBB"]%string !! "AAA"%string
  = Inputs.quote_but_top "AAA"%string
  /\ Derive.fetch_closing_prices Inputs.quote_but_top ["AAA"; "BBB"]%string !! "CCC"%string
     = None.
Proof.
  split.
  - apply (proj1 (closing_prices_dict Inputs.quote_but_top ["AAA"; "BBB"]%string
                                      "AAA"%string)).
    left. reflexivity.
  - apply (proj2 (closing_prices_dict Inputs.quote_but_top ["AAA"; "BBB"]%string
                                      "CCC"%string)).
    intros [H|[H|[]]]; discriminate.
Defined.

(** X5.  The price block of a tab keeps the rows in order and decides row
    by row: a row stays exactly when the price history has a close for
    its symbol and that close is above the threshold, and it then carries
    that close.  A symbol without a quote, and a close that is NaN, drop
    the row. *)
Theorem price_block_row_by_row {A : Type} history_close (symbol : A -> string)
        price_threshold data :
  Derive.price_block history_close symbol price_threshold data
  = map (fun x => mkpriced x (match history_close (symbol x) with
                              | Some close => close
                              | None => NaN
                              end))
        (List.filter
           (fun x => match history_close (symbol x) with
                     | Some close => fgt close price_threshold
                     | None => false
                     end)
           data).
Proof.
  rewrite price_block_map. unfold Derive.quote_of. f_equal.
  apply filter_ext. intros x. destruct (history_close (symbol x)); reflexivity.
Qed.

Section TableFacts.
Import Pandas Derive.

Lemma price_block_row_by_row_aux {A : Type} history_close (symbol : A -> string)
      price_threshold data :
  price_block history_close symbol price_threshold data
  = map (fun x => mkpriced x (match history_close (symbol x) with
                              | Some close => close
                              | None => NaN
                              end))
        (List.filter
           (fun x => match history_close (symbol x) with
                     | Some close => fgt close price_threshold
                     | None => false
                     end)
           data).
Proof.
  rewrite price_block_map. unfold Derive.quote_of. f_equal.
  apply filter_ext. intros x. destruct (history_close (symbol x)); reflexivity.
Qed.

Lemma head_all {A : Type} n (l : list A) : length (head n l) = Nat.min n (length l).
Proof. apply length_firstn. Qed.

Lemma in_sort_values {A : Type} (by_ : list (order A)) data x :
  In x (sort_values by_ data) <-> In x data.
Proof.
  split; intros H.
  - eapply Permutation_in; [apply sort_values_perm|exact H].
  - eapply Permutation_in; [symmetry; apply sort_values_perm|exact H].
Qed.

Lemma sort_values_length {A : Type} (by_ : list (order A)) data :
  length (sort_values by_ data) = length data.
Proof. apply Permutation_length, sort_values_perm. Qed.

Lemma total_order_buy_signal_keys : Forall total_order BuySignal.keys.
Proof.
  repeat constructor; apply total_order_by_col;
    first [apply total_order_desc_float | apply total_order_desc_int].
Qed.

Lemma total_order_accumulation_keys : Forall total_order Accumulation.keys.
Proof.
  repeat constructor; apply total_order_by_col;
    first [apply total_order_desc_float | apply total_order_desc_int
          | apply total_order_desc_str].
Qed.

Lemma total_order_filter_keys side : Forall total_order (FilterAnalysis.keys side).
Proof.
  destruct side; repeat constructor; apply total_order_by_col;
    first [apply total_order_desc_float | apply total_order_desc_int
          | apply total_order_desc_str].
Qed.

End TableFacts.

(** X6.  Every table that a tab sorts is in the order of its keys when it
    is displayed: each row is placed before, or ties with, every row below
    it.  This holds for the tabs that truncate after the sort and for
    Volume Buy, Volume Sell and Top Dark Pools, which filter by price
    after it. *)
Theorem tables_are_ranked :
  (forall data,
      StronglySorted
        (Pandas.not_after
           (Pandas.lexi [Pandas.by_col (fun r => Date (TickerAnalysis.base r))
                                       Pandas.desc_date]))
        (TickerAnalysis.table data))
  /\ (forall history_close min_volume price_threshold daily_data,
         StronglySorted
           (fun x y => Pandas.not_after (Pandas.lexi VolumeAnalysis.buy_keys)
                                        (item x) (item y))
           (VolumeAnalysis.buy_pipeline history_close min_volume price_threshold
                                        daily_data))
  /\ (forall history_close min_volume price_threshold daily_data,
         StronglySorted
           (fun x y => Pandas.not_after (Pandas.lexi VolumeAnalysis.sell_keys)
                                        (item x) (item y))
           (VolumeAnalysis.sell_pipeline history_close min_volume price_threshold
                                         daily_data))
  /\ (forall history_close price_threshold analysis_end_date pools,
         StronglySorted
           (fun x y =>
              Pandas.not_after
                (Pandas.lexi [Pandas.by_col TopDarkPools.p_Buy_Sell_Ratio
                                            Pandas.desc_float])
                (item (snd x)) (item (snd y)))
           (TopDarkPools.table history_close price_threshold analysis_end_date pools))
  /\ (forall history_close min_volume price_threshold signal_start_date
             analysis_end_date combined_data,
         StronglySorted (Pandas.not_after (Pandas.lexi BuySignal.keys))
           (BuySignal.pipeline history_close min_volume price_threshold
                               signal_start_date analysis_end_date combined_data))
  /\ (forall history_close min_volume price_threshold analysis_start_date data,
         StronglySorted (Pandas.not_after (Pandas.lexi Accumulation.keys))
           (Accumulation.pipeline history_close min_volume price_threshold
                                  analysis_start_date data))
  /\ (forall history_close min_volume price_threshold buy_sell_ratio dp_index
             buy_or_sell analysis_start_date data,
         StronglySorted
           (Pandas.not_after (Pandas.lexi (FilterAnalysis.keys buy_or_sell)))
           (FilterAnalysis.pipeline history_close min_volume price_threshold
                                    buy_sell_ratio dp_index buy_or_sell
                                    analysis_start_date data)).
Proof.
  split; [|split; [|split; [|split; [|split; [|split]]]]]; intros.
  - unfold TickerAnalysis.table, Pandas.head. apply strongly_sorted_firstn.
    apply sort_values_sorted. constructor; [|constructor].
    apply total_order_by_col, total_order_desc_date.
  - unfold VolumeAnalysis.buy_pipeline. rewrite price_block_map.
    apply strongly_sorted_unmap. rewrite map_map. cbn [item]. rewrite map_id.
    apply strongly_sorted_filter. unfold Pandas.head. apply strongly_sorted_firstn.
    apply sort_values_sorted, total_order_buy_keys.
  - unfold VolumeAnalysis.sell_pipeline. rewrite price_block_map.
    apply strongly_sorted_unmap. rewrite map_map. cbn [item]. rewrite map_id.
    apply strongly_sorted_filter. unfold Pandas.head. apply strongly_sorted_firstn.
    apply sort_values_sorted, total_order_sell_keys.
  - unfold TopDarkPools.table. rewrite price_block_map.
    apply strongly_sorted_unmap. rewrite !map_map. cbn [item snd]. rewrite map_id.
    apply strongly_sorted_filter. unfold Pandas.head. apply strongly_sorted_firstn.
    apply sort_values_sorted. constructor; [|constructor].
    apply total_order_by_col, total_order_desc_float.
  - unfold BuySignal.pipeline, Pandas.head. apply strongly_sorted_firstn.
    apply sort_values_sorted, total_order_buy_signal_keys.
  - unfold Accumulation.pipeline, Pandas.head. apply strongly_sorted_firstn.
    apply sort_values_sorted, total_order_accumulation_keys.
  - unfold FilterAnalysis.pipeline. apply sort_values_sorted, total_order_filter_keys.
Qed.

(** X7.  The Buy Signal table holds only rows that pass the volume floor,
    the six signal conditions, the date window and the price filter, each
    with the close of its own symbol; and it holds 50 of them, or all of
    them when fewer than 50 pass. *)
Theorem buy_signal_table_rows history_close min_volume price_threshold
        signal_start_date analysis_end_date combined_data :
  let passes (x : BuySignal.srow) :=
    Derive.volume_ok min_volume (BuySignal.base x)
    && BuySignal.signal_ok x
    && BuySignal.date_ok signal_start_date analysis_end_date x
    && match history_close (Symbol (BuySignal.base x)) with
       | Some close => fgt close price_threshold
       | None => false
       end in
  let table :=
    BuySignal.pipeline history_close min_volume price_threshold
                       signal_start_date analysis_end_date combined_data in
  Forall (fun r => In (item r) combined_data
                   /\ passes (item r) = true
                   /\ history_close (Symbol (BuySignal.base (item r)))
                      = Some (Closing_Price r))
         table
  /\ length table = Nat.min 50 (length (List.filter passes combined_data)).
Proof.
  cbv zeta. unfold BuySignal.pipeline. rewrite price_block_row_by_row_aux.
  rewrite !filter_filter. split.
  - apply List.Forall_forall. intros r Hr. apply in_firstn in Hr.
    apply in_sort_values in Hr. apply in_map_iff in Hr as [x [<- Hx]].
    apply filter_In in Hx as [Hin Hp]. cbn [item Closing_Price].
    rewrite !andb_true_iff in Hp.
    repeat match goal with H : _ /\ _ |- _ => destruct H end.
    split; [exact Hin|]. split.
    + rewrite !andb_true_iff. repeat split; assumption.
    + destruct (history_close (Symbol (BuySignal.base x))); [reflexivity|discriminate].
  - rewrite head_all, sort_values_length, length_map. f_equal. f_equal.
    apply filter_ext. intros x.
    destruct (Derive.volume_ok min_volume (BuySignal.base x)),
      (BuySignal.signal_ok x),
      (BuySignal.date_ok signal_start_date analysis_end_date x); reflexivity.
Qed.

(** X8.  Every row of the Ticker Analysis table is a row of the requested
    symbol. *)
Theorem ticker_table_is_one_symbol get_data_for_date symbol dates :
  match TickerAnalysis.run get_data_for_date symbol dates with
  | Some table => Forall (fun r => Symbol (TickerAnalysis.base r) = symbol) table
  | None => True
  end.
Proof.
  unfold TickerAnalysis.run.
  destruct (TickerAnalysis.dataset get_data_for_date symbol dates) as [data|] eqn:Hd;
    [|exact I].
  cbn [option_map]. apply List.Forall_forall. intros r Hr.
  unfold TickerAnalysis.table in Hr. apply in_firstn in Hr.
  apply in_sort_values in Hr.
  eapply ticker_rows_of_one_symbol; eassumption.
Qed.

Section TopDarkPoolsFacts.
Import Pandas Derive TopDarkPools.

Lemma groupby_agg_keys {A B : Type} (key : A -> string) (agg : string -> list A -> B)
      (out_key : B -> string) rows :
  (forall k g, out_key (agg k g) = k) ->
  map out_key (groupby_agg String.compare key agg rows)
  = group_keys String.compare (map key rows).
Proof.
  intros H. unfold groupby_agg. rewrite map_map.
  rewrite <- (map_id (group_keys String.compare (map key rows))) at 2.
  apply map_ext. intros k. apply H.
Qed.

Lemma top_dark_pools_symbols acc :
  List.NoDup (map p_Symbol (top_dark_pools acc)).
Proof.
  unfold top_dark_pools. rewrite groupby_agg_keys by reflexivity.
  apply group_keys_nodup.
Qed.

End TopDarkPoolsFacts.

(** X9.  The Top Dark Pools table lists a symbol at most once. *)
Theorem top_dark_pools_one_row_per_symbol
        get_data_for_date history_close min_volume price_threshold
        analysis_end_date dates :
  match TopDarkPools.run get_data_for_date history_close min_volume price_threshold
                         analysis_end_date dates with
  | Some table =>
      List.NoDup (map (fun r => TopDarkPools.p_Symbol (item (snd r))) table)
  | None => True
  end.
Proof.
  unfold TopDarkPools.run.
  destruct (TopDarkPools.combined get_data_for_date min_volume dates) as [data|];
    [|exact I].
  cbn [option_map]. unfold TopDarkPools.table.
  rewrite price_block_map, !map_map. cbn [snd item].
  apply (nodup_map_filter TopDarkPools.p_Symbol).
  unfold Pandas.head. rewrite <- firstn_map. apply nodup_firstn.
  eapply Permutation_NoDup.
  - apply Permutation_map. symmetry. apply sort_values_perm.
  - apply top_dark_pools_symbols.
Qed.

(** X10.  Every row of the Volume Buy table has Bought and Sold at or
    above the volume floor, a Buy-Sell Ratio above 1.5 and a close above
    the price threshold; its BTD Tag therefore says whether its DP Index
    is above 50.  For Volume Sell: ratio below 0.5, and the tag says
    whether the DP Index is below 47. *)
Theorem volume_table_rows history_close min_volume price_threshold daily_data :
  Forall (fun r =>
            Derive.volume_ok min_volume (VolumeAnalysis.base (item r)) = true
            /\ fgt (Buy_Sell_Ratio (VolumeAnalysis.base (item r))) Derive.f1_5 = true
            /\ fgt (Closing_Price r) price_threshold = true
            /\ VolumeAnalysis.BTD_Tag (item r)
               = fgt (DP_Index (VolumeAnalysis.base (item r))) (of_int 50))
         (VolumeAnalysis.buy_pipeline history_close min_volume price_threshold
                                      daily_data)
  /\ Forall (fun r =>
               Derive.volume_ok min_volume (VolumeAnalysis.base (item r)) = true
               /\ flt (Buy_Sell_Ratio (VolumeAnalysis.base (item r))) Derive.f0_5 = true
               /\ fgt (Closing_Price r) price_threshold = true
               /\ VolumeAnalysis.BTD_Tag (item r)
                  = flt (DP_Index (VolumeAnalysis.base (item r))) (of_int 47))
            (VolumeAnalysis.sell_pipeline history_close min_volume price_threshold
                                          daily_data).
Proof.
  split; apply List.Forall_forall; intros r Hr.
  - unfold VolumeAnalysis.buy_pipeline in Hr. rewrite price_block_map in Hr.
    apply in_map_iff in Hr as [x [<- Hx]]. apply filter_In in Hx as [Hx Hp].
    apply in_firstn in Hx. apply in_sort_values in Hx.
    apply in_map_iff in Hx as [b [<- Hb]].
    apply filter_In in Hb as [Hb Hq]. apply filter_In in Hb as [_ Hv].
    cbn [item Closing_Price VolumeAnalysis.base VolumeAnalysis.buy_tag
           VolumeAnalysis.BTD_Tag].
    unfold VolumeAnalysis.buy_ratio_ok in Hq. rewrite Hq. auto.
  - unfold VolumeAnalysis.sell_pipeline in Hr. rewrite price_block_map in Hr.
    apply in_map_iff in Hr as [x [<- Hx]]. apply filter_In in Hx as [Hx Hp].
    apply in_firstn in Hx. apply in_sort_values in Hx.
    apply in_map_iff in Hx as [b [<- Hb]].
    apply filter_In in Hb as [Hb Hq]. apply filter_In in Hb as [_ Hv].
    cbn [item Closing_Price VolumeAnalysis.base VolumeAnalysis.sell_tag
           VolumeAnalysis.BTD_Tag].
    unfold VolumeAnalysis.sell_ratio_ok in Hq. rewrite Hq. auto.
Qed.

(** ** Rolling columns, row by row *)

Section ExactSums.
Open Scope Q_scope.

Lemma Qred_inject_Z z : Qred (inject_Z z) = inject_Z z.
Proof.
  unfold Qred, inject_Z. simpl.
  pose proof (Z.ggcd_gcd z 1) as Hg. pose proof (Z.ggcd_correct_divisors z 1) as Hd.
  destruct (Z.ggcd z 1) as [g [aa bb]]. simpl in *.
  rewrite Z.gcd_1_r in Hg. subst g. destruct Hd as [Ha Hb].
  rewrite Z.mul_1_l in Ha, Hb. subst. reflexivity.
Qed.

Lemma fsum_ints_exact xs : fsum (map of_int xs) = of_int (Zsum xs).
Proof.
  unfold fsum. rewrite fold_fadd_ints. destruct xs as [|x xs]; [reflexivity|].
  unfold of_int. f_equal.
  transitivity (Qred (inject_Z (Zsum (x :: xs)))); [|apply Qred_inject_Z].
  apply Qred_complete. ring.
Qed.

End ExactSums.

(** ** binary64: rounding is monotone, and exact on 53-bit values *)

Section Pow2Facts.
Import Binary64.
Open Scope Q_scope.

Lemma pow2_pos e : 0 < pow2 e.
Proof. apply Qpower_0_lt. reflexivity. Qed.

Lemma pow2_add a b : pow2 (a + b) == pow2 a * pow2 b.
Proof. apply Qpower_plus. discriminate. Qed.

Lemma pow2_le a b : (a <= b)%Z -> pow2 a <= pow2 b.
Proof. intros H. apply Qpower_le_compat_l; [exact H|discriminate]. Qed.

Lemma pow2_lt a b : (a < b)%Z -> pow2 a < pow2 b.
Proof. intros H. apply Qpower_lt_compat_l; [exact H|reflexivity]. Qed.

Lemma pow2_lt_inv a b : pow2 a < pow2 b -> (a < b)%Z.
Proof. intros H. apply (Qpower_lt_compat_l_inv 2); [exact H|reflexivity]. Qed.

Lemma pow2_Z n : (0 <= n)%Z -> pow2 n == inject_Z (2 ^ n).
Proof. intros H. unfold pow2. rewrite Zpower_Qpower by exact H. reflexivity. Qed.

Lemma pow2_div a b : pow2 a / pow2 b == pow2 (a - b).
Proof.
  assert (H : pow2 a == pow2 (a - b) * pow2 b).
  { rewrite <- pow2_add. replace (a - b + b)%Z with a by lia. reflexivity. }
  rewrite H. field. pose proof (pow2_pos b). lra.
Qed.

End Pow2Facts.

Section Log2Facts.
Import Binary64.
Open Scope Q_scope.

(** [ilog2 q] is the exponent of the power of two at or below [q]. *)
Lemma ilog2_spec q : 0 < q -> pow2 (ilog2 q) <= q /\ q < pow2 (ilog2 q + 1).
Proof.
  intros Hq. destruct q as [n d]. unfold ilog2. cbn [Qnum Qden].
  assert (Hn : (0 < n)%Z) by (unfold Qlt in Hq; simpl in Hq; lia).
  rewrite (Z.abs_eq n) by lia.
  set (ln := Z.log2 n). set (ld := Z.log2 (Zpos d)).
  pose proof (Z.log2_spec n Hn) as [Hn1 Hn2]. fold ln in Hn1, Hn2.
  pose proof (Z.log2_spec (Zpos d) (Pos2Z.is_pos d)) as [Hd1 Hd2]. fold ld in Hd1, Hd2.
  assert (Hln : (0 <= ln)%Z) by apply Z.log2_nonneg.
  assert (Hld : (0 <= ld)%Z) by apply Z.log2_nonneg.
  assert (Hqa : Qabs (n # d) == n # d) by (apply Qabs_pos; apply Qlt_le_weak, Hq).
  assert (Hval : n # d == inject_Z n / inject_Z (Zpos d)) by apply Qmake_Qdiv.
  assert (Hdpos : 0 < inject_Z (Zpos d)).
  { change 0 with (inject_Z 0). rewrite <- Zlt_Qlt. reflexivity. }
  (* n # d < pow2 (ln - ld + 1) *)
  assert (Hup : n # d < pow2 (ln - ld + 1)).
  { rewrite Hval. apply Qlt_shift_div_r; [exact Hdpos|].
    apply Qlt_le_trans with (pow2 (ln + 1)).
    - rewrite pow2_Z by lia. rewrite <- Zlt_Qlt.
      replace (ln + 1)%Z with (Z.succ ln) by lia. exact Hn2.
    - replace (ln + 1)%Z with ((ln - ld + 1) + ld)%Z by lia.
      rewrite pow2_add. apply Qmult_le_l; [apply pow2_pos|].
      rewrite pow2_Z by lia. rewrite <- Zle_Qle. exact Hd1. }
  (* pow2 (ln - ld - 1) < n # d *)
  assert (Hlow : pow2 (ln - ld - 1) < n # d).
  { rewrite Hval. apply Qlt_shift_div_l; [exact Hdpos|].
    apply Qlt_le_trans with (pow2 (ln - ld - 1) * pow2 (ld + 1)).
    - apply Qmult_lt_l; [apply pow2_pos|].
      rewrite pow2_Z by lia. rewrite <- Zlt_Qlt.
      replace (ld + 1)%Z with (Z.succ ld) by lia. exact Hd2.
    - rewrite <- pow2_add. replace (ln - ld - 1 + (ld + 1))%Z with ln by lia.
      rewrite pow2_Z by lia. rewrite <- Zle_Qle. exact Hn1. }
  destruct (Qle_bool (pow2 (ln - ld)) (Qabs (n # d))) eqn:E.
  - apply Qle_bool_iff in E. rewrite Hqa in E. split; assumption.
  - assert (Hlt : n # d < pow2 (ln - ld)).
    { apply Qnot_le_lt. intros H. rewrite <- Hqa in H. apply Qle_bool_iff in H.
      congruence. }
    replace (ln - ld - 1 + 1)%Z with (ln - ld)%Z by lia.
    split; [apply Qlt_le_weak, Hlow|exact Hlt].
Qed.

(** The exponent is determined by the two bounds. *)
Lemma ilog2_unique q k : 0 < q -> pow2 k <= q -> q < pow2 (k + 1) -> ilog2 q = k.
Proof.
  intros Hq H1 H2. destruct (ilog2_spec q Hq) as [H3 H4].
  assert (A : (k < ilog2 q + 1)%Z).
  { apply pow2_lt_inv. eapply Qle_lt_trans; eassumption. }
  assert (B : (ilog2 q < k + 1)%Z).
  { apply pow2_lt_inv. eapply Qle_lt_trans; eassumption. }
  lia.
Qed.

Lemma ilog2_mono p q : 0 < p -> p <= q -> (ilog2 p <= ilog2 q)%Z.
Proof.
  intros Hp Hpq. assert (Hq : 0 < q) by lra.
  destruct (ilog2_spec p Hp) as [H1 _]. destruct (ilog2_spec q Hq) as [_ H2].
  assert (A : (ilog2 p < ilog2 q + 1)%Z).
  { apply pow2_lt_inv. lra. }
  lia.
Qed.

End Log2Facts.

Section RintFacts.
Open Scope Q_scope.

Lemma rint_Z n : rint (inject_Z n) = n.
Proof.
  unfold rint. rewrite Qfloor_Z.
  assert (H : ((inject_Z n - inject_Z n) ?= (1 # 2)) = Lt).
  { apply (proj1 (Qlt_alt _ _)). lra. }
  rewrite H. reflexivity.
Qed.

Lemma rint_floor q : (Qfloor q <= rint q <= Qfloor q + 1)%Z.
Proof.
  unfold rint. destruct ((q - inject_Z (Qfloor q)) ?= (1 # 2));
    [destruct (Z.even (Qfloor q))| |]; lia.
Qed.

(** Rounding to the nearest integer is monotone. *)
Lemma rint_mono x y : x <= y -> (rint x <= rint y)%Z.
Proof.
  intros Hxy. pose proof (Qfloor_resp_le x y Hxy) as Hf.
  destruct (Z.eq_dec (Qfloor x) (Qfloor y)) as [E|E].
  - unfold rint. rewrite <- E.
    destruct (Qcompare_spec (x - inject_Z (Qfloor x)) (1 # 2)) as [Hx|Hx|Hx];
      destruct (Qcompare_spec (y - inject_Z (Qfloor x)) (1 # 2)) as [Hy|Hy|Hy];
      try destruct (Z.even (Qfloor x)); try lia; exfalso; lra.
  - pose proof (rint_floor x). pose proof (rint_floor y). lia.
Qed.

End RintFacts.

Section RoundFacts.
Import Binary64.
Open Scope Q_scope.

Lemma rint_comp x y : x == y -> rint x = rint y.
Proof.
  intros H. apply Z.le_antisymm; apply rint_mono; rewrite H; apply Qle_refl.
Qed.

Lemma round_pos q :
  0 < q -> round q = inject_Z (rint (q / pow2 (ulp_exp q))) * pow2 (ulp_exp q).
Proof.
  intros Hq. unfold round. destruct (Qeq_bool q 0) eqn:E; [|reflexivity].
  apply Qeq_bool_iff in E. lra.
Qed.

Lemma round_zero q : q == 0 -> round q = 0.
Proof.
  intros Hq. unfold round. destruct (Qeq_bool q 0) eqn:E; [reflexivity|].
  apply Qeq_bool_neq in E. contradiction.
Qed.

Lemma scaled_lt q : 0 < q -> q / pow2 (ulp_exp q) < pow2 53.
Proof.
  intros Hq. destruct (ilog2_spec q Hq) as [_ H2]. unfold ulp_exp.
  apply Qlt_shift_div_r; [apply pow2_pos|].
  rewrite <- pow2_add.
  eapply Qlt_le_trans; [exact H2|]. apply pow2_le. lia.
Qed.

Lemma scaled_ge q :
  0 < q -> (-1022 <= ilog2 q)%Z -> pow2 52 <= q / pow2 (ulp_exp q).
Proof.
  intros Hq Hk. destruct (ilog2_spec q Hq) as [H1 _]. unfold ulp_exp.
  apply Qle_shift_div_l; [apply pow2_pos|].
  rewrite <- pow2_add. rewrite Z.max_l by lia.
  replace (52 + (ilog2 q - 52))%Z with (ilog2 q) by lia. exact H1.
Qed.

Lemma scaled_pos q : 0 < q -> 0 < q / pow2 (ulp_exp q).
Proof. intros Hq. apply Qlt_shift_div_l; [apply pow2_pos|]. lra. Qed.

Lemma mant_le q : 0 < q -> (rint (q / pow2 (ulp_exp q)) <= 2 ^ 53)%Z.
Proof.
  intros Hq. rewrite <- (rint_Z (2 ^ 53)). apply rint_mono.
  rewrite <- pow2_Z by lia. apply Qlt_le_weak, scaled_lt, Hq.
Qed.

Lemma mant_ge q :
  0 < q -> (-1022 <= ilog2 q)%Z -> (2 ^ 52 <= rint (q / pow2 (ulp_exp q)))%Z.
Proof.
  intros Hq Hk. rewrite <- (rint_Z (2 ^ 52)). apply rint_mono.
  rewrite <- pow2_Z by lia. apply scaled_ge; assumption.
Qed.

Lemma mant_nonneg q : 0 < q -> (0 <= rint (q / pow2 (ulp_exp q)))%Z.
Proof.
  intros Hq. rewrite <- (rint_Z 0). apply rint_mono.
  apply Qlt_le_weak. apply scaled_pos, Hq.
Qed.

Lemma round_nonneg q : 0 <= q -> 0 <= round q.
Proof.
  intros Hq. destruct (Qeq_dec q 0) as [E|E].
  - rewrite (round_zero q E). apply Qle_refl.
  - assert (Hp : 0 < q) by (destruct (Qle_lt_or_eq _ _ Hq) as [H|H]; [exact H|];
                             exfalso; apply E; symmetry; exact H).
    rewrite (round_pos q Hp).
    pose proof (mant_nonneg q Hp) as Hm. rewrite Zle_Qle in Hm.
    pose proof (pow2_pos (ulp_exp q)).
    apply Qmult_le_0_compat; [exact Hm|lra].
Qed.

Lemma round_le_pow2 q :
  0 < q -> round q <= pow2 (Z.max (ilog2 q) (-1022) + 1).
Proof.
  intros Hq. rewrite (round_pos q Hq).
  pose proof (mant_le q Hq) as Hm. rewrite Zle_Qle in Hm.
  rewrite <- pow2_Z in Hm by lia.
  replace (Z.max (ilog2 q) (-1022) + 1)%Z with (53 + ulp_exp q)%Z
    by (unfold ulp_exp; lia).
  rewrite pow2_add. apply Qmult_le_compat_r; [exact Hm|].
  apply Qlt_le_weak, pow2_pos.
Qed.

Lemma round_ge_pow2 q :
  0 < q -> (-1022 <= ilog2 q)%Z -> pow2 (ilog2 q) <= round q.
Proof.
  intros Hq Hk. rewrite (round_pos q Hq).
  pose proof (mant_ge q Hq Hk) as Hm. rewrite Zle_Qle in Hm.
  rewrite <- pow2_Z in Hm by lia.
  replace (ilog2 q) with (52 + ulp_exp q)%Z at 1
    by (unfold ulp_exp; lia).
  rewrite pow2_add. apply Qmult_le_compat_r; [exact Hm|].
  apply Qlt_le_weak, pow2_pos.
Qed.

(** Rounding to binary64 is monotone. *)
Lemma round_mono p q : 0 <= p -> p <= q -> round p <= round q.
Proof.
  intros Hp Hpq. destruct (Qeq_dec p 0) as [E|E].
  - rewrite (round_zero p E). apply round_nonneg. lra.
  - assert (Hp' : 0 < p) by (destruct (Qle_lt_or_eq _ _ Hp) as [H|H]; [exact H|];
                              exfalso; apply E; symmetry; exact H).
    assert (Hq : 0 < q) by lra.
    pose proof (ilog2_mono p q Hp' Hpq) as Hk.
    destruct (Z.eq_dec (Z.max (ilog2 p) (-1022)) (Z.max (ilog2 q) (-1022))) as [Ek|Ek].
    + rewrite (round_pos p Hp'), (round_pos q Hq).
      assert (Ee : ulp_exp p = ulp_exp q) by (unfold ulp_exp; lia).
      rewrite Ee. apply Qmult_le_compat_r; [|apply Qlt_le_weak, pow2_pos].
      rewrite <- Zle_Qle. apply rint_mono.
      apply Qmult_le_compat_r; [exact Hpq|].
      apply Qlt_le_weak, Qinv_lt_0_compat, pow2_pos.
    + eapply Qle_trans; [apply (round_le_pow2 p Hp')|].
      eapply Qle_trans; [|apply (round_ge_pow2 q Hq); lia].
      apply pow2_le. lia.
Qed.

Lemma round_comp p q : 0 <= p -> p == q -> round p == round q.
Proof.
  intros Hp E. apply Qle_antisym; apply round_mono; lra.
Qed.

(** A value with at most 53 significant bits is its own rounding. *)
Lemma round_exact q m :
  0 < q -> q == inject_Z m * pow2 (ulp_exp q) -> round q == q.
Proof.
  intros Hq Hm. rewrite (round_pos q Hq).
  assert (E : q / pow2 (ulp_exp q) == inject_Z m).
  { rewrite Hm at 1. field. pose proof (pow2_pos (ulp_exp q)). lra. }
  rewrite (rint_comp _ _ E), rint_Z. symmetry. exact Hm.
Qed.

Lemma round_int z : (0 <= z <= 2 ^ 53)%Z -> round (inject_Z z) == inject_Z z.
Proof.
  intros [H0 H1]. destruct (Z.eq_dec z 0%Z) as [->|Hz]; [reflexivity|].
  assert (Hq : 0 < inject_Z z).
  { change 0 with (inject_Z 0). rewrite <- Zlt_Qlt. lia. }
  destruct (ilog2_spec _ Hq) as [Ha Hb].
  set (k := ilog2 (inject_Z z)) in *.
  assert (Hk0 : (0 <= k)%Z).
  { assert (A : (0 < k + 1)%Z).
    { apply pow2_lt_inv. eapply Qle_lt_trans; [|exact Hb].
      change (pow2 0) with (inject_Z 1). rewrite <- Zle_Qle. lia. }
    lia. }
  assert (Hk1 : (k <= 53)%Z).
  { assert (A : (k < 54)%Z).
    { apply pow2_lt_inv. eapply Qle_lt_trans; [exact Ha|].
      rewrite (pow2_Z 54) by lia. rewrite <- Zlt_Qlt. lia. }
    lia. }
  assert (He : ulp_exp (inject_Z z) = (k - 52)%Z) by (unfold ulp_exp; fold k; lia).
  destruct (Z.eq_dec k 53%Z) as [E53|N53].
  - assert (Ez : z = (2 ^ 53)%Z).
    { rewrite E53, (pow2_Z 53) in Ha by lia. rewrite <- Zle_Qle in Ha. lia. }
    apply (round_exact _ (2 ^ 52)); [exact Hq|].
    rewrite He, E53, Ez. reflexivity.
  - apply (round_exact _ (z * 2 ^ (52 - k))); [exact Hq|].
    rewrite He, inject_Z_mult. rewrite <- (pow2_Z (52 - k)) by lia.
    rewrite <- Qmult_assoc, <- pow2_add.
    replace (52 - k + (k - 52))%Z with 0%Z by lia.
    change (pow2 0) with 1. ring.
Qed.

Lemma fl_finite q :
  0 <= q -> round q < pow2 1024 -> fl q = Fin (Qred (round q)).
Proof.
  intros Hq Hlt. unfold fl.
  assert (Habs : Qabs (round q) == round q) by (apply Qabs_pos, round_nonneg, Hq).
  destruct (Qle_bool (pow2 1024) (Qabs (round q))) eqn:E; [|reflexivity].
  apply Qle_bool_iff in E. rewrite Habs in E. lra.
Qed.

End RoundFacts.

Section Binary64Ops.
Import Binary64.
Open Scope Q_scope.

Lemma pow2_1024_big : inject_Z (2 ^ 53) < pow2 1024.
Proof. rewrite <- (pow2_Z 53) by lia. apply pow2_lt. lia. Qed.

Lemma round_le_int x n :
  0 <= x -> x <= inject_Z n -> (n <= 2 ^ 53)%Z -> round x <= inject_Z n.
Proof.
  intros H0 Hx Hn.
  assert (Hn0 : (0 <= n)%Z) by (rewrite Zle_Qle; change (inject_Z 0) with 0; lra).
  rewrite <- (round_int n) by lia. apply round_mono; assumption.
Qed.

Lemma round_ge_int x n :
  (0 <= n <= 2 ^ 53)%Z -> inject_Z n <= x -> inject_Z n <= round x.
Proof.
  intros Hn Hx. rewrite <- (round_int n) by lia. apply round_mono; [|exact Hx].
  change 0 with (inject_Z 0). rewrite <- Zle_Qle. lia.
Qed.

(** The rounded value of an exact result that is at most 2^53. *)
Lemma fl_value q :
  0 <= q -> q <= inject_Z (2 ^ 53) ->
  exists r, fl q = Fin r /\ r == round q.
Proof.
  intros H0 H1. exists (Qred (round q)). split; [|apply Qred_correct].
  apply fl_finite; [exact H0|].
  eapply Qle_lt_trans; [apply (round_le_int q (2 ^ 53)); [exact H0|exact H1|lia]|].
  apply pow2_1024_big.
Qed.

Lemma of_int_exact z : (0 <= z <= 2 ^ 53)%Z -> of_int z = Fin (inject_Z z).
Proof.
  intros Hz. unfold of_int, Num.of_int, rnd.
  assert (H0 : 0 <= inject_Z z).
  { change 0 with (inject_Z 0). rewrite <- Zle_Qle. lia. }
  rewrite fl_finite; [|exact H0|].
  - f_equal. transitivity (Qred (inject_Z z)); [|apply Qred_inject_Z].
    apply Qred_complete, round_int, Hz.
  - rewrite (round_int z Hz). eapply Qle_lt_trans; [|apply pow2_1024_big].
    rewrite <- Zle_Qle. lia.
Qed.

Lemma Qsign_pos q : 0 < q -> Qsign q = Gt.
Proof.
  intros H. unfold Qsign. unfold Qlt in H. simpl in H. rewrite Z.mul_1_r in H.
  apply Z.compare_gt_iff. exact H.
Qed.

Lemma fdiv_value a c :
  0 <= a -> 0 < c -> a / c <= inject_Z (2 ^ 53) ->
  exists r, fdiv (Fin a) (Fin c) = Fin r /\ r == round (a / c).
Proof.
  intros Ha Hc Hb. unfold fdiv, Num.fdiv. rewrite (Qsign_pos c Hc). cbn [rnd].
  assert (H0 : 0 <= a / c) by (apply Qle_shift_div_l; lra).
  assert (Hr : Qred (a / c) == a / c) by apply Qred_correct.
  destruct (fl_value (Qred (a / c))) as (r & Er & Hr'); [lra|lra|].
  exists r. split; [exact Er|]. rewrite Hr'. apply round_comp; lra.
Qed.

Lemma fmul_value a c :
  0 <= a -> 0 <= c -> a * c <= inject_Z (2 ^ 53) ->
  exists r, fmul (Fin a) (Fin c) = Fin r /\ r == round (a * c).
Proof.
  intros Ha Hc Hb. unfold fmul, Num.fmul. cbn [rnd].
  assert (H0 : 0 <= a * c) by (apply Qmult_le_0_compat; assumption).
  assert (Hr : Qred (a * c) == a * c) by apply Qred_correct.
  destruct (fl_value (Qred (a * c))) as (r & Er & Hr'); [lra|lra|].
  exists r. split; [exact Er|]. rewrite Hr'. apply round_comp; lra.
Qed.

(** [round2] of a value between 0 and 2^39: the three steps. *)
Lemma round2_value x :
  0 <= x -> x <= inject_Z (2 ^ 39) ->
  exists r3 r4,
    round2 (Fin x) = Fin r4
    /\ r3 == round (x * 100)
    /\ r4 == round (inject_Z (rint r3) / 100).
Proof.
  intros H0 H1. unfold round2.
  assert (Hx100 : x * 100 <= inject_Z (2 ^ 53)).
  { assert (inject_Z (2 ^ 39) * 100 <= inject_Z (2 ^ 53)) by (vm_compute; discriminate).
    lra. }
  destruct (fmul_value x 100 H0 ltac:(lra) Hx100) as (r3 & -> & Hr3).
  assert (Hr3lo : 0 <= r3) by (rewrite Hr3; apply round_nonneg; lra).
  assert (Hr3hi : r3 <= inject_Z (2 ^ 53)).
  { rewrite Hr3. apply round_le_int; [lra|exact Hx100|lia]. }
  assert (Hn0 : (0 <= rint r3)%Z).
  { rewrite <- (rint_Z 0). apply rint_mono. exact Hr3lo. }
  assert (Hn1 : (rint r3 <= 2 ^ 53)%Z).
  { rewrite <- (rint_Z (2 ^ 53)). apply rint_mono. exact Hr3hi. }
  assert (Hq0 : 0 <= inject_Z (rint r3)).
  { change 0 with (inject_Z 0). rewrite <- Zle_Qle. exact Hn0. }
  assert (Hq1 : inject_Z (rint r3) <= inject_Z (2 ^ 53)) by (rewrite <- Zle_Qle; exact Hn1).
  destruct (fdiv_value (inject_Z (rint r3)) 100 Hq0 ltac:(lra)) as (r4 & E4 & Hr4).
  { apply Qle_shift_div_r; lra. }
  exists r3, r4. split; [exact E4|]. split; [exact Hr3|exact Hr4].
Qed.

End Binary64Ops.

Section Binary64Columns.
Import Binary64.
Open Scope Q_scope.

Lemma fgt_Fin a b : fgt (Fin a) (Fin b) = true <-> b < a.
Proof.
  unfold fgt, fcompare. rewrite Qlt_alt, <- Qcompare_antisym.
  destruct (b ?= a); simpl; split; intros; try discriminate; reflexivity.
Qed.

Lemma flt_Fin a b : flt (Fin a) (Fin b) = true <-> a < b.
Proof.
  unfold flt, fcompare. rewrite Qlt_alt.
  destruct (a ?= b); simpl; split; intros; try discriminate; reflexivity.
Qed.

Lemma inject_Z_pos z : (0 < z)%Z -> 0 < inject_Z z.
Proof. intros H. change 0 with (inject_Z 0). rewrite <- Zlt_Qlt. exact H. Qed.

Lemma inject_Z_nonneg z : (0 <= z)%Z -> 0 <= inject_Z z.
Proof. intros H. change 0 with (inject_Z 0). rewrite <- Zle_Qle. exact H. Qed.

Lemma share_le b t : (0 <= b <= t)%Z -> (0 < t)%Z -> inject_Z b / inject_Z t <= 1.
Proof.
  intros Hb Ht. apply Qle_shift_div_r; [apply inject_Z_pos, Ht|].
  rewrite Qmult_1_l, <- Zle_Qle. lia.
Qed.

Lemma share_nonneg b t : (0 <= b)%Z -> (0 < t)%Z -> 0 <= inject_Z b / inject_Z t.
Proof.
  intros Hb Ht. apply Qle_shift_div_l; [apply inject_Z_pos, Ht|].
  rewrite Qmult_0_l. apply inject_Z_nonneg, Hb.
Qed.

(** The Buy-Sell Ratio of a row is the exact quotient, rounded. *)
Lemma ratio_value b s :
  (0 <= b <= 2 ^ 53)%Z -> (0 < s <= 2 ^ 53)%Z ->
  exists r, buy_sell_ratio b s = Fin r /\ r == round (inject_Z b / inject_Z s).
Proof.
  intros Hb Hs. unfold buy_sell_ratio.
  rewrite (of_int_exact b) by lia. rewrite (of_int_exact s) by lia.
  apply fdiv_value.
  - apply inject_Z_nonneg. lia.
  - apply inject_Z_pos. lia.
  - apply Qle_shift_div_r; [apply inject_Z_pos; lia|].
    rewrite <- inject_Z_mult, <- Zle_Qle. nia.
Qed.

Lemma dp_of_share_mono p q :
  0 <= p -> p <= q -> dp_of_share p <= dp_of_share q.
Proof.
  intros Hp Hpq. unfold dp_of_share.
  assert (H1 : round p <= round q) by (apply round_mono; assumption).
  assert (H1' : 0 <= round p) by (apply round_nonneg, Hp).
  assert (H2 : round (round p * 100) <= round (round q * 100))
    by (apply round_mono; lra).
  assert (H2' : 0 <= round (round p * 100)) by (apply round_nonneg; lra).
  assert (H3 : round (round (round p * 100) * 100)
               <= round (round (round q * 100) * 100))
    by (apply round_mono; lra).
  assert (H3' : 0 <= round (round (round p * 100) * 100)) by (apply round_nonneg; lra).
  pose proof (rint_mono _ _ H3) as H4. rewrite Zle_Qle in H4.
  assert (H4' : 0 <= inject_Z (rint (round (round (round p * 100) * 100)))).
  { apply inject_Z_nonneg. rewrite <- (rint_Z 0). apply rint_mono. exact H3'. }
  apply round_mono.
  - apply Qle_shift_div_l; lra.
  - apply Qmult_le_compat_r; [exact H4|]. apply Qlt_le_weak. reflexivity.
Qed.

Lemma dp_of_share_comp p q : 0 <= p -> p == q -> dp_of_share p == dp_of_share q.
Proof. intros Hp E. apply Qle_antisym; apply dp_of_share_mono; lra. Qed.

(** The DP Index of a row is [dp_of_share] of its exact share. *)
Lemma dp_index_value b t :
  (0 <= b <= t)%Z -> (0 < t <= 2 ^ 53)%Z ->
  exists r, dp_index b t = Fin r /\ r == dp_of_share (inject_Z b / inject_Z t).
Proof.
  intros Hb Ht. unfold dp_index.
  pose proof (share_le b t Hb ltac:(lia)) as Hle.
  pose proof (share_nonneg b t ltac:(lia) ltac:(lia)) as Hge.
  rewrite (of_int_exact b) by lia. rewrite (of_int_exact t) by lia.
  rewrite (of_int_exact 100) by lia.
  destruct (fdiv_value (inject_Z b) (inject_Z t)) as (r1 & -> & Hr1).
  { apply inject_Z_nonneg. lia. }
  { apply inject_Z_pos. lia. }
  { assert (1 <= inject_Z (2 ^ 53)) by (vm_compute; discriminate). lra. }
  assert (Hr1lo : 0 <= r1) by (rewrite Hr1; apply round_nonneg, Hge).
  assert (Hr1hi : r1 <= 1).
  { rewrite Hr1. apply (round_le_int _ 1); [exact Hge|exact Hle|lia]. }
  change (inject_Z 100) with 100.
  destruct (fmul_value r1 100 Hr1lo) as (r2 & -> & Hr2).
  { lra. }
  { assert (100 <= inject_Z (2 ^ 53)) by (vm_compute; discriminate). lra. }
  assert (Hr2lo : 0 <= r2) by (rewrite Hr2; apply round_nonneg; lra).
  assert (Hr2hi : r2 <= 100).
  { rewrite Hr2. apply (round_le_int _ 100); [lra|change (inject_Z 100) with 100; lra|lia]. }
  destruct (round2_value r2 Hr2lo) as (r3 & r4 & -> & Hr3 & Hr4).
  { assert (100 <= inject_Z (2 ^ 39)) by (vm_compute; discriminate). lra. }
  exists r4. split; [reflexivity|]. rewrite Hr4. unfold dp_of_share.
  assert (E2 : r2 == round (round (inject_Z b / inject_Z t) * 100)).
  { rewrite Hr2. apply round_comp; [lra|]. rewrite Hr1. reflexivity. }
  assert (E3 : r3 == round (round (round (inject_Z b / inject_Z t) * 100) * 100)).
  { rewrite Hr3. apply round_comp; [lra|]. rewrite E2. reflexivity. }
  rewrite (rint_comp _ _ E3). reflexivity.
Qed.

End Binary64Columns.

Section Binary64Sums.
Import Binary64.
Open Scope Q_scope.

(** binary64 adds two non-negative integers exactly when their sum is at
    most 2^53. *)
Lemma fadd_ints_exact a b :
  (0 <= a)%Z -> (0 <= b)%Z -> (a + b <= 2 ^ 53)%Z ->
  fadd (of_int a) (of_int b) = Fin (inject_Z (a + b)).
Proof.
  intros Ha Hb Hab.
  rewrite (of_int_exact a) by lia. rewrite (of_int_exact b) by lia.
  unfold fadd, Num.fadd. cbn [rnd].
  assert (E : Qred (inject_Z a + inject_Z b) == inject_Z (a + b)).
  { rewrite Qred_correct, inject_Z_plus. reflexivity. }
  assert (H0 : 0 <= Qred (inject_Z a + inject_Z b)).
  { rewrite E. apply inject_Z_nonneg. lia. }
  assert (R : round (Qred (inject_Z a + inject_Z b)) == inject_Z (a + b)).
  { rewrite (round_comp _ _ H0 E). apply round_int. lia. }
  rewrite fl_finite; [|exact H0|].
  - f_equal. transitivity (Qred (inject_Z (a + b))); [|apply Qred_inject_Z].
    apply Qred_complete, R.
  - rewrite R. eapply Qle_lt_trans; [|apply pow2_1024_big].
    rewrite <- Zle_Qle. lia.
Qed.

End Binary64Sums.

Section FractionFacts.
Open Scope Q_scope.

Lemma div_le_frac b s n d :
  (0 < s)%Z -> (b * Zpos d <= n * s)%Z -> inject_Z b / inject_Z s <= n # d.
Proof.
  intros Hs H. apply Qle_shift_div_r; [apply inject_Z_pos, Hs|].
  unfold Qle, Qmult, inject_Z. simpl. lia.
Qed.

Lemma div_ge_frac b s n d :
  (0 < s)%Z -> (n * s <= b * Zpos d)%Z -> n # d <= inject_Z b / inject_Z s.
Proof.
  intros Hs H. apply Qle_shift_div_l; [apply inject_Z_pos, Hs|].
  unfold Qle, Qmult, inject_Z. simpl. lia.
Qed.

End FractionFacts.

(** X11.  The ratio tests of the script, in binary64, on integer volumes
    with 0 <= Bought <= 2^53 and 0 < Sold <= 2^50, are tests on the
    integers: Bought / Sold > 1.25 (the Accumulation flag) holds exactly
    when 4 Bought > 5 Sold, Bought / Sold > 1.5 (Volume Buy) exactly when
    2 Bought > 3 Sold, and Bought / Sold < 0.5 (Volume Sell) exactly when
    2 Bought < Sold.  (Above these bounds the quotient of two volumes can
    round onto the threshold.) *)
Theorem ratio_tests_on_integers bought sold :
  0 <= bought <= 2 ^ 53 ->
  0 < sold <= 2 ^ 50 ->
  (fgt (Binary64.buy_sell_ratio bought sold) Derive.f1_25 = true
   <-> 5 * sold < 4 * bought)
  /\ (fgt (Binary64.buy_sell_ratio bought sold) Derive.f1_5 = true
      <-> 3 * sold < 2 * bought)
  /\ (flt (Binary64.buy_sell_ratio bought sold) Derive.f0_5 = true
      <-> 2 * bought < sold).
Proof.
  intros Hb Hs.
  destruct (ratio_value bought sold Hb ltac:(lia)) as (r & -> & Hr).
  assert (Hq0 : (0 <= inject_Z bought / inject_Z sold)%Q)
    by (apply share_nonneg; lia).
  unfold Derive.f1_25, Derive.f1_5, Derive.f0_5.
  rewrite !fgt_Fin, flt_Fin, Hr.
  assert (E54 : (Binary64.round (5 # 4) == 5 # 4)%Q) by (vm_compute; reflexivity).
  assert (E32 : (Binary64.round (3 # 2) == 3 # 2)%Q) by (vm_compute; reflexivity).
  assert (E12 : (Binary64.round (1 # 2) == 1 # 2)%Q) by (vm_compute; reflexivity).
  assert (E54' : (Binary64.round (5629499534213121 # 4503599627370496)
                  == 5629499534213121 # 4503599627370496)%Q)
    by (vm_compute; reflexivity).
  assert (E32' : (Binary64.round (6755399441055745 # 4503599627370496)
                  == 6755399441055745 # 4503599627370496)%Q)
    by (vm_compute; reflexivity).
  assert (E12' : (Binary64.round (1125899906842623 # 2251799813685248)
                  == 1125899906842623 # 2251799813685248)%Q)
    by (vm_compute; reflexivity).
  split; [|split]; split.
  - intros H. destruct (Z.lt_ge_cases (5 * sold) (4 * bought)) as [L|G]; [exact L|].
    exfalso.
    assert (Hle : (inject_Z bought / inject_Z sold <= 5 # 4)%Q)
      by (apply div_le_frac; lia).
    pose proof (round_mono _ _ Hq0 Hle) as Hm. rewrite E54 in Hm.
    apply (Qlt_irrefl (5 # 4)). eapply Qlt_le_trans; eassumption.
  - intros L.
    assert (Hge : (5629499534213121 # 4503599627370496
                   <= inject_Z bought / inject_Z sold)%Q)
      by (apply div_ge_frac; lia).
    assert (Hm : (Binary64.round (5629499534213121 # 4503599627370496)
                  <= Binary64.round (inject_Z bought / inject_Z sold))%Q)
      by (apply round_mono; [discriminate|exact Hge]).
    rewrite E54' in Hm. eapply Qlt_le_trans; [|exact Hm]. reflexivity.
  - intros H. destruct (Z.lt_ge_cases (3 * sold) (2 * bought)) as [L|G]; [exact L|].
    exfalso.
    assert (Hle : (inject_Z bought / inject_Z sold <= 3 # 2)%Q)
      by (apply div_le_frac; lia).
    pose proof (round_mono _ _ Hq0 Hle) as Hm. rewrite E32 in Hm.
    apply (Qlt_irrefl (3 # 2)). eapply Qlt_le_trans; eassumption.
  - intros L.
    assert (Hge : (6755399441055745 # 4503599627370496
                   <= inject_Z bought / inject_Z sold)%Q)
      by (apply div_ge_frac; lia).
    assert (Hm : (Binary64.round (6755399441055745 # 4503599627370496)
                  <= Binary64.round (inject_Z bought / inject_Z sold))%Q)
      by (apply round_mono; [discriminate|exact Hge]).
    rewrite E32' in Hm. eapply Qlt_le_trans; [|exact Hm]. reflexivity.
  - intros H. destruct (Z.lt_ge_cases (2 * bought) sold) as [L|G]; [exact L|].
    exfalso.
    assert (Hge : (1 # 2 <= inject_Z bought / inject_Z sold)%Q)
      by (apply div_ge_frac; lia).
    assert (Hm : (Binary64.round (1 # 2)
                  <= Binary64.round (inject_Z bought / inject_Z sold))%Q)
      by (apply round_mono; [discriminate|exact Hge]).
    rewrite E12 in Hm.
    apply (Qlt_irrefl (1 # 2)). eapply Qle_lt_trans; eassumption.
  - intros L.
    assert (Hle : (inject_Z bought / inject_Z sold
                   <= 1125899906842623 # 2251799813685248)%Q)
      by (apply div_le_frac; lia).
    pose proof (round_mono _ _ Hq0 Hle) as Hm. rewrite E12' in Hm.
    eapply Qle_lt_trans; [exact Hm|]. reflexivity.
Qed.

Lemma ratio_tests_on_integers_witness :
  (fgt (Binary64.buy_sell_ratio 3000000 1000000) Derive.f1_25 = true
   <-> 5 * 1000000 < 4 * 3000000)
  /\ (fgt (Binary64.buy_sell_ratio 3000000 1000000) Derive.f1_5 = true
      <-> 3 * 1000000 < 2 * 3000000)
  /\ (flt (Binary64.buy_sell_ratio 3000000 1000000) Derive.f0_5 = true
      <-> 2 * 3000000 < 1000000).
Proof.
  apply (ratio_tests_on_integers 3000000 1000000); split; vm_compute;
    first [reflexivity | discriminate].
Defined.

(** X12.  For integer volumes with 0 <= Bought <= total and
    0 < total <= 2^53, the DP Index that the script computes in binary64,
    [(Bought / total * 100).round(2)], is a finite number between 0 and
    100. *)
Theorem dp_index_is_a_percentage bought total :
  0 <= bought <= total ->
  0 < total <= 2 ^ 53 ->
  exists q, Binary64.dp_index bought total = Fin q /\ (0 <= q)%Q /\ (q <= 100)%Q.
Proof.
  intros Hb Ht. destruct (dp_index_value bought total Hb Ht) as (r & -> & Hr).
  exists r. split; [reflexivity|].
  pose proof (share_le bought total Hb ltac:(lia)) as Hle.
  pose proof (share_nonneg bought total ltac:(lia) ltac:(lia)) as Hge.
  assert (E0 : (Binary64.dp_of_share 0 == 0)%Q) by (vm_compute; reflexivity).
  assert (E1 : (Binary64.dp_of_share 1 == 100)%Q) by (vm_compute; reflexivity).
  rewrite Hr. split.
  - rewrite <- E0. apply dp_of_share_mono; [apply Qle_refl|exact Hge].
  - rewrite <- E1. apply dp_of_share_mono; [exact Hge|exact Hle].
Qed.

Lemma dp_index_is_a_percentage_witness :
  exists q, Binary64.dp_index 2759800 4000000 = Fin q /\ (0 <= q)%Q /\ (q <= 100)%Q.
Proof.
  apply (dp_index_is_a_percentage 2759800 4000000); split; vm_compute;
    first [reflexivity | discriminate].
Defined.

(** X20.  Volume Buy/Sell Analysis in binary64, for integer volumes with
    Bought >= 0, Sold > 0 and Bought + Sold <= 2^53: a row that passes
    the ratio filter of Volume Buy (Bought / Sold > 1.5) has a DP Index
    above 50, so its BTD Tag is True; a row that passes the ratio filter
    of Volume Sell (Bought / Sold < 0.5) has a DP Index below 47, so its
    tag is True as well.  The DP Index is taken over the file's
    TotalVolume = Bought + Sold. *)
Theorem volume_tags_always_true bought sold :
  0 <= bought -> 0 < sold -> bought + sold <= 2 ^ 53 ->
  (fgt (Binary64.buy_sell_ratio bought sold) Derive.f1_5 = true ->
   fgt (Binary64.dp_index bought (bought + sold)) (Fin 50) = true)
  /\ (flt (Binary64.buy_sell_ratio bought sold) Derive.f0_5 = true ->
      flt (Binary64.dp_index bought (bought + sold)) (Fin 47) = true).
Proof.
  intros Hb Hs Ht.
  destruct (ratio_value bought sold ltac:(lia) ltac:(lia)) as (r & -> & Hr).
  destruct (dp_index_value bought (bought + sold) ltac:(lia) ltac:(lia))
    as (d & -> & Hd).
  assert (Hq0 : (0 <= inject_Z bought / inject_Z sold)%Q)
    by (apply share_nonneg; lia).
  assert (Hs0 : (0 <= inject_Z bought / inject_Z (bought + sold))%Q)
    by (apply share_nonneg; lia).
  unfold Derive.f1_5, Derive.f0_5. rewrite fgt_Fin, flt_Fin, fgt_Fin, flt_Fin, Hr, Hd.
  assert (E32 : (Binary64.round (3 # 2) == 3 # 2)%Q) by (vm_compute; reflexivity).
  assert (E12 : (Binary64.round (1 # 2) == 1 # 2)%Q) by (vm_compute; reflexivity).
  assert (D60 : (50 < Binary64.dp_of_share (3 # 5))%Q) by (vm_compute; reflexivity).
  assert (D33 : (Binary64.dp_of_share (1 # 3) < 47)%Q) by (vm_compute; reflexivity).
  split; intros H.
  - assert (L : 3 * sold < 2 * bought).
    { destruct (Z.lt_ge_cases (3 * sold) (2 * bought)) as [L|G]; [exact L|].
      exfalso.
      assert (Hle : (inject_Z bought / inject_Z sold <= 3 # 2)%Q)
        by (apply div_le_frac; lia).
      pose proof (round_mono _ _ Hq0 Hle) as Hm. rewrite E32 in Hm.
      apply (Qlt_irrefl (3 # 2)). eapply Qlt_le_trans; eassumption. }
    assert (Hge : (3 # 5 <= inject_Z bought / inject_Z (bought + sold))%Q)
      by (apply div_ge_frac; lia).
    eapply Qlt_le_trans; [exact D60|].
    apply dp_of_share_mono; [discriminate|exact Hge].
  - assert (L : 2 * bought < sold).
    { destruct (Z.lt_ge_cases (2 * bought) sold) as [L|G]; [exact L|].
      exfalso.
      assert (Hge : (1 # 2 <= inject_Z bought / inject_Z sold)%Q)
        by (apply div_ge_frac; lia).
      assert (Hm : (Binary64.round (1 # 2)
                    <= Binary64.round (inject_Z bought / inject_Z sold))%Q)
        by (apply round_mono; [discriminate|exact Hge]).
      rewrite E12 in Hm.
      apply (Qlt_irrefl (1 # 2)). eapply Qle_lt_trans; eassumption. }
    assert (Hle : (inject_Z bought / inject_Z (bought + sold) <= 1 # 3)%Q)
      by (apply div_le_frac; lia).
    eapply Qle_lt_trans; [|exact D33].
    apply dp_of_share_mono; [exact Hs0|exact Hle].
Qed.

Lemma volume_tags_always_true_witness :
  fgt (Binary64.buy_sell_ratio 2759800 1240200) Derive.f1_5 = true
  /\ fgt (Binary64.dp_index 2759800 (2759800 + 1240200)) (Fin 50) = true
  /\ Binary64.dp_index 2759800 (2759800 + 1240200)
     = Fin (4854739660817039 # 70368744177664).
Proof.
  assert (H : fgt (Binary64.buy_sell_ratio 2759800 1240200) Derive.f1_5 = true)
    by (vm_compute; reflexivity).
  split; [exact H|]. split; [|vm_compute; reflexivity].
  refine (proj1 (volume_tags_always_true 2759800 1240200 _ _ _) H);
    vm_compute; first [reflexivity | discriminate].
Defined.

Section RollingFacts.
Import Pandas.

Lemma bools_as_ints bs : bools bs = map of_int (map b2z bs).
Proof. unfold bools. rewrite map_map. apply map_ext. intros []; reflexivity. Qed.

Lemma filter_notna_ints xs : List.filter notna (map of_int xs) = map of_int xs.
Proof. induction xs as [|x xs IH]; simpl; [|rewrite IH]; reflexivity. Qed.

Lemma window_map {A B : Type} (f : A -> B) w i xs :
  window w i (map f xs) = map f (window w i xs).
Proof. unfold window. rewrite firstn_map, skipn_map. reflexivity. Qed.

Lemma window_full {A : Type} w i (xs : list A) :
  (w <= S i)%nat -> (i < length xs)%nat -> length (window w i xs) = w.
Proof. intros Hw Hi. unfold window. rewrite length_skipn, length_firstn. lia. Qed.

(** Row [i] of a rolling sum of an int column. *)
Lemma rolling_sum_ints w m xs i :
  (i < length xs)%nat ->
  nth i (rolling_sum w m (map of_int xs)) NaN
  = if (m <=? length (window w i xs))%nat then of_int (Zsum (window w i xs)) else NaN.
Proof.
  intros Hi. unfold rolling_sum, rolling.
  rewrite (nth_indep _ NaN
             ((fun j => if (m <=? length (List.filter notna (window w j (map of_int xs))))%nat
                        then fsum (List.filter notna (window w j (map of_int xs)))
                        else NaN) 0%nat))
    by (rewrite length_map, length_seq, length_map; exact Hi).
  rewrite (map_nth
             (fun j => if (m <=? length (List.filter notna (window w j (map of_int xs))))%nat
                       then fsum (List.filter notna (window w j (map of_int xs)))
                       else NaN)).
  rewrite seq_nth by (rewrite length_map; exact Hi). cbn [Nat.add].
  rewrite window_map, filter_notna_ints, length_map, fsum_ints_exact. reflexivity.
Qed.

Lemma fge_of_int a c : fge (of_int a) (of_int c) = (c <=? a).
Proof.
  unfold fge, fcompare, of_int, Qcompare. simpl. rewrite !Z.mul_1_r.
  destruct (Z.compare_spec a c), (Z.leb_spec c a); try reflexivity; lia.
Qed.

Lemma Zsum_b2z_le bs : 0 <= Zsum (map b2z bs) <= Z.of_nat (length bs).
Proof.
  induction bs as [|[] bs IH]; simpl length; simpl Zsum; unfold b2z in *; lia.
Qed.

Lemma Zsum_b2z_all bs :
  Zsum (map b2z bs) = Z.of_nat (length bs) <-> forallb (fun b => b) bs = true.
Proof.
  induction bs as [|b bs IH]; [simpl; tauto|].
  pose proof (Zsum_b2z_le bs). simpl length. simpl Zsum. cbn [forallb].
  destruct b; unfold b2z at 1; cbn [andb].
  - rewrite <- IH. lia.
  - split; [lia|discriminate].
Qed.

(** The flag [rolling(window=w, min_periods=w).sum() >= c] of a boolean
    column: False on the first [w - 1] rows, afterwards True exactly when
    at least [c] of the [w] rows ending at the row are True. *)
Lemma rolling_flag_value w c bs i :
  (i < length bs)%nat ->
  nth i (ge_scalar c (rolling_sum w w (bools bs))) false
  = (w <=? S i)%nat && (c <=? Zsum (map b2z (window w i bs))).
Proof.
  intros Hi. rewrite ge_scalar_nth, bools_as_ints.
  rewrite rolling_sum_ints by (rewrite length_map; exact Hi).
  rewrite window_map, length_map.
  destruct (Nat.leb_spec w (S i)) as [Hw|Hw].
  - rewrite window_full by assumption. rewrite Nat.leb_refl. cbn [andb].
    apply fge_of_int.
  - pose proof (window_length w i bs).
    destruct (Nat.leb_spec w (length (window w i bs))); [lia|]. reflexivity.
Qed.

End RollingFacts.

Section RollingFlags.
Import Pandas.

Lemma Zsum_b2z_count bs :
  Zsum (map b2z bs) = Z.of_nat (length (List.filter (fun b => b) bs)).
Proof.
  induction bs as [|b bs IH]; [reflexivity|].
  change (Zsum (map b2z (b :: bs))) with (b2z b + Zsum (map b2z bs)).
  rewrite IH. destruct b; cbn [List.filter b2z].
  - change (length (true :: List.filter (fun b => b) bs))
      with (S (length (List.filter (fun b => b) bs))). lia.
  - lia.
Qed.

Lemma forallb_of_map {A : Type} (f : A -> bool) l :
  forallb (fun b => b) (map f l) = forallb f l.
Proof. induction l as [|x l IH]; simpl; [|rewrite IH]; reflexivity. Qed.

Lemma filter_of_map_length {A : Type} (f : A -> bool) l :
  length (List.filter (fun b => b) (map f l)) = length (List.filter f l).
Proof.
  induction l as [|x l IH]; simpl; [reflexivity|].
  destruct (f x); simpl; rewrite IH; reflexivity.
Qed.

(** [rolling(window=5, min_periods=5).sum() >= 5]: the row has four rows
    above it and the five rows ending at it are all True. *)
Lemma rolling_five_of_five bs i :
  (i < length bs)%nat ->
  nth i (ge_scalar 5 (rolling_sum 5 5 (bools bs))) false
  = (4 <=? i)%nat && forallb (fun b => b) (window 5 i bs).
Proof.
  intros Hi. rewrite rolling_flag_value by exact Hi.
  change (5 <=? S i)%nat with (4 <=? i)%nat.
  destruct (Nat.leb_spec 4 i) as [H4|H4]; [|reflexivity]. cbn [andb].
  pose proof (window_full 5 i bs ltac:(lia) Hi) as Hlen.
  pose proof (Zsum_b2z_le (window 5 i bs)) as Hle.
  pose proof (Zsum_b2z_all (window 5 i bs)) as Hall.
  rewrite Hlen in Hle, Hall. change (Z.of_nat 5) with 5 in Hle, Hall.
  destruct (forallb (fun b => b) (window 5 i bs)).
  - apply Z.leb_le. destruct Hall as [_ Hall]. rewrite Hall; [lia|reflexivity].
  - apply Z.leb_gt. destruct Hall as [Hall _].
    destruct (Z.eq_dec (Zsum (map b2z (window 5 i bs))) 5) as [E|E]; [|lia].
    specialize (Hall E). discriminate.
Qed.

(** [rolling(window=5, min_periods=5).sum() >= c]. *)
Lemma rolling_some_of_five c bs i :
  (i < length bs)%nat ->
  nth i (ge_scalar c (rolling_sum 5 5 (bools bs))) false
  = (4 <=? i)%nat
    && (c <=? Z.of_nat (length (List.filter (fun b => b) (window 5 i bs)))).
Proof.
  intros Hi. rewrite rolling_flag_value by exact Hi.
  change (5 <=? S i)%nat with (4 <=? i)%nat. rewrite Zsum_b2z_count. reflexivity.
Qed.

Lemma nth_error_col {A : Type} (col : list A) i d :
  (i < length col)%nat -> nth_error col i = Some (nth i col d).
Proof. intros H. apply nth_error_nth'. exact H. Qed.

Lemma rolling_sum_length w m xs : length (rolling_sum w m xs) = length xs.
Proof. apply rolling_length. Qed.

Lemma filter_firstn_lt {A : Type} (p : A -> bool) : forall (l : list A) i b,
  nth_error l i = Some b -> p b = true ->
  (length (List.filter p (firstn i l)) < length (List.filter p l))%nat.
Proof.
  induction l as [|a l IH]; intros [|i] b Hi Hp; simpl in *; try discriminate.
  - injection Hi as ->. rewrite Hp. simpl. lia.
  - specialize (IH i b Hi Hp). destruct (p a); simpl; lia.
Qed.

End RollingFlags.

Section TickerRows.
Import Pandas Derive TickerAnalysis.

(** Row [i] of the Ticker Analysis frame, column by column. *)
Lemma ticker_flag_row data i :
  nth_error (flag data) i
  = match nth_error data i with
    | Some b =>
        Some (mk b (fgt (Buy_Sell_Ratio b) f1_25)
                (nth i (ge_scalar 5
                          (rolling_sum 5 5
                             (bools (map (fun r => fgt (Buy_Sell_Ratio r) f1_25) data))))
                     false)
                (nth i (rolling_sum 2 1 (map (fun r => of_int (Bought r)) data)) NaN)
                (nth i (rolling_sum 2 1 (map (fun r => of_int (Sold r)) data)) NaN))
    | None => None
    end.
Proof.
  unfold flag. rewrite !zap_nth_error, !nth_error_map.
  destruct (nth_error data i) as [b|] eqn:Hb; [|reflexivity].
  assert (Hi : (i < length data)%nat) by (apply nth_error_Some; congruence).
  cbn [option_map].
  rewrite (nth_error_col (ge_scalar 5 _) i false)
    by (rewrite ge_scalar_length, rolling_sum_length, bools_length, length_map; exact Hi).
  rewrite (nth_error_col (rolling_sum 2 1 (map (fun r => of_int (Bought r)) data)) i NaN)
    by (rewrite rolling_sum_length, length_map; exact Hi).
  rewrite (nth_error_col (rolling_sum 2 1 (map (fun r => of_int (Sold r)) data)) i NaN)
    by (rewrite rolling_sum_length, length_map; exact Hi).
  reflexivity.
Qed.

Lemma ticker_accumulation_column data :
  map Accumulation (flag data) = map (fun r => fgt (Buy_Sell_Ratio r) f1_25) data.
Proof.
  apply nth_error_ext. intros i. rewrite !nth_error_map, ticker_flag_row.
  destruct (nth_error data i); reflexivity.
Qed.

(** Row [i] of a two-row rolling sum of an int column with
    [min_periods=1]. *)
Lemma rolling_pair_value xs i :
  (i < length xs)%nat ->
  nth i (rolling_sum 2 1 (map of_int xs)) NaN
  = of_int (match i with
            | O => nth 0 xs 0
            | S j => nth j xs 0 + nth (S j) xs 0
            end).
Proof.
  intros Hi. rewrite rolling_sum_ints by exact Hi.
  destruct i as [|j].
  - destruct xs as [|x xs]; [simpl in Hi; lia|].
    unfold window. simpl. rewrite Z.add_0_r. reflexivity.
  - unfold window. replace (S (S j) - 2)%nat with j by lia.
    assert (Hw : skipn j (firstn (S (S j)) xs) = [nth j xs 0; nth (S j) xs 0]).
    { clear -Hi. revert xs Hi. induction j as [|j IH]; intros xs Hi.
      - destruct xs as [|x [|y xs]]; simpl in Hi; try lia. reflexivity.
      - destruct xs as [|x xs]; [simpl in Hi; lia|].
        change (firstn (S (S (S j))) (x :: xs)) with (x :: firstn (S (S j)) xs).
        change (skipn (S j) (x :: firstn (S (S j)) xs))
          with (skipn j (firstn (S (S j)) xs)).
        rewrite IH by (simpl in Hi; lia). reflexivity. }
    rewrite Hw. simpl. rewrite Z.add_0_r. reflexivity.
Qed.

End TickerRows.

(** X14.  Ticker Analysis: Rolling Accumulation is True on a row exactly
    when the row has at least four rows above it in the loaded frame and
    Accumulation is True on the row and on the four rows above it. *)
Theorem ticker_rolling_accumulation_value data i r :
  nth_error (TickerAnalysis.flag data) i = Some r ->
  TickerAnalysis.Rolling_Accumulation r
  = (4 <=? i)%nat
    && forallb TickerAnalysis.Accumulation
               (Pandas.window 5 i (TickerAnalysis.flag data)).
Proof.
  intros Hr. rewrite <- forallb_of_map, <- window_map, ticker_accumulation_column.
  rewrite ticker_flag_row in Hr.
  destruct (nth_error data i) as [b|] eqn:Hb; [|discriminate].
  injection Hr as <-. cbn [TickerAnalysis.Rolling_Accumulation].
  apply rolling_five_of_five. rewrite length_map. apply nth_error_Some. congruence.
Qed.

Lemma ticker_rolling_accumulation_value_witness :
  let data := Derive.process Derive.Total_Volume_col Derive.Total_Volume_col
                (map (fun d => Inputs.hot (Inputs.jan d) "AAA") [8; 9; 10; 11; 12]%nat) in
  exists r,
    nth_error (TickerAnalysis.flag data) 4 = Some r
    /\ TickerAnalysis.Rolling_Accumulation r
       = (4 <=? 4)%nat
         && forallb TickerAnalysis.Accumulation
                    (Pandas.window 5 4 (TickerAnalysis.flag data)).
Proof.
  intros data. eexists. split; [vm_compute; reflexivity|].
  apply (ticker_rolling_accumulation_value data 4). vm_compute. reflexivity.
Defined.

Section AccumulationRows.
Import Pandas Derive Accumulation.

Lemma accumulation_flag_row data i :
  nth_error (flag data) i
  = match nth_error data i with
    | Some b =>
        Some (mk b (fgt (Buy_Sell_Ratio b) f1_25 && fgt (DP_Index b) (of_int 47))
                (nth i (ge_scalar 3
                          (rolling_sum 5 5
                             (bools (map (fun r => fgt (Buy_Sell_Ratio r) f1_25
                                                   && fgt (DP_Index r) (of_int 47))
                                         data))))
                     false))
    | None => None
    end.
Proof.
  unfold flag. rewrite !zap_nth_error, !nth_error_map.
  destruct (nth_error data i) as [b|] eqn:Hb; [|reflexivity].
  assert (Hi : (i < length data)%nat) by (apply nth_error_Some; congruence).
  cbn [option_map].
  rewrite (nth_error_col (ge_scalar 3 _) i false)
    by (rewrite ge_scalar_length, rolling_sum_length, bools_length, length_map; exact Hi).
  reflexivity.
Qed.

Lemma accumulation_flag_column data :
  map Accumulation (flag data)
  = map (fun r => fgt (Buy_Sell_Ratio r) f1_25 && fgt (DP_Index r) (of_int 47)) data.
Proof.
  apply nth_error_ext. intros i. rewrite !nth_error_map, accumulation_flag_row.
  destruct (nth_error data i); reflexivity.
Qed.

End AccumulationRows.

(** X15.  Accumulation tab: Rolling Accumulation is True on a row exactly
    when the row has at least four rows above it in the loaded frame and
    Accumulation is True on at least three of the five rows that end at
    it, whatever the symbols of these rows are. *)
Theorem accumulation_rolling_value data i r :
  nth_error (Accumulation.flag data) i = Some r ->
  Accumulation.Rolling_Accumulation r
  = (4 <=? i)%nat
    && (3 <=? length (List.filter Accumulation.Accumulation
                        (Pandas.window 5 i (Accumulation.flag data))))%nat.
Proof.
  intros Hr. rewrite <- filter_of_map_length, <- window_map, accumulation_flag_column.
  rewrite accumulation_flag_row in Hr.
  destruct (nth_error data i) as [b|] eqn:Hb; [|discriminate].
  injection Hr as <-. cbn [Accumulation.Rolling_Accumulation].
  rewrite rolling_some_of_five
    by (rewrite length_map; apply nth_error_Some; congruence).
  f_equal.
  match goal with |- (3 <=? Z.of_nat ?n) = _ =>
    destruct (Z.leb_spec 3 (Z.of_nat n)), (Nat.leb_spec 3 n); try reflexivity; lia
  end.
Qed.

Lemma accumulation_rolling_value_witness :
  let data := Derive.process Derive.Total_Volume_col Derive.Total_Volume_col
                [Inputs.hot (Inputs.jan 8) "AAA"; Inputs.quiet (Inputs.jan 8) "BBB";
                 Inputs.hot (Inputs.jan 9) "AAA"; Inputs.quiet (Inputs.jan 9) "BBB";
                 Inputs.hot (Inputs.jan 10) "AAA"] in
  exists r,
    nth_error (Accumulation.flag data) 4 = Some r
    /\ Accumulation.Rolling_Accumulation r
       = (4 <=? 4)%nat
         && (3 <=? length (List.filter Accumulation.Accumulation
                             (Pandas.window 5 4 (Accumulation.flag data))))%nat.
Proof.
  intros data. eexists. split; [vm_compute; reflexivity|].
  apply (accumulation_rolling_value data 4). vm_compute. reflexivity.
Defined.

(** X16.  Accumulation Analysis: Rolling Accumulation is computed inside
    each symbol.  It is True on a row exactly when the symbol has at least
    four rows above the row and the Buy-Sell Ratio of the row and of the
    symbol's four rows before it is above 1.25. *)
Theorem accumulation_analysis_rolling_value data i r :
  nth_error (AccumulationAnalysis.flag data) i = Some r ->
  let same := fun r' => String.eqb (Symbol r') (Symbol (AccumulationAnalysis.base r)) in
  let rank := length (List.filter same (firstn i data)) in
  AccumulationAnalysis.Rolling_Accumulation r
  = (4 <=? rank)%nat
    && forallb AccumulationAnalysis.accumulating
               (Pandas.window 5 rank (List.filter same data)).
Proof.
  intros Hi same rank.
  destruct (flag_columns data) as (Hs & _ & Hr).
  assert (Hro : nth_error (map AccumulationAnalysis.Rolling_Accumulation
                               (AccumulationAnalysis.flag data)) i
                = Some (AccumulationAnalysis.Rolling_Accumulation r)).
  { rewrite nth_error_map, Hi. reflexivity. }
  assert (Hsy : nth_error (map Symbol data) i = Some (Symbol (AccumulationAnalysis.base r))).
  { rewrite <- Hs, nth_error_map, Hi. reflexivity. }
  rewrite nth_error_map in Hsy.
  destruct (nth_error data i) as [b|] eqn:Hb; [|discriminate].
  injection Hsy as Hsy.
  rewrite Hr in Hro. apply (nth_error_nth _ _ false) in Hro. rewrite <- Hro.
  rewrite (groupby_transform_nth _ _ _ _ (Symbol b) (AccumulationAnalysis.accumulating b))
    by (apply nth_error_combine_map, Hb).
  rewrite firstn_combine_map, !group_of_columns, length_map, Hsy.
  fold same. fold rank.
  unfold AccumulationAnalysis.rolling_flags.
  rewrite rolling_five_of_five.
  - rewrite window_map, forallb_of_map. reflexivity.
  - rewrite length_map. apply (filter_firstn_lt same data i b Hb).
    unfold same. rewrite Hsy. apply String.eqb_refl.
Qed.

Lemma accumulation_analysis_rolling_value_witness :
  let data := Derive.process Derive.Total_Volume_col Derive.Total_Volume_col
                (flat_map (fun d => [Inputs.hot (Inputs.jan d) "AAA";
                                     Inputs.quiet (Inputs.jan d) "BBB"])
                          [8; 9; 10; 11; 12]%nat) in
  exists r,
    nth_error (AccumulationAnalysis.flag data) 8 = Some r
    /\ AccumulationAnalysis.Rolling_Accumulation r
       = (4 <=? 4)%nat
         && forallb AccumulationAnalysis.accumulating
              (Pandas.window 5 4
                 (List.filter (fun r' => String.eqb (Symbol r') "AAA") data)).
Proof.
  intros data. eexists. split; [vm_compute; reflexivity|].
  apply (accumulation_analysis_rolling_value data 8). vm_compute. reflexivity.
Defined.

Section CumulativeRows.
Import Pandas Derive.

Lemma cumulate_row data i :
  nth_error (FilterAnalysis.cumulate data) i
  = match nth_error data i with
    | Some b =>
        Some (FilterAnalysis.mk b
                (nth i (rolling_sum 2 1 (map (fun r => of_int (Bought r)) data)) NaN)
                (nth i (rolling_sum 2 1 (map (fun r => of_int (Sold r)) data)) NaN))
    | None => None
    end.
Proof.
  unfold FilterAnalysis.cumulate. rewrite !zap_nth_error, !nth_error_map.
  destruct (nth_error data i) as [b|] eqn:Hb; [|reflexivity].
  assert (Hi : (i < length data)%nat) by (apply nth_error_Some; congruence).
  cbn [option_map].
  rewrite (nth_error_col (rolling_sum 2 1 (map (fun r => of_int (Bought r)) data)) i NaN)
    by (rewrite rolling_sum_length, length_map; exact Hi).
  rewrite (nth_error_col (rolling_sum 2 1 (map (fun r => of_int (Sold r)) data)) i NaN)
    by (rewrite rolling_sum_length, length_map; exact Hi).
  reflexivity.
Qed.

(** The two-row rolling sum of an int column of a frame: the first row
    keeps its own value, every other row adds the value of the row above
    it. *)
Lemma rolling_pair_rows (col : row -> Z) data i b :
  nth_error data i = Some b ->
  nth i (rolling_sum 2 1 (map (fun r => of_int (col r)) data)) NaN
  = of_int (match i with
            | O => col b
            | S j => match nth_error data j with
                     | Some p => col p + col b
                     | None => col b
                     end
            end).
Proof.
  intros Hb.
  assert (Hi : (i < length data)%nat) by (apply nth_error_Some; congruence).
  rewrite <- (map_map col of_int).
  rewrite rolling_pair_value by (rewrite length_map; exact Hi).
  assert (Hn : forall k r, nth_error data k = Some r -> nth k (map col data) 0 = col r).
  { intros k r Hk. apply nth_error_nth. rewrite nth_error_map, Hk. reflexivity. }
  destruct i as [|j].
  - rewrite (Hn _ _ Hb). reflexivity.
  - destruct (nth_error data j) as [p|] eqn:Hp.
    + rewrite (Hn _ _ Hp), (Hn _ _ Hb). reflexivity.
    + apply nth_error_None in Hp. lia.
Qed.

End CumulativeRows.

Section CumulativeFacts.

(** A pair of volumes of at most 2^51 each: binary64 holds them and
    their sum exactly. *)
Lemma pair_sum_exact a b :
  0 <= a <= 2 ^ 51 -> 0 <= b <= 2 ^ 51 ->
  Binary64.of_int a = of_int a
  /\ Binary64.fadd (Binary64.of_int a) (Binary64.of_int b) = of_int (a + b).
Proof.
  intros Ha Hb. split.
  - apply of_int_exact. lia.
  - apply fadd_ints_exact; lia.
Qed.

End CumulativeFacts.

(** X17.  Filter Analysis, on a frame whose Bought and Sold lie between 0
    and 2^51: on the first row of the loaded frame Cumulative Buying and
    Cumulative Selling are the row's Bought and Sold; on every other row
    they are the row's Bought and Sold plus those of the row above it in
    the frame, whichever symbol that row belongs to.  At this size binary64
    holds the volumes and adds them without rounding, so these integers
    are the values of the float64 columns. *)
Theorem filter_cumulative_value data i r :
  Forall (fun b => 0 <= Bought b <= 2 ^ 51 /\ 0 <= Sold b <= 2 ^ 51) data ->
  nth_error (FilterAnalysis.cumulate data) i = Some r ->
  match i with
  | O =>
      FilterAnalysis.Cumulative_Buying r = of_int (Bought (FilterAnalysis.base r))
      /\ FilterAnalysis.Cumulative_Selling r = of_int (Sold (FilterAnalysis.base r))
      /\ Binary64.of_int (Bought (FilterAnalysis.base r))
         = of_int (Bought (FilterAnalysis.base r))
      /\ Binary64.of_int (Sold (FilterAnalysis.base r))
         = of_int (Sold (FilterAnalysis.base r))
  | S j =>
      exists p,
        nth_error (FilterAnalysis.cumulate data) j = Some p
        /\ FilterAnalysis.Cumulative_Buying r
           = of_int (Bought (FilterAnalysis.base p) + Bought (FilterAnalysis.base r))
        /\ FilterAnalysis.Cumulative_Selling r
           = of_int (Sold (FilterAnalysis.base p) + Sold (FilterAnalysis.base r))
        /\ Binary64.fadd (Binary64.of_int (Bought (FilterAnalysis.base p)))
                         (Binary64.of_int (Bought (FilterAnalysis.base r)))
           = of_int (Bought (FilterAnalysis.base p) + Bought (FilterAnalysis.base r))
        /\ Binary64.fadd (Binary64.of_int (Sold (FilterAnalysis.base p)))
                         (Binary64.of_int (Sold (FilterAnalysis.base r)))
           = of_int (Sold (FilterAnalysis.base p) + Sold (FilterAnalysis.base r))
  end.
Proof.
  intros Hbound Hr. rewrite List.Forall_forall in Hbound. rewrite cumulate_row in Hr.
  destruct (nth_error data i) as [b|] eqn:Hb; [|discriminate].
  injection Hr as <-. cbn [FilterAnalysis.Cumulative_Buying FilterAnalysis.Cumulative_Selling
                          FilterAnalysis.base].
  rewrite (rolling_pair_rows Bought data i b Hb), (rolling_pair_rows Sold data i b Hb).
  destruct (Hbound b (nth_error_In _ _ Hb)) as [HbB HbS].
  destruct i as [|j].
  - split; [reflexivity|]. split; [reflexivity|].
    split; apply of_int_exact; lia.
  - destruct (nth_error data j) as [p|] eqn:Hp.
    + destruct (Hbound p (nth_error_In _ _ Hp)) as [HpB HpS].
      eexists. rewrite cumulate_row, Hp. split; [reflexivity|].
      cbn [FilterAnalysis.base].
      split; [reflexivity|]. split; [reflexivity|].
      split; [apply (pair_sum_exact _ _ HpB HbB)|apply (pair_sum_exact _ _ HpS HbS)].
    + apply nth_error_None in Hp.
      assert (S j < length data)%nat by (apply nth_error_Some; congruence). lia.
Qed.

Lemma filter_cumulative_value_witness :
  let data := Derive.process Derive.Total_Volume_col Derive.Total_Volume_col
                [Inputs.hot (Inputs.jan 8) "AAA"; Inputs.quiet (Inputs.jan 8) "BBB"] in
  exists r p,
    nth_error (FilterAnalysis.cumulate data) 1 = Some r
    /\ nth_error (FilterAnalysis.cumulate data) 0 = Some p
    /\ Symbol (FilterAnalysis.base p) <> Symbol (FilterAnalysis.base r)
    /\ FilterAnalysis.Cumulative_Buying r
       = of_int (Bought (FilterAnalysis.base p) + Bought (FilterAnalysis.base r))
    /\ Binary64.fadd (Binary64.of_int (Bought (FilterAnalysis.base p)))
                     (Binary64.of_int (Bought (FilterAnalysis.base r)))
       = of_int (Bought (FilterAnalysis.base p) + Bought (FilterAnalysis.base r)).
Proof.
  intros data.
  destruct (nth_error (FilterAnalysis.cumulate data) 1) as [r|] eqn:Hr;
    [|vm_compute in Hr; discriminate].
  assert (Hbound : Forall (fun b => 0 <= Bought b <= 2 ^ 51 /\ 0 <= Sold b <= 2 ^ 51) data).
  { apply List.Forall_forall. intros b Hin. vm_compute in Hin.
    destruct Hin as [<-|[<-|[]]]; vm_compute; repeat split; discriminate. }
  pose proof (filter_cumulative_value data 1 r Hbound Hr) as (p & Hp & Hb & _ & Hf & _).
  exists r, p. split; [reflexivity|]. split; [exact Hp|].
  split; [|split; [exact Hb|exact Hf]].
  vm_compute in Hr, Hp. injection Hr as <-. injection Hp as <-. discriminate.
Defined.

(** X18.  Ticker Analysis, on a frame whose Bought and Sold lie between 0
    and 2^51: Cumulative Buying and Cumulative Selling are the Bought and
    Sold of the row plus, from the second row on, those of the row above
    it.  At this size binary64 holds the volumes and adds them without
    rounding, so these integers are the values of the float64 columns. *)
Theorem ticker_cumulative_value data i r :
  Forall (fun b => 0 <= Bought b <= 2 ^ 51 /\ 0 <= Sold b <= 2 ^ 51) data ->
  nth_error (TickerAnalysis.flag data) i = Some r ->
  match i with
  | O =>
      TickerAnalysis.Cumulative_Buying r = of_int (Bought (TickerAnalysis.base r))
      /\ TickerAnalysis.Cumulative_Selling r = of_int (Sold (TickerAnalysis.base r))
      /\ Binary64.of_int (Bought (TickerAnalysis.base r))
         = of_int (Bought (TickerAnalysis.base r))
      /\ Binary64.of_int (Sold (TickerAnalysis.base r))
         = of_int (Sold (TickerAnalysis.base r))
  | S j =>
      exists p,
        nth_error (TickerAnalysis.flag data) j = Some p
        /\ TickerAnalysis.Cumulative_Buying r
           = of_int (Bought (TickerAnalysis.base p) + Bought (TickerAnalysis.base r))
        /\ TickerAnalysis.Cumulative_Selling r
           = of_int (Sold (TickerAnalysis.base p) + Sold (TickerAnalysis.base r))
        /\ Binary64.fadd (Binary64.of_int (Bought (TickerAnalysis.base p)))
                         (Binary64.of_int (Bought (TickerAnalysis.base r)))
           = of_int (Bought (TickerAnalysis.base p) + Bought (TickerAnalysis.base r))
        /\ Binary64.fadd (Binary64.of_int (Sold (TickerAnalysis.base p)))
                         (Binary64.of_int (Sold (TickerAnalysis.base r)))
           = of_int (Sold (TickerAnalysis.base p) + Sold (TickerAnalysis.base r))
  end.
Proof.
  intros Hbound Hr. rewrite List.Forall_forall in Hbound. rewrite ticker_flag_row in Hr.
  destruct (nth_error data i) as [b|] eqn:Hb; [|discriminate].
  injection Hr as <-. cbn [TickerAnalysis.Cumulative_Buying TickerAnalysis.Cumulative_Selling
                          TickerAnalysis.base].
  rewrite (rolling_pair_rows Bought data i b Hb), (rolling_pair_rows Sold data i b Hb).
  destruct (Hbound b (nth_error_In _ _ Hb)) as [HbB HbS].
  destruct i as [|j].
  - split; [reflexivity|]. split; [reflexivity|].
    split; apply of_int_exact; lia.
  - destruct (nth_error data j) as [p|] eqn:Hp.
    + destruct (Hbound p (nth_error_In _ _ Hp)) as [HpB HpS].
      eexists. rewrite ticker_flag_row, Hp. split; [reflexivity|].
      cbn [TickerAnalysis.base].
      split; [reflexivity|]. split; [reflexivity|].
      split; [apply (pair_sum_exact _ _ HpB HbB)|apply (pair_sum_exact _ _ HpS HbS)].
    + apply nth_error_None in Hp.
      assert (S j < length data)%nat by (apply nth_error_Some; congruence). lia.
Qed.

Lemma ticker_cumulative_value_witness :
  let data := Derive.process Derive.Total_Volume_col Derive.Total_Volume_col
                [Inputs.hot (Inputs.jan 8) "AAA"; Inputs.quiet (Inputs.jan 9) "AAA"] in
  exists r p,
    nth_error (TickerAnalysis.flag data) 1 = Some r
    /\ nth_error (TickerAnalysis.flag data) 0 = Some p
    /\ TickerAnalysis.Cumulative_Buying r
       = of_int (Bought (TickerAnalysis.base p) + Bought (TickerAnalysis.base r))
    /\ TickerAnalysis.Cumulative_Selling r
       = of_int (Sold (TickerAnalysis.base p) + Sold (TickerAnalysis.base r)).
Proof.
  intros data.
  destruct (nth_error (TickerAnalysis.flag data) 1) as [r|] eqn:Hr;
    [|vm_compute in Hr; discriminate].
  assert (Hbound : Forall (fun b => 0 <= Bought b <= 2 ^ 51 /\ 0 <= Sold b <= 2 ^ 51) data).
  { apply List.Forall_forall. intros b Hin. vm_compute in Hin.
    destruct Hin as [<-|[<-|[]]]; vm_compute; repeat split; discriminate. }
  pose proof (ticker_cumulative_value data 1 r Hbound Hr) as (p & Hp & Hb & Hs & _).
  exists r, p. split; [reflexivity|]. split; [exact Hp|]. split; [exact Hb|exact Hs].
Defined.

Section BuySignalRows.
Import Pandas Derive BuySignal.

Lemma averages_row data i :
  nth_error (averages data) i
  = match nth_error data i with
    | Some b =>
        let kx := combine (map Symbol data) (map DP_Index data) in
        Some (mk b (nth i (groupby_transform kx (rolling_mean 5) NaN) NaN)
                (nth i (groupby_transform kx (rolling_mean 10) NaN) NaN)
                (nth i (groupby_transform kx (rolling_mean 20) NaN) NaN))
    | None => None
    end.
Proof.
  unfold averages. rewrite !zap_nth_error, !nth_error_map.
  destruct (nth_error data i) as [b|] eqn:Hb; [|reflexivity].
  assert (Hi : (i < length data)%nat) by (apply nth_error_Some; congruence).
  cbn [option_map].
  assert (Hlen : forall w,
            length (groupby_transform (combine (map Symbol data) (map DP_Index data))
                      (rolling_mean w) NaN) = length data).
  { intros w. rewrite groupby_transform_length, length_combine, !length_map. lia. }
  rewrite (nth_error_col (groupby_transform _ (rolling_mean 5) NaN) i NaN)
    by (rewrite Hlen; exact Hi).
  rewrite (nth_error_col (groupby_transform _ (rolling_mean 10) NaN) i NaN)
    by (rewrite Hlen; exact Hi).
  rewrite (nth_error_col (groupby_transform _ (rolling_mean 20) NaN) i NaN)
    by (rewrite Hlen; exact Hi).
  reflexivity.
Qed.

(** A grouped rolling mean is NaN on a row that has fewer than [w] rows of
    its symbol up to and including itself. *)
Lemma grouped_mean_short w data i b :
  nth_error data i = Some b ->
  (S (length (List.filter (fun r' => String.eqb (Symbol r') (Symbol b)) (firstn i data)))
   < w)%nat ->
  nth i (groupby_transform (combine (map Symbol data) (map DP_Index data))
           (rolling_mean w) NaN) NaN = NaN.
Proof.
  intros Hb Hrank.
  apply (groupby_transform_short _ _ NaN w i (Symbol b) (DP_Index b)).
  - intros xs j Hj. unfold rolling_mean. apply rolling_short, Hj.
  - apply nth_error_combine_map, Hb.
  - rewrite firstn_combine_map, group_of_columns, length_map. exact Hrank.
Qed.

End BuySignalRows.

(** X19.  Buy Signal: the 5-day, 2-week and 1-month averages of the DP
    Index are computed inside each symbol and are NaN until the symbol has
    5, 10 and 20 rows; a row with fewer than 20 rows of its symbol up to and
    including itself is never a buy signal. *)
Theorem buy_signal_needs_twenty_rows data i r :
  nth_error (BuySignal.averages data) i = Some r ->
  let rows := S (length (List.filter
                           (fun r' => String.eqb (Symbol r') (Symbol (BuySignal.base r)))
                           (firstn i data))) in
  ((rows < 5)%nat -> BuySignal.DP_Index_5D r = NaN)
  /\ ((rows < 10)%nat -> BuySignal.DP_Index_2W r = NaN)
  /\ ((rows < 20)%nat ->
      BuySignal.DP_Index_1M r = NaN /\ BuySignal.signal_ok r = false).
Proof.
  intros Hr rows. rewrite averages_row in Hr.
  destruct (nth_error data i) as [b|] eqn:Hb; [|discriminate].
  cbv zeta in Hr. injection Hr as <-.
  cbn [BuySignal.base BuySignal.DP_Index_5D BuySignal.DP_Index_2W BuySignal.DP_Index_1M] in *.
  split; [|split].
  - intros H. apply (grouped_mean_short 5 data i b Hb H).
  - intros H. apply (grouped_mean_short 10 data i b Hb H).
  - intros H. pose proof (grouped_mean_short 20 data i b Hb H) as E.
    split; [exact E|].
    unfold BuySignal.signal_ok.
    cbn [BuySignal.base BuySignal.DP_Index_5D BuySignal.DP_Index_2W BuySignal.DP_Index_1M].
    rewrite E. change (fgt NaN (of_int 50)) with false.
    rewrite Bool.andb_false_r. reflexivity.
Qed.

Lemma buy_signal_needs_twenty_rows_witness :
  let data := Derive.process Derive.TotalVolume_col Derive.Total_Volume_col
                (flat_map (fun d => [Inputs.hot (Inputs.jan d) "AAA";
                                     Inputs.hot (Inputs.jan d) "BBB"])
                          (seq 1 12)) in
  exists r,
    nth_error (BuySignal.averages data) 23 = Some r
    /\ BuySignal.DP_Index_1M r = NaN /\ BuySignal.signal_ok r = false.
Proof.
  intros data.
  destruct (nth_error (BuySignal.averages data) 23) as [r|] eqn:Hr;
    [|vm_compute in Hr; discriminate].
  exists r. split; [reflexivity|].
  apply (buy_signal_needs_twenty_rows data 23 r Hr).
  assert (Hs : Symbol (BuySignal.base r) = "BBB").
  { vm_compute in Hr. injection Hr as <-. reflexivity. }
  rewrite Hs. vm_compute. lia.
Defined.

(** ** The loading loop *)

Section LoadFacts.
Import Pandas Derive.

(** The loop leaves [data_frames] empty exactly when no requested date
    contributes a frame. *)
Lemma load_nil get_data_for_date keep skip_empty dates :
  load get_data_for_date keep skip_empty dates = []
  <-> forall d, In d dates ->
        match get_data_for_date d with
        | None => True
        | Some daily_data => skip_empty = true /\ List.filter keep daily_data = []
        end.
Proof.
  unfold load. induction dates as [|d dates IH]; [simpl; tauto|].
  cbn [flat_map]. split.
  - intros H. apply app_eq_nil in H as [Hd Hrest]. intros d' [<-|Hin].
    + destruct (get_data_for_date d) as [daily|]; [|exact I].
      destruct (List.filter keep daily) as [|r rs]; [|discriminate].
      destruct skip_empty; [split; reflexivity|discriminate].
    + apply IH; assumption.
  - intros H. assert (Hrest : forall d', In d' dates ->
        match get_data_for_date d' with
        | None => True
        | Some daily_data => skip_empty = true /\ List.filter keep daily_data = []
        end) by (intros d' Hin; apply H; right; exact Hin).
    apply IH in Hrest. rewrite Hrest, app_nil_r.
    specialize (H d (or_introl eq_refl)).
    destruct (get_data_for_date d) as [daily|]; [|reflexivity].
    destruct H as [-> ->]. reflexivity.
Qed.

Lemma filter_nil_iff {A : Type} (p : A -> bool) (l : list A) :
  List.filter p l = [] <-> forall x, In x l -> p x = false.
Proof.
  induction l as [|a l IH]; simpl; [tauto|].
  destruct (p a) eqn:Ha; split.
  - discriminate.
  - intros H. specialize (H a (or_introl eq_refl)). congruence.
  - intros H x [<-|Hin]; [exact Ha|]. apply IH; assumption.
  - intros H. apply IH. intros x Hin. apply H. right. exact Hin.
Qed.

Lemma load_nil_ticker_aux get_data_for_date symbol dates :
  Derive.load get_data_for_date (fun r => String.eqb (Raw.Symbol r) symbol) true dates = []
  <-> forall d daily_data raw,
        In d dates -> get_data_for_date d = Some daily_data ->
        In raw daily_data -> Raw.Symbol raw <> symbol.
Proof.
  rewrite load_nil. split.
  - intros H d daily raw Hd Hget Hraw. specialize (H d Hd). rewrite Hget in H.
    destruct H as [_ H]. apply (proj1 (filter_nil_iff _ _)) with (x := raw) in H;
      [|exact Hraw].
    apply String.eqb_neq. exact H.
  - intros H d Hd. destruct (get_data_for_date d) as [daily|] eqn:Hget; [|exact I].
    split; [reflexivity|]. apply filter_nil_iff. intros raw Hraw.
    apply String.eqb_neq. apply (H d daily raw Hd Hget Hraw).
Qed.

End LoadFacts.

(** X21.  Every row of a tab's frame comes from the file of a requested
    date: its Date is the loop's date, not the Date column of the file, the
    file of that date was available, and the row is a row of that file
    that passed the tab's selection, with Bought the ShortVolume and Sold
    the int64 difference TotalVolume - ShortVolume. *)
Theorem frame_rows_come_from_requested_files
        get_data_for_date keep skip_empty dates avg_col dp_col r :
  In r (Derive.process avg_col dp_col
          (concat (Derive.load get_data_for_date keep skip_empty dates))) ->
  In (Date r) dates
  /\ exists daily_data raw,
       get_data_for_date (Date r) = Some daily_data
       /\ In raw daily_data
       /\ keep raw = true
       /\ Symbol r = Raw.Symbol raw
       /\ ShortVolume r = Raw.ShortVolume raw
       /\ TotalVolume r = Raw.TotalVolume raw
       /\ Bought r = Raw.ShortVolume raw
       /\ Sold r = sub64 (Raw.TotalVolume raw) (Raw.ShortVolume raw).
Proof.
  intros Hin.
  apply in_process in Hin as (raw & Hraw & Hd & Hsy & Hsh & Hto & Hb & Hs & _ & _).
  apply in_load in Hraw as (d & raw0 & daily & Hdates & Hget & Hin0 & Hkeep & ->).
  cbn [Raw.set_Date Raw.Date Raw.Symbol Raw.ShortVolume Raw.TotalVolume] in *.
  rewrite Hd. split; [exact Hdates|].
  exists daily, raw0. repeat split; assumption.
Qed.

Lemma frame_rows_come_from_requested_files_witness :
  let r := hd Inputs.blank_row
              (Derive.process Derive.Total_Volume_col Derive.Total_Volume_col
                 (concat (Derive.load Inputs.three_hot_days Inputs.raw_is_aaa true
                                      Inputs.week))) in
  In (Date r) Inputs.week
  /\ exists daily_data raw,
       Inputs.three_hot_days (Date r) = Some daily_data
       /\ In raw daily_data
       /\ Inputs.raw_is_aaa raw = true
       /\ Symbol r = Raw.Symbol raw
       /\ ShortVolume r = Raw.ShortVolume raw
       /\ TotalVolume r = Raw.TotalVolume raw
       /\ Bought r = Raw.ShortVolume raw
       /\ Sold r = sub64 (Raw.TotalVolume raw) (Raw.ShortVolume raw).
Proof.
  apply (frame_rows_come_from_requested_files
           Inputs.three_hot_days Inputs.raw_is_aaa true Inputs.week
           Derive.Total_Volume_col Derive.Total_Volume_col).
  vm_compute. left. reflexivity.
Defined.

(** X22.  When a tab shows its "No data available" warning.  Ticker
    Analysis: no available file of the range has a row of the symbol.
    Accumulation: every file of the range is missing or has no rows.  Buy
    Signal and Top Dark Pools append a day's frame without looking at its
    rows, so they warn only when every file of the range is missing. *)
Theorem no_data_warning get_data_for_date history_close dates :
  (forall symbol,
     TickerAnalysis.run get_data_for_date symbol dates = None
     <-> forall d daily_data raw,
           In d dates -> get_data_for_date d = Some daily_data ->
           In raw daily_data -> Raw.Symbol raw <> symbol)
  /\ (forall min_volume price_threshold analysis_start_date,
        Accumulation.run get_data_for_date history_close min_volume price_threshold
                         analysis_start_date dates = None
        <-> forall d, In d dates ->
              get_data_for_date d = None \/ get_data_for_date d = Some [])
  /\ (forall min_volume price_threshold signal_start_date analysis_end_date,
        BuySignal.run get_data_for_date history_close min_volume price_threshold
                      signal_start_date analysis_end_date dates = None
        <-> forall d, In d dates -> get_data_for_date d = None)
  /\ (forall min_volume price_threshold analysis_end_date,
        TopDarkPools.run get_data_for_date history_close min_volume price_threshold
                         analysis_end_date dates = None
        <-> forall d, In d dates -> get_data_for_date d = None).
Proof.
  assert (Hnone : forall keep,
            Derive.load get_data_for_date keep false dates = []
            <-> forall d, In d dates -> get_data_for_date d = None).
  { intros keep. rewrite load_nil. split; intros H d Hd; specialize (H d Hd).
    - destruct (get_data_for_date d); [destruct H; discriminate|reflexivity].
    - rewrite H. exact I. }
  split; [|split; [|split]].
  - intros symbol. unfold TickerAnalysis.run, TickerAnalysis.dataset.
    rewrite <- (load_nil_ticker_aux get_data_for_date symbol dates).
    destruct (Derive.load _ _ _ _); simpl; split; congruence.
  - intros mv pt sd. unfold Accumulation.run, Accumulation.dataset.
    transitivity (Derive.load get_data_for_date (fun _ => true) true dates = []).
    { destruct (Derive.load _ _ _ _); simpl; split; congruence. }
    rewrite load_nil. split; intros H d Hd; specialize (H d Hd).
    + destruct (get_data_for_date d) as [daily|]; [|left; reflexivity].
      destruct H as [_ H]. rewrite filter_true in H. right. congruence.
    + destruct H as [->| ->]; [exact I|]. split; reflexivity.
  - intros mv pt sd ed. unfold BuySignal.run, BuySignal.dataset.
    rewrite <- (Hnone (fun _ => true)).
    destruct (Derive.load _ _ _ _); simpl; split; congruence.
  - intros mv pt ed. unfold TopDarkPools.run, TopDarkPools.combined.
    rewrite <- (Hnone (TopDarkPools.daily_ok mv)).
    destruct (Derive.load _ _ _ _); simpl; split; congruence.
Qed.

Lemma no_data_warning_witness :
  let empty_files := fun _ : date => Some (@nil Raw.row) in
  BuySignal.run empty_files Inputs.quote10 Inputs.min_volume Inputs.price_threshold
                (Inputs.jan 8) (Inputs.jan 12) Inputs.week <> None
  /\ Accumulation.run empty_files Inputs.quote10 Inputs.min_volume
                      Inputs.price_threshold (Inputs.jan 8) Inputs.week = None.
Proof.
  intros empty_files.
  destruct (no_data_warning empty_files Inputs.quote10 Inputs.week)
    as (_ & Hacc & Hbuy & _).
  split.
  - intros H.
    pose proof (proj1 (Hbuy _ _ _ _) H (Inputs.jan 8) (or_introl eq_refl)) as H8.
    discriminate.
  - apply (proj2 (Hacc _ _ _)). intros d _. right. reflexivity.
Defined.

(** ** Top Dark Pools: Consistent Accumulation *)

Section ConsistentFacts.
Import Pandas Derive TopDarkPools.

Lemma in_combine_nth {A B : Type} (xs : list A) : forall (ys : list B) x y,
  In (x, y) (combine xs ys) ->
  exists i, nth_error xs i = Some x /\ nth_error ys i = Some y.
Proof.
  induction xs as [|a xs IH]; intros [|b ys] x y H; simpl in H; try contradiction.
  destruct H as [H|H].
  - injection H as -> ->. exists 0%nat. split; reflexivity.
  - destruct (IH ys x y H) as (i & Hx & Hy). exists (S i). split; assumption.
Qed.

(** A row that enters the group-by of [top_dark_pools] is a row of the
    accumulation frame whose Consistent Accumulation flag is True. *)
Lemma consistent_rows acc r :
  In r (map fst (List.filter snd (combine acc (consistent_accumulation acc)))) ->
  exists i, nth_error acc i = Some r
            /\ nth i (consistent_accumulation acc) false = true.
Proof.
  intros H. apply in_map_iff in H as [[r' b] [Hr Hin]]. simpl in Hr. subst r'.
  apply filter_In in Hin as [Hin Hb]. simpl in Hb. subst b.
  apply in_combine_nth in Hin as (i & Hx & Hy). exists i. split; [exact Hx|].
  apply nth_error_nth. exact Hy.
Qed.

End ConsistentFacts.

(** X23.  Top Dark Pools: Consistent Accumulation is computed inside each
    symbol of the per-(Symbol, Date) frame.  It is True on a row exactly
    when the symbol has at least four rows above that row and the mean
    Buy-Sell Ratio of the row and of the symbol's four rows before it is
    above 1.25. *)
Theorem top_dark_pools_consistent_value acc i r :
  nth_error acc i = Some r ->
  let same := fun r' => String.eqb (TopDarkPools.a_Symbol r') (TopDarkPools.a_Symbol r) in
  let rank := length (List.filter same (firstn i acc)) in
  nth i (TopDarkPools.consistent_accumulation acc) false
  = (4 <=? rank)%nat
    && forallb (fun r' => fgt (TopDarkPools.a_Buy_Sell_Ratio r') Derive.f1_25)
               (Pandas.window 5 rank (List.filter same acc)).
Proof.
  intros Hi same rank. unfold TopDarkPools.consistent_accumulation.
  rewrite (groupby_transform_nth _ _ _ _ (TopDarkPools.a_Symbol r)
                                 (TopDarkPools.a_Buy_Sell_Ratio r))
    by (apply nth_error_combine_map, Hi).
  rewrite firstn_combine_map, !group_of_columns, length_map.
  fold same. fold rank.
  rewrite rolling_five_of_five.
  - rewrite map_map, window_map, forallb_of_map. reflexivity.
  - rewrite !length_map. apply (filter_firstn_lt same acc i r Hi).
    unfold same. apply String.eqb_refl.
Qed.

Lemma top_dark_pools_consistent_value_witness :
  let acc := map (fun d => TopDarkPools.mka "AAA" (strftime_iso (Inputs.jan d))
                                            (Fin (3 # 1)) 3000000 1000000)
                 [8; 9; 10; 11; 12]%nat in
  nth 4 (TopDarkPools.consistent_accumulation acc) false
  = (4 <=? 4)%nat
    && forallb (fun r' => fgt (TopDarkPools.a_Buy_Sell_Ratio r') Derive.f1_25)
               (Pandas.window 5 4
                  (List.filter (fun r' => String.eqb (TopDarkPools.a_Symbol r') "AAA") acc)).
Proof.
  intros acc.
  apply (top_dark_pools_consistent_value acc 4
           (TopDarkPools.mka "AAA" (strftime_iso (Inputs.jan 12)) (Fin (3 # 1))
                             3000000 1000000)).
  reflexivity.
Defined.

(** X24.  Top Dark Pools lists a symbol only if the symbol has at least
    five rows in the per-(Symbol, Date) frame [accumulation]. *)
Theorem top_dark_pools_needs_five_days acc :
  Forall (fun p =>
            (5 <= length (List.filter
                            (fun r => String.eqb (TopDarkPools.a_Symbol r)
                                                 (TopDarkPools.p_Symbol p))
                            acc))%nat)
         (TopDarkPools.top_dark_pools acc).
Proof.
  apply List.Forall_forall. intros p Hp.
  assert (Hk : In (TopDarkPools.p_Symbol p)
                  (map TopDarkPools.p_Symbol (TopDarkPools.top_dark_pools acc)))
    by (apply in_map, Hp).
  unfold TopDarkPools.top_dark_pools in Hk.
  rewrite groupby_agg_keys in Hk by reflexivity.
  apply (proj1 (group_keys_in _ _)) in Hk. apply in_map_iff in Hk as [r [Hsym Hr]].
  apply consistent_rows in Hr as (i & Hi & Hflag).
  rewrite <- Hsym.
  pose proof (filter_firstn_lt
                (fun r' => String.eqb (TopDarkPools.a_Symbol r') (TopDarkPools.a_Symbol r))
                acc i r Hi (String.eqb_refl _)) as Hlt.
  destruct (Nat.lt_ge_cases
              (S (length (List.filter
                            (fun r' => String.eqb (TopDarkPools.a_Symbol r')
                                                  (TopDarkPools.a_Symbol r))
                            (firstn i acc)))) 5) as [Hshort|Hlong].
  - rewrite (top_dark_pools_false_on_short_history acc i r Hi Hshort) in Hflag.
    discriminate.
  - lia.
Qed.

(** ** Reversed input *)

Section KeyOrder.
Import Pandas.
Context {K : Type} (kcmp : K -> K -> comparison).
Hypothesis kcmp_eq : forall a b, kcmp a b = Eq -> a = b.
Hypothesis kcmp_refl : forall a, kcmp a a = Eq.
Hypothesis kcmp_antisym : forall a b, kcmp b a = CompOpp (kcmp a b).
Hypothesis kcmp_trans : forall a b c, kcmp a b = Lt -> kcmp b c = Lt -> kcmp a c = Lt.

Lemma insert_key_mem k ks x : In x (insert_key kcmp k ks) <-> x = k \/ In x ks.
Proof.
  induction ks as [|k' ks IH]; simpl; [intuition congruence|].
  destruct (kcmp k k') eqn:E; simpl.
  - apply kcmp_eq in E. subst k'. intuition congruence.
  - intuition congruence.
  - rewrite IH. intuition congruence.
Qed.

Lemma insert_key_strict k ks :
  StronglySorted (fun a b => kcmp a b = Lt) ks -> StronglySorted (fun a b => kcmp a b = Lt) (insert_key kcmp k ks).
Proof.
  induction 1 as [|k' ks Hs IH Hk]; simpl; [repeat constructor|].
  destruct (kcmp k k') eqn:E.
  - constructor; assumption.
  - constructor; [constructor; assumption|].
    constructor; [exact E|]. rewrite List.Forall_forall in *.
    intros x Hx. eapply kcmp_trans; [exact E|apply Hk, Hx].
  - constructor; [exact IH|]. rewrite List.Forall_forall in *.
    intros x Hx. apply insert_key_mem in Hx as [->|Hx]; [|apply Hk, Hx].
    rewrite kcmp_antisym, E. reflexivity.
Qed.

Lemma group_keys_strict ks : StronglySorted (fun a b => kcmp a b = Lt) (group_keys kcmp ks).
Proof.
  unfold group_keys.
  assert (H : forall acc,
             StronglySorted (fun a b => kcmp a b = Lt) acc ->
             StronglySorted (fun a b => kcmp a b = Lt) (fold_left (fun acc k => insert_key kcmp k acc) ks acc)).
  { induction ks as [|k ks IH]; intros acc Hacc; simpl; [exact Hacc|].
    apply IH, insert_key_strict, Hacc. }
  apply H. constructor.
Qed.

Lemma group_keys_mem ks x : In x (group_keys kcmp ks) <-> In x ks.
Proof.
  unfold group_keys.
  assert (H : forall acc,
             In x (fold_left (fun acc k => insert_key kcmp k acc) ks acc)
             <-> In x ks \/ In x acc).
  { induction ks as [|k ks IH]; intros acc; simpl; [tauto|].
    rewrite IH, insert_key_mem. intuition congruence. }
  rewrite H. simpl. tauto.
Qed.

(** Two strictly ascending lists with the same members are equal. *)
Lemma strictly_sorted_ext l1 : forall l2,
  StronglySorted (fun a b => kcmp a b = Lt) l1 -> StronglySorted (fun a b => kcmp a b = Lt) l2 ->
  (forall x, In x l1 <-> In x l2) -> l1 = l2.
Proof.
  assert (Hirr : forall a, kcmp a a <> Lt).
  { intros a H. rewrite kcmp_refl in H. discriminate. }
  induction l1 as [|x t1 IH]; intros [|y t2] H1 H2 Hm.
  - reflexivity.
  - destruct (proj2 (Hm y) (or_introl eq_refl)).
  - destruct (proj1 (Hm x) (or_introl eq_refl)).
  - inversion H1 as [|? ? Ht1 Hx]; subst. inversion H2 as [|? ? Ht2 Hy]; subst.
    rewrite List.Forall_forall in Hx, Hy.
    assert (Hxy : x = y).
    { destruct (proj1 (Hm x) (or_introl eq_refl)) as [E|Hin]; [congruence|].
      destruct (proj2 (Hm y) (or_introl eq_refl)) as [E|Hin']; [congruence|].
      exfalso. apply (Hirr x). eapply kcmp_trans; [apply Hx, Hin'|apply Hy, Hin]. }
    subst y. f_equal. apply IH; try assumption.
    intros z. split; intros Hz.
    + destruct (proj1 (Hm z) (or_intror Hz)) as [E|Hin]; [|exact Hin].
      subst z. exfalso. apply (Hirr x), Hx, Hz.
    + destruct (proj2 (Hm z) (or_intror Hz)) as [E|Hin]; [|exact Hin].
      subst z. exfalso. apply (Hirr x), Hy, Hz.
Qed.

(** The group keys do not depend on the order of the rows. *)
Lemma group_keys_rev ks : group_keys kcmp (rev ks) = group_keys kcmp ks.
Proof.
  apply strictly_sorted_ext; try apply group_keys_strict.
  intros x. rewrite !group_keys_mem. symmetry. apply in_rev.
Qed.

Lemma filter_key_short {A : Type} (key : A -> K) k rows :
  List.NoDup (map key rows) ->
  (length (List.filter (fun r => match kcmp (key r) k with Eq => true | _ => false end)
                       rows) <= 1)%nat.
Proof.
  induction rows as [|r rows IH]; intros Hn; simpl; [lia|].
  inversion Hn as [|? ? Hr Hrest]; subst. specialize (IH Hrest).
  destruct (kcmp (key r) k) eqn:E; try exact IH.
  apply kcmp_eq in E. subst k. simpl.
  assert (Hnil : List.filter
                   (fun r' => match kcmp (key r') (key r) with Eq => true | _ => false end)
                   rows = []).
  { destruct (List.filter _ rows) as [|r' l] eqn:Hf; [reflexivity|].
    exfalso. assert (Hin : In r' (r' :: l)) by (left; reflexivity).
    rewrite <- Hf in Hin. apply filter_In in Hin as [Hin Hk].
    destruct (kcmp (key r') (key r)) eqn:E'; try discriminate.
    apply kcmp_eq in E'. apply Hr. rewrite <- E'. apply in_map, Hin. }
  rewrite Hnil. simpl. lia.
Qed.

Lemma rev_short {A : Type} (l : list A) : (length l <= 1)%nat -> rev l = l.
Proof. destruct l as [|a [|b l]]; simpl; intros H; try reflexivity; lia. Qed.

(** With one row per key, [groupby(...).agg(...)] gives the same frame on
    the rows in reverse order: the groups are the same single rows and
    the keys come out in ascending order either way. *)
Lemma groupby_agg_rev {A B : Type} (key : A -> K) (agg : K -> list A -> B) rows :
  List.NoDup (map key rows) ->
  groupby_agg kcmp key agg (rev rows) = groupby_agg kcmp key agg rows.
Proof.
  intros Hn. unfold groupby_agg. rewrite map_rev, group_keys_rev.
  apply map_ext. intros k. f_equal.
  rewrite filter_rev. apply rev_short, filter_key_short, Hn.
Qed.

End KeyOrder.

Section PairOrder.
Import Pandas.

Lemma pair_compare_eq a b : pair_compare a b = Eq -> a = b.
Proof.
  unfold pair_compare. destruct a as [a1 a2], b as [b1 b2]. simpl.
  destruct (String.compare a1 b1) eqn:E1; try discriminate.
  intros E2. apply String.compare_eq_iff in E1, E2. congruence.
Qed.

Lemma pair_compare_refl a : pair_compare a a = Eq.
Proof. unfold pair_compare. rewrite !string_compare_refl. reflexivity. Qed.

Lemma pair_compare_antisym a b : pair_compare b a = CompOpp (pair_compare a b).
Proof.
  unfold pair_compare.
  rewrite (String.compare_antisym (fst a) (fst b)), (String.compare_antisym (snd a) (snd b)).
  destruct (String.compare (fst b) (fst a)), (String.compare (snd b) (snd a)); reflexivity.
Qed.

Lemma pair_compare_trans a b c :
  pair_compare a b = Lt -> pair_compare b c = Lt -> pair_compare a c = Lt.
Proof.
  unfold pair_compare.
  destruct (String.compare (fst a) (fst b)) eqn:E1; try discriminate;
    destruct (String.compare (fst b) (fst c)) eqn:E2; try discriminate; intros H1 H2.
  - apply String.compare_eq_iff in E1, E2. rewrite E1, E2, string_compare_refl.
    eapply string_compare_lt_trans; eassumption.
  - apply String.compare_eq_iff in E1. rewrite E1, E2. reflexivity.
  - apply String.compare_eq_iff in E2. rewrite <- E2, E1. reflexivity.
  - rewrite (string_compare_lt_trans _ _ _ E1 E2). reflexivity.
Qed.

(** Top Dark Pools: with one row per symbol and day, the per-(Symbol,
    Date) frame does not depend on the order of the rows. *)
Lemma accumulation_rev combined_data :
  List.NoDup (map (fun r => (Symbol r, Date_str r)) combined_data) ->
  TopDarkPools.accumulation (rev combined_data) = TopDarkPools.accumulation combined_data.
Proof.
  intros Hn. unfold TopDarkPools.accumulation.
  apply (groupby_agg_rev pair_compare pair_compare_eq pair_compare_refl
                         pair_compare_antisym pair_compare_trans).
  exact Hn.
Qed.

End PairOrder.

Section ReversedFrames.
Import Pandas Derive.

Lemma price_block_rev {A : Type} hc (symbol : A -> string) thr data :
  price_block hc symbol thr (rev data) = rev (price_block hc symbol thr data).
Proof. rewrite !price_block_map, filter_rev, map_rev. reflexivity. Qed.

Lemma buy_signal_survivors_rev hc mv pt s e data :
  Configs.buy_signal_survivors hc mv pt s e (rev data)
  = rev (Configs.buy_signal_survivors hc mv pt s e data).
Proof.
  unfold Configs.buy_signal_survivors. rewrite !filter_rev. apply price_block_rev.
Qed.

Lemma accumulation_survivors_rev hc mv pt sd data :
  Configs.accumulation_survivors hc mv pt sd (rev data)
  = rev (Configs.accumulation_survivors hc mv pt sd data).
Proof.
  unfold Configs.accumulation_survivors. rewrite !filter_rev. apply price_block_rev.
Qed.

Lemma filter_survivors_rev hc mv pt q dp side sd data :
  Configs.filter_survivors hc mv pt q dp side sd (rev data)
  = rev (Configs.filter_survivors hc mv pt q dp side sd data).
Proof.
  unfold Configs.filter_survivors. rewrite !filter_rev. apply price_block_rev.
Qed.

Lemma total_order_ticker_keys :
  Forall total_order
         [by_col (fun r => Date (TickerAnalysis.base r)) desc_date].
Proof.
  constructor; [|constructor]. apply total_order_by_col, total_order_desc_date.
Qed.

End ReversedFrames.

(** Accumulation Analysis shows its rows in frame order: on the week in
    which AAA and BBB accumulate every day, the table of the last day
    lists AAA then BBB, and the table of the reversed frame BBB then
    AAA. *)
Lemma accumulation_analysis_depends_on_row_order :
  match AccumulationAnalysis.dataset Inputs.two_hot Inputs.week with
  | Some data =>
      map (fun r => Symbol (AccumulationAnalysis.base r))
          (AccumulationAnalysis.pipeline Inputs.min_volume (Inputs.jan 12) data)
      = ["AAA"; "BBB"]%string
      /\ map (fun r => Symbol (AccumulationAnalysis.base r))
             (AccumulationAnalysis.pipeline Inputs.min_volume (Inputs.jan 12) (rev data))
         = ["BBB"; "AAA"]%string
  | None => False
  end.
Proof. vm_compute. split; reflexivity. Qed.

(** C9 (as amended).  A tab that sorts gives the same table on a frame
    and on the same frame with its rows in reverse order, provided no
    two different rows among those that reach the sort tie on every
    sort key: Volume Buy, Volume Sell, Buy Signal, Accumulation, Filter
    Analysis and Ticker Analysis.  Top Dark Pools sorts a frame that
    its group-by has put in symbol order, so with one row per symbol
    and day its table is the same on the reversed frame, ties or not.
    Accumulation Analysis does not sort: the table of the reversed frame
    is the reversed table. *)
Theorem ranked_tables_ignore_row_order history_close min_volume price_threshold :
  (forall daily_data,
      Pandas.distinct_keys VolumeAnalysis.buy_keys
                           (Configs.buy_survivors min_volume daily_data) ->
      VolumeAnalysis.buy_pipeline history_close min_volume price_threshold
                                  (rev daily_data)
      = VolumeAnalysis.buy_pipeline history_close min_volume price_threshold
                                    daily_data)
  /\ (forall daily_data,
         Pandas.distinct_keys VolumeAnalysis.sell_keys
                              (Configs.sell_survivors min_volume daily_data) ->
         VolumeAnalysis.sell_pipeline history_close min_volume price_threshold
                                      (rev daily_data)
         = VolumeAnalysis.sell_pipeline history_close min_volume price_threshold
                                        daily_data)
  /\ (forall signal_start_date analysis_end_date combined_data,
         Pandas.distinct_keys BuySignal.keys
           (Configs.buy_signal_survivors history_close min_volume price_threshold
              signal_start_date analysis_end_date combined_data) ->
         BuySignal.pipeline history_close min_volume price_threshold
                            signal_start_date analysis_end_date (rev combined_data)
         = BuySignal.pipeline history_close min_volume price_threshold
                              signal_start_date analysis_end_date combined_data)
  /\ (forall analysis_start_date data,
         Pandas.distinct_keys Accumulation.keys
           (Configs.accumulation_survivors history_close min_volume price_threshold
              analysis_start_date data) ->
         Accumulation.pipeline history_close min_volume price_threshold
                               analysis_start_date (rev data)
         = Accumulation.pipeline history_close min_volume price_threshold
                                 analysis_start_date data)
  /\ (forall buy_sell_ratio dp_index buy_or_sell analysis_start_date data,
         Pandas.distinct_keys (FilterAnalysis.keys buy_or_sell)
           (Configs.filter_survivors history_close min_volume price_threshold
              buy_sell_ratio dp_index buy_or_sell analysis_start_date data) ->
         FilterAnalysis.pipeline history_close min_volume price_threshold
                                 buy_sell_ratio dp_index buy_or_sell
                                 analysis_start_date (rev data)
         = FilterAnalysis.pipeline history_close min_volume price_threshold
                                   buy_sell_ratio dp_index buy_or_sell
                                   analysis_start_date data)
  /\ (forall data,
         Pandas.distinct_keys
           [Pandas.by_col (fun r => Date (TickerAnalysis.base r)) Pandas.desc_date] data ->
         TickerAnalysis.table (rev data) = TickerAnalysis.table data)
  /\ (forall analysis_end_date combined_data,
         List.NoDup (map (fun r => (Symbol r, Date_str r)) combined_data) ->
         TopDarkPools.table history_close price_threshold analysis_end_date
           (TopDarkPools.top_dark_pools (TopDarkPools.accumulation (rev combined_data)))
         = TopDarkPools.table history_close price_threshold analysis_end_date
             (TopDarkPools.top_dark_pools (TopDarkPools.accumulation combined_data)))
  /\ (forall analysis_end_date data,
         AccumulationAnalysis.pipeline min_volume analysis_end_date (rev data)
         = rev (AccumulationAnalysis.pipeline min_volume analysis_end_date data)).
Proof.
  split; [|split; [|split; [|split; [|split; [|split; [|split]]]]]].
  - intros data Hd. unfold VolumeAnalysis.buy_pipeline.
    change (map VolumeAnalysis.buy_tag
              (List.filter VolumeAnalysis.buy_ratio_ok
                 (List.filter (Derive.volume_ok min_volume) (rev data))))
      with (Configs.buy_survivors min_volume (rev data)).
    rewrite buy_survivors_rev.
    rewrite (sort_values_rev _ total_order_buy_keys _ Hd). reflexivity.
  - intros data Hd. unfold VolumeAnalysis.sell_pipeline.
    change (map VolumeAnalysis.sell_tag
              (List.filter VolumeAnalysis.sell_ratio_ok
                 (List.filter (Derive.volume_ok min_volume) (rev data))))
      with (Configs.sell_survivors min_volume (rev data)).
    rewrite sell_survivors_rev.
    rewrite (sort_values_rev _ total_order_sell_keys _ Hd). reflexivity.
  - intros s e data Hd.
    change (BuySignal.pipeline history_close min_volume price_threshold s e (rev data))
      with (Pandas.head 50
              (Pandas.sort_values BuySignal.keys
                 (Configs.buy_signal_survivors history_close min_volume price_threshold
                    s e (rev data)))).
    rewrite buy_signal_survivors_rev.
    rewrite (sort_values_rev _ total_order_buy_signal_keys _ Hd). reflexivity.
  - intros sd data Hd.
    change (Accumulation.pipeline history_close min_volume price_threshold sd (rev data))
      with (Pandas.head 50
              (Pandas.sort_values Accumulation.keys
                 (Configs.accumulation_survivors history_close min_volume price_threshold
                    sd (rev data)))).
    rewrite accumulation_survivors_rev.
    rewrite (sort_values_rev _ total_order_accumulation_keys _ Hd). reflexivity.
  - intros q dp side sd data Hd.
    change (FilterAnalysis.pipeline history_close min_volume price_threshold q dp side
                                    sd (rev data))
      with (Pandas.sort_values (FilterAnalysis.keys side)
              (Configs.filter_survivors history_close min_volume price_threshold
                 q dp side sd (rev data))).
    rewrite filter_survivors_rev.
    rewrite (sort_values_rev _ (total_order_filter_keys side) _ Hd). reflexivity.
  - intros data Hd. unfold TickerAnalysis.table.
    rewrite (sort_values_rev _ total_order_ticker_keys _ Hd). reflexivity.
  - intros d data Hn. rewrite (accumulation_rev data Hn). reflexivity.
  - intros d data. unfold AccumulationAnalysis.pipeline. rewrite !filter_rev. reflexivity.
Qed.

Lemma ranked_tables_ignore_row_order_witness :
  let frame := Derive.process Derive.TotalVolume_col Derive.TotalVolume_col
                 [Inputs.hot (Inputs.jan 12) "AAA";
                  Raw.mk (Inputs.jan 12) "BBB" 10500000 12000000] in
  length (VolumeAnalysis.buy_pipeline Inputs.quote10 Inputs.min_volume
                                      Inputs.price_threshold frame) = 2%nat
  /\ VolumeAnalysis.buy_pipeline Inputs.quote10 Inputs.min_volume Inputs.price_threshold
                                 (rev frame)
     = VolumeAnalysis.buy_pipeline Inputs.quote10 Inputs.min_volume Inputs.price_threshold
                                   frame.
Proof.
  intros frame. split; [vm_compute; reflexivity|].
  refine (proj1 (ranked_tables_ignore_row_order Inputs.quote10 Inputs.min_volume
                   Inputs.price_threshold) frame _).
  apply (no_ties_distinct _ total_order_buy_keys). vm_compute. reflexivity.
Defined.
